(** * TypedAPI tester addon: the contract validator of [TypedAPIAdapter.ts]

    A shallow embedding of [src/src/TypedAPIAdapter.ts].  The adapter reads
    a contract file, extracts the object literal bound to [Contract] and
    runs rule-based checks over the extracted description.  The embedding
    keeps the shape of the TypeScript:

    - JavaScript values are a tagged union; objects are association lists
      in enumeration order ([Object.keys] order decides the mock
      fallback) and property reads see the members of the built-in
      prototypes;
    - numbers are the doubles with an integer value, the infinities and
      [NaN]: [parseInt] rounds to the nearest double and [toString]
      prints the shortest decimal that reads back as the double;
    - a thrown [Error] is a [Throw] carrying its message, and each
      [try]/[catch] of the adapter is a [try_catch];
    - the cached compiler program, the calls of [Math.random] and the
      readings of the clock are threaded as the state of the adapter;
    - Node's [path] and [fs] and the [typescript] front end are the fields
      of a [Host].

    The first part holds the definitions, the second the results:
    coherence of [success], unreadable files, idempotence, the rules of
    [validateContract], requests against a contract, the mock fallback.
    [console.log] and [console.warn] are left out. *)

From Stdlib Require Import ZArith List Bool Ascii String Lia.
From Stdlib Require Import DecimalString HexadecimalString DecimalPos.
Import ListNotations.

Set Warnings "-register-all".

Open Scope string_scope.
Open Scope Z_scope.

(** ** JavaScript strings

    Strings are sequences of code units below 256 (the Latin-1 range). *)

Module JsString.

Definition code (c : ascii) : Z := Z.of_N (N_of_ascii c).

Definition in_range (lo hi : ascii) (c : ascii) : bool :=
  (code lo <=? code c) && (code c <=? code hi).

Definition is_digit (c : ascii) : bool := in_range "0" "9" c.
Definition is_lower (c : ascii) : bool := in_range "a" "z" c.
Definition is_upper (c : ascii) : bool := in_range "A" "Z" c.

(** The character class [[a-zA-Z0-9_]]. *)
Definition is_word_char (c : ascii) : bool :=
  is_lower c || is_upper c || is_digit c || Ascii.eqb c "_".

(** [StrWhiteSpaceChar] restricted to code units below 256:
    TAB, LF, VT, FF, CR, SP and NBSP. *)
Definition is_whitespace (c : ascii) : bool :=
  let n := code c in
  ((9 <=? n) && (n <=? 13)) || (n =? 32) || (n =? 160).

(** [String.prototype.startsWith]. *)
Definition startsWith (s p : string) : bool := String.prefix p s.

(** [String.prototype.includes]. *)
Fixpoint includes (s needle : string) : bool :=
  String.prefix needle s
  || match s with
     | EmptyString => false
     | String _ s' => includes s' needle
     end.

Definition upper_char (c : ascii) : ascii :=
  if is_lower c then ascii_of_N (N_of_ascii c - 32) else c.

(** [String.prototype.toUpperCase] on ASCII letters (the adapter only
    calls it on the method names post, put and patch). *)
Fixpoint toUpperCase (s : string) : string :=
  match s with
  | EmptyString => EmptyString
  | String c s' => String (upper_char c) (toUpperCase s')
  end.

(** [Array.prototype.join] on an array of strings. *)
Definition join (sep : string) (l : list string) : string := String.concat sep l.

(** [String.prototype.substring(from, to)] for [from <= to]. *)
Definition substring (from to : nat) (s : string) : string :=
  String.substring from (Nat.min to (String.length s) - from) s.

Definition of_nat (n : nat) : string :=
  DecimalString.NilZero.string_of_uint (Nat.to_uint n).

Definition of_Z (z : Z) : string :=
  DecimalString.NilZero.string_of_int (Z.to_int z).

(** [n.toString(16)] on an integer. *)
Definition hex_of_Z (z : Z) : string :=
  HexadecimalString.NilZero.string_of_int (Z.to_hex_int z).

End JsString.

(** ** JavaScript numbers

    A number is a double.  The adapter only meets the doubles whose value
    is an integer, the infinities and [NaN]: it reads numbers with
    [parseInt], compares them with integer constants and prints them.
    [Num z] is the double of value [z]; an integer [z] that is no double
    stands for the double nearest to it.  Fractional values are outside
    the model. *)

Inductive number : Type :=
| NaN
| Num (z : Z)
| Infinity (negative : bool).

Module JsNumber.

(** 2^53: every integer below it is a double. *)
Definition two53 : Z := 9007199254740992.

(** The double nearest to the integer [v >= 0]: above 2^53 a double keeps
    53 significant bits, and a tie goes to the even significand. *)
Definition nearest (v : Z) : Z :=
  if v <? two53 then v
  else
    let shift := Z.log2 v - 52 in
    let q := Z.shiftr v shift in
    let r := v - Z.shiftl q shift in
    let half := Z.shiftl 1 (shift - 1) in
    let q' := if (half <? r) || ((r =? half) && Z.odd q) then q + 1 else q in
    Z.shiftl q' shift.

(** The Number value of a mathematical integer; it is an infinity from
    2^1024 on, after rounding. *)
Definition of_integer (z : Z) : number :=
  let v := nearest (Z.abs z) in
  if Z.shiftl 1 1024 <=? v then Infinity (z <? 0) else Num (Z.sgn z * v).

Definition isNaN (n : number) : bool :=
  match n with NaN => true | _ => false end.

(** [a < b], [a > b], [a >= b]: every comparison with [NaN] is false. *)
Definition lt (a b : number) : bool :=
  match a, b with
  | Num x, Num y => x <? y
  | Infinity true, Num _ | Num _, Infinity false | Infinity true, Infinity false => true
  | _, _ => false
  end.
Definition gt (a b : number) : bool := lt b a.
Definition ge (a b : number) : bool :=
  match a, b with
  | NaN, _ | _, NaN => false
  | _, _ => negb (lt a b)
  end.

(** [a === b] on numbers. *)
Definition strict_eq (a b : number) : bool :=
  match a, b with
  | Num x, Num y => x =? y
  | Infinity s, Infinity t => Bool.eqb s t
  | _, _ => false
  end.

(** The decimal that [Number::toString] selects for a double [v] from
    2^53 on.  Among the decimals [s * 10^j] that round to [v] it has the
    fewest significant digits; among those it is the closest to [v], and
    the one with [s] even on a tie.  [lo2] and [hi2] are twice the bounds
    of the interval of the reals that round to [v]; the bounds belong to
    it when the significand of [v] is even ([closed]).  The search goes
    from the largest power of ten down. *)
Fixpoint shortest (v lo2 hi2 : Z) (closed : bool) (j : nat) : Z :=
  let p := 10 ^ Z.of_nat j in
  let below := v / p * p in
  let above := if below =? v then v else below + p in
  let fits := fun c =>
    if closed then (lo2 <=? 2 * c) && (2 * c <=? hi2)
    else (lo2 <? 2 * c) && (2 * c <? hi2) in
  match fits below, fits above with
  | true, true =>
      if v - below <? above - v then below
      else if above - v <? v - below then above
      else if Z.even (below / p) then below else above
  | true, false => below
  | false, true => above
  | false, false =>
      match j with
      | O => v
      | S j' => shortest v lo2 hi2 closed j'
      end
  end.

(** The gap to the next double above [v] is [2^e]; the gap below is the
    same, or half of it when [v] is a power of two. *)
Definition shortest_decimal (v : Z) : Z :=
  let e := Z.log2 v - 52 in
  let m := Z.shiftr v e in
  let up := Z.shiftl 1 e in
  let down := if m =? 4503599627370496 then Z.shiftl 1 (e - 1) else up in
  shortest v (2 * v - down) (2 * v + up) (Z.even m)
    (String.length (JsString.of_Z v)).

Fixpoint strip_zeros (s : string) : string :=
  match s with
  | EmptyString => EmptyString
  | String c s' =>
      match strip_zeros s' with
      | EmptyString => if Ascii.eqb c "0" then EmptyString else String c EmptyString
      | t => String c t
      end
  end.

(** The form [d.ddde+n], used from 10^21 on. *)
Definition exponential (c : Z) : string :=
  let digits := JsString.of_Z c in
  let exponent := "e+" ++ JsString.of_nat (String.length digits - 1) in
  match strip_zeros digits with
  | EmptyString => digits
  | String d EmptyString => String d exponent
  | String d rest => String d (String "." (rest ++ exponent))
  end.

(** The rendering of a double [v >= 0] with an integer value. *)
Definition render (v : Z) : string :=
  if v <? two53 then JsString.of_Z v
  else
    let c := shortest_decimal v in
    if c <? 1000000000000000000000 then JsString.of_Z c else exponential c.

Definition infinity (negative : bool) : string :=
  if negative then "-Infinity" else "Infinity".

(** [Number.prototype.toString()]. *)
Definition toString (n : number) : string :=
  match n with
  | NaN => "NaN"
  | Infinity negative => infinity negative
  | Num z =>
      match of_integer z with
      | Num d => (if d <? 0 then "-" else "") ++ render (Z.abs d)
      | Infinity negative => infinity negative
      | NaN => "NaN"
      end
  end.

Definition digit_value (c : ascii) : option Z :=
  if JsString.is_digit c then Some (JsString.code c - 48)
  else if JsString.is_lower c then Some (JsString.code c - 87)
  else if JsString.is_upper c then Some (JsString.code c - 55)
  else None.

Fixpoint skip_whitespace (s : string) : string :=
  match s with
  | String c s' => if JsString.is_whitespace c then skip_whitespace s' else s
  | EmptyString => EmptyString
  end.

(** The longest prefix of radix-[R] digits, as an integer; [acc] is [None]
    until a first digit is read. *)
Fixpoint parse_digits (R : Z) (s : string) (acc : option Z) : option Z :=
  match s with
  | EmptyString => acc
  | String c s' =>
      match digit_value c with
      | Some d =>
          if d <? R
          then parse_digits R s' (Some (R * match acc with Some a => a | None => 0 end + d))
          else acc
      | None => acc
      end
  end.

Definition strip_sign (s : string) : Z * string :=
  match s with
  | String "-" s' => (-1, s')
  | String "+" s' => (1, s')
  | _ => (1, s)
  end.

Definition strip_hex_prefix (s : string) : option string :=
  match s with
  | String "0" (String "x" s') => Some s'
  | String "0" (String "X" s') => Some s'
  | _ => None
  end.

(** [parseInt(string, radix)]; [radix = None] is an omitted radix.  The
    digits give a mathematical integer and the result is its Number
    value.  (For a radix other than 2, 4, 8, 10, 16 and 32 an engine may
    approximate that integer; the adapter passes 10 or no radix.) *)
Definition parseInt (s : string) (radix : option Z) : number :=
  let '(sign, s1) := strip_sign (skip_whitespace s) in
  let given := match radix with Some r => r | None => 0 end in
  if negb (given =? 0) && ((given <? 2) || (36 <? given)) then NaN
  else
    let strip := (given =? 0) || (given =? 16) in
    let R0 := if given =? 0 then 10 else given in
    let '(R, s2) :=
      match (if strip then strip_hex_prefix s1 else None) with
      | Some s' => (16, s')
      | None => (R0, s1)
      end in
    match parse_digits R s2 None with
    | None => NaN
    | Some n => of_integer (sign * n)
    end.

End JsNumber.

(** ** Thrown errors

    A JavaScript computation either returns or throws; every [catch] of
    the adapter only reads the [message] of the thrown [Error]. *)

Inductive result (A : Type) : Type :=
| Ok (a : A)
| Throw (message : string).

Arguments Ok {A} a.
Arguments Throw {A} message.

Definition bind {A B : Type} (r : result A) (k : A -> result B) : result B :=
  match r with
  | Ok a => k a
  | Throw m => Throw m
  end.

Declare Scope js_scope.
Delimit Scope js_scope with js.
Notation "x <- r ;; k" := (bind r (fun x => k))
  (at level 61, r at next level, right associativity) : js_scope.
Notation "' pat <- r ;; k" := (bind r (fun pat => k))
  (at level 61, pat pattern, r at next level, right associativity) : js_scope.
Notation "'when' b 'push' x" := (if b then [x] else [])
  (at level 60, b at level 9, x at level 9) : js_scope.
Open Scope js_scope.

(** ** JavaScript values *)

Inductive value : Type :=
| VUndefined
| VNull
| VBool (b : bool)
| VNum (n : number)
| VStr (s : string)
| VObj (props : list (string * value))  (* own properties, in enumeration order *)
| VArr (elems : list value)
| VBuiltin (name : string).             (* a member inherited from a built-in prototype *)

Module Js.

(** The string-keyed members every value inherits from [Object.prototype]. *)
Definition Object_prototype : list string :=
  [ "constructor"; "__defineGetter__"; "__defineSetter__"; "hasOwnProperty";
    "__lookupGetter__"; "__lookupSetter__"; "isPrototypeOf";
    "propertyIsEnumerable"; "toString"; "valueOf"; "__proto__";
    "toLocaleString" ].

Definition inherited (k : string) : bool :=
  existsb (String.eqb k) Object_prototype.

(** The string-keyed members of the prototypes that stand before
    [Object.prototype] in the chain of an array, a string, a number and a
    boolean (ECMAScript 2023, with the legacy string methods). *)
Definition Array_prototype : list string :=
  [ "at"; "concat"; "copyWithin"; "fill"; "find"; "findIndex"; "findLast";
    "findLastIndex"; "lastIndexOf"; "pop"; "push"; "reverse"; "shift";
    "unshift"; "slice"; "sort"; "splice"; "includes"; "indexOf"; "join";
    "keys"; "entries"; "values"; "forEach"; "filter"; "flat"; "flatMap";
    "map"; "every"; "some"; "reduce"; "reduceRight"; "toReversed";
    "toSorted"; "toSpliced"; "with" ].

Definition String_prototype : list string :=
  [ "anchor"; "at"; "big"; "blink"; "bold"; "charAt"; "charCodeAt";
    "codePointAt"; "concat"; "endsWith"; "fontcolor"; "fontsize"; "fixed";
    "includes"; "indexOf"; "isWellFormed"; "italics"; "lastIndexOf"; "link";
    "localeCompare"; "match"; "matchAll"; "normalize"; "padEnd"; "padStart";
    "repeat"; "replace"; "replaceAll"; "search"; "slice"; "small"; "split";
    "strike"; "sub"; "substr"; "substring"; "sup"; "startsWith";
    "toWellFormed"; "trim"; "trimStart"; "trimLeft"; "trimEnd"; "trimRight";
    "toLocaleLowerCase"; "toLocaleUpperCase"; "toLowerCase"; "toUpperCase" ].

Definition Number_prototype : list string :=
  [ "toExponential"; "toFixed"; "toPrecision" ].

(** What [v] inherits before [Object.prototype]; [Boolean.prototype] only
    redefines members of [Object.prototype].  A built-in member is kept
    as an opaque value: what it holds of its own is not modelled. *)
Definition own_prototype (v : value) : list string :=
  match v with
  | VArr _ => Array_prototype
  | VStr _ => String_prototype
  | VNum _ => Number_prototype
  | _ => []
  end.

Fixpoint assoc (props : list (string * value)) (k : string) : option value :=
  match props with
  | [] => None
  | (k', v) :: rest => if String.eqb k' k then Some v else assoc rest k
  end.

Definition indices (len : nat) : list string := map JsString.of_nat (seq 0 len).

(** The element stored under the canonical index string [k]. *)
Definition at_index {A : Type} (l : list A) (k : string) : option A :=
  match find (fun i => String.eqb (JsString.of_nat i) k) (seq 0 (List.length l)) with
  | Some i => nth_error l i
  | None => None
  end.

Fixpoint chars (s : string) : list value :=
  match s with
  | EmptyString => []
  | String c s' => VStr (String c EmptyString) :: chars s'
  end.

(** The own property [k] of [v]. *)
Definition own (v : value) (k : string) : option value :=
  match v with
  | VObj props => assoc props k
  | VArr elems =>
      if String.eqb k "length" then Some (VNum (Num (Z.of_nat (List.length elems))))
      else at_index elems k
  | VStr s =>
      if String.eqb k "length" then Some (VNum (Num (Z.of_nat (String.length s))))
      else at_index (chars s) k
  | _ => None
  end.

(** [v[k]] on a receiver that is neither [null] nor [undefined]. *)
Definition prop (v : value) (k : string) : value :=
  match own v k with
  | Some x => x
  | None =>
      if inherited k || existsb (String.eqb k) (own_prototype v)
      then VBuiltin k else VUndefined
  end.

(** [v.k] and [v[k]]: reading a property of [undefined] or [null] throws
    a TypeError (message of V8). *)
Definition get (v : value) (k : string) : result value :=
  match v with
  | VUndefined => Throw ("Cannot read properties of undefined (reading '" ++ k ++ "')")
  | VNull => Throw ("Cannot read properties of null (reading '" ++ k ++ "')")
  | _ => Ok (prop v k)
  end.

(** [v?.k]. *)
Definition get_opt (v : value) (k : string) : value :=
  match v with
  | VUndefined | VNull => VUndefined
  | _ => prop v k
  end.

(** [ToBoolean]. *)
Definition truthy (v : value) : bool :=
  match v with
  | VUndefined | VNull => false
  | VBool b => b
  | VNum NaN => false
  | VNum (Num z) => negb (z =? 0)
  | VNum (Infinity _) => true
  | VStr s => negb (String.eqb s "")
  | VObj _ | VArr _ | VBuiltin _ => true
  end.

(** [typeof v === 'object']. *)
Definition typeof_object (v : value) : bool :=
  match v with
  | VNull | VObj _ | VArr _ => true
  | _ => false
  end.

(** [typeof v === 'string']. *)
Definition typeof_string (v : value) : bool :=
  match v with VStr _ => true | _ => false end.

Definition isArray (v : value) : bool :=
  match v with VArr _ => true | _ => false end.

(** [v === undefined]. *)
Definition is_undefined (v : value) : bool :=
  match v with VUndefined => true | _ => false end.

(** [v === s] for a string constant [s]. *)
Definition eq_str (v : value) (s : string) : bool :=
  match v with VStr s' => String.eqb s' s | _ => false end.

(** [l.includes(v)] for an array [l] of string constants. *)
Definition includes (l : list string) (v : value) : bool :=
  existsb (eq_str v) l.

(** [Object.keys(v)]. *)
Definition keys (v : value) : result (list string) :=
  match v with
  | VUndefined | VNull => Throw "Cannot convert undefined or null to object"
  | VObj props => Ok (map fst props)
  | VArr elems => Ok (indices (List.length elems))
  | VStr s => Ok (indices (String.length s))
  | _ => Ok []
  end.

Definition strings (l : list string) : value := VArr (map VStr l).

(** The integer a canonical array-index key stands for: such keys are
    enumerated first, in ascending order, before the other keys in
    creation order. *)
Definition index_of (k : string) : option Z :=
  match JsNumber.parse_digits 10 k None with
  | Some n =>
      if String.eqb (JsString.of_Z n) k && (n <? 4294967295) then Some n else None
  | None => None
  end.

Definition is_index (k : string) : bool :=
  match index_of k with Some _ => true | None => false end.

Fixpoint ascending (prev : Z) (ks : list string) : bool :=
  match ks with
  | [] => true
  | k :: rest =>
      match index_of k with
      | Some n => (prev <? n) && ascending n rest
      | None => forallb (fun k' => negb (is_index k')) rest
      end
  end.

Fixpoint distinct (ks : list string) : bool :=
  match ks with
  | [] => true
  | k :: rest => negb (existsb (String.eqb k) rest) && distinct rest
  end.

(** The key lists that [Object.keys] can return. *)
Definition enumeration_order (ks : list string) : bool :=
  ascending (-1) ks && distinct ks.

(** A value whose objects, at every depth, list their properties in an
    order an engine enumerates them in.  The results below hold for
    every value; the example inputs are of this kind. *)
Fixpoint well_formed (v : value) : bool :=
  match v with
  | VObj props =>
      enumeration_order (map fst props)
      && (fix all (l : list (string * value)) : bool :=
            match l with
            | [] => true
            | (_, x) :: rest => well_formed x && all rest
            end) props
  | VArr elems =>
      (fix all (l : list value) : bool :=
         match l with
         | [] => true
         | x :: rest => well_formed x && all rest
         end) elems
  | _ => true
  end.

(** [ToString], as a template literal applies it.  An object answers
    ["[object Object]"] through the inherited [toString]; an own
    [toString] data property hides it and the conversion throws.  An
    array joins the conversions of its elements with commas. *)
Fixpoint to_string (v : value) : result string :=
  match v with
  | VUndefined => Ok "undefined"
  | VNull => Ok "null"
  | VBool true => Ok "true"
  | VBool false => Ok "false"
  | VNum n => Ok (JsNumber.toString n)
  | VStr s => Ok s
  | VObj props =>
      match assoc props "toString" with
      | Some _ => Throw "Cannot convert object to primitive value"
      | None => Ok "[object Object]"
      end
  | VArr elems =>
      parts <- (fix each (l : list value) : result (list string) :=
                  match l with
                  | [] => Ok []
                  | x :: rest =>
                      s <- match x with
                           | VUndefined | VNull => Ok ""
                           | _ => to_string x
                           end ;;
                      ss <- each rest ;;
                      Ok (s :: ss)
                  end) elems ;;
      Ok (JsString.join "," parts)
  | VBuiltin name => Ok ("function " ++ name ++ "() { [native code] }")
  end.

End Js.

(** ** Path placeholders

    [(path.match(/\:[a-zA-Z0-9_]+/g) || []).map(p => p.substring(1))]:
    every maximal run [:name] found scanning left to right, without its
    colon.  [cur] holds the name being read after a colon. *)

Module PathParams.

Definition flush (cur : option string) : list string :=
  match cur with
  | Some EmptyString | None => []
  | Some name => [name]
  end.

Fixpoint scan (s : string) (cur : option string) : list string :=
  match s with
  | EmptyString => flush cur
  | String c s' =>
      match cur with
      | Some name =>
          if JsString.is_word_char c
          then scan s' (Some (name ++ String c EmptyString))
          else (flush cur ++ scan s' (if Ascii.eqb c ":" then Some EmptyString else None))%list
      | None => scan s' (if Ascii.eqb c ":" then Some EmptyString else None)
      end
  end.

Definition placeholders (path : string) : list string := scan path None.

(** [contract.path.match(...)] on whatever value [contract.path] holds. *)
Definition of_value (path : value) : result (list string) :=
  match path with
  | VStr s => Ok (placeholders s)
  | VUndefined => Throw "Cannot read properties of undefined (reading 'match')"
  | VNull => Throw "Cannot read properties of null (reading 'match')"
  | _ => Throw "contract.path.match is not a function"
  end.

End PathParams.

(** ** The syntax tree, as the adapter reads it

    The [typescript] package parses the contract file.  A source file is
    the list of its top-level nodes in the order [ts.forEachChild] visits
    them, and a node keeps what the adapter inspects: the kind, the first
    declaration of a variable statement, the name of a type alias.  An
    object literal initializer is kept with the object that
    [extractContractDetails] builds from it. *)

Inductive Initializer : Type :=
| ObjectLiteralExpression (details : value)
| OtherExpression.

Record VariableDeclaration : Type := {
  decl_identifier : option string;        (* [Some] when [name] is an identifier *)
  decl_initializer : option Initializer
}.

Inductive Node : Type :=
| VariableStatement (declarations : list VariableDeclaration)
| TypeAliasDeclaration (name : string)
| OtherNode.

Definition SourceFile : Type := list Node.

(** [ts.Program], observed through [getSourceFile]. *)
Definition Program : Type := string -> option SourceFile.

(** ** The host: Node's [path] and [fs], the compiler, the clock and
    [Math.random] *)

Record Host : Type := {
  path_isAbsolute : string -> bool;
  path_resolve : string -> string -> string;
  path_basename : string -> string -> string;
  path_extname : string -> string;
  (** [fs.readFile(p, 'utf-8')]: [inl message] when the promise rejects. *)
  fs_readFile : string -> string + string;
  (** [fs.readdirSync(p)]: [inl message] when it throws. *)
  fs_readdirSync : string -> string + list string;
  ts_createProgram : list string -> Program;
  ts_createSourceFile : string -> string -> SourceFile;
  (** [Math.random().toString(36)] for the n-th draw. *)
  random_base36 : nat -> string;
  (** [Math.floor(Math.random() * k)] for the n-th draw. *)
  random_floor : nat -> Z -> Z;
  (** [new Date(Date.now() - ms).toISOString()] at the n-th reading. *)
  date_toISOString : nat -> Z -> string
}.

(** The adapter instance: its configuration and its mutable fields. *)
Record Adapter : Type := {
  contractsBasePath : string;
  program : option Program;
  typeChecker : option unit;
  draws : nat;       (* calls of [Math.random] so far *)
  clock : nat        (* readings of the clock so far *)
}.

Record ContractInfo : Type := {
  ci_path : string;
  ci_content : string;
  ci_contract : value;                 (* [VUndefined] when the field is not set *)
  ci_exportName : option string;
  ci_sourceFile : option SourceFile
}.

Record ValidationResult : Type := {
  success : bool;
  errors : option (list string);
  warnings : option (list string);
  details : option (list (string * value))
}.

Record MockResponse : Type := {
  mock_data : value;
  mock_type : string;
  mock_success : bool
}.

(** [l.length > 0 ? l : undefined]. *)
Definition or_undefined (l : list string) : option (list string) :=
  match l with
  | [] => None
  | _ => Some l
  end.

(** The [errors] of a result as a list: an absent field holds no error. *)
Definition error_list (r : ValidationResult) : list string :=
  match errors r with Some l => l | None => [] end.

Definition warning_list (r : ValidationResult) : list string :=
  match warnings r with Some l => l | None => [] end.

(** [try { body } catch (error) { return handler(error.message) }]. *)
Definition try_catch {A : Type} (body : result A) (handler : string -> result A) : result A :=
  match body with
  | Ok a => Ok a
  | Throw m => handler m
  end.

(** A [for] loop (or [forEach]) whose body pushes messages. *)
Fixpoint for_each {A : Type} (l : list A) (body : A -> result (list string))
  : result (list string) :=
  match l with
  | [] => Ok []
  | x :: rest =>
      here <- body x ;;
      later <- for_each rest body ;;
      Ok (here ++ later)%list
  end.

Definition indexed {A : Type} (l : list A) : list (nat * A) :=
  combine (seq 0 (List.length l)) l.

(** ** The adapter *)

Section TypedAPIAdapter.

Variable host : Host.

Definition endsWith (s suffix : string) : bool :=
  let n := String.length s in
  let k := String.length suffix in
  Nat.leb k n && String.eqb (String.substring (n - k) k s) suffix.

(** [findContractFiles]: a failing [readdirSync] is caught and gives no
    file. *)
Definition findContractFiles (a : Adapter) : list string :=
  match fs_readdirSync host (contractsBasePath a) with
  | inl _ => []
  | inr contractsDir =>
      map (fun file => path_resolve host (contractsBasePath a) file)
          (filter (fun file => endsWith file ".ts" || endsWith file ".js") contractsDir)
  end.

(** [initTypeScriptCompiler]: the program and its type checker are set
    together, and only when a file was found. *)
Definition initTypeScriptCompiler (a : Adapter) : Adapter :=
  match findContractFiles a with
  | [] => a
  | fileNames =>
      {| contractsBasePath := contractsBasePath a;
         program := Some (ts_createProgram host fileNames);
         typeChecker := Some tt;
         draws := draws a;
         clock := clock a |}
  end.

(** [initialize] and [cleanup], without their logging. *)
Definition initialize (a : Adapter) : Adapter := initTypeScriptCompiler a.

Definition cleanup (a : Adapter) : Adapter :=
  {| contractsBasePath := contractsBasePath a;
     program := None;
     typeChecker := None;
     draws := draws a;
     clock := clock a |}.

Definition resolveContractPath (a : Adapter) (contractPath : string) : string :=
  if path_isAbsolute host contractPath then contractPath
  else path_resolve host (contractsBasePath a) contractPath.

(** One step of the [ts.forEachChild] callback of [readContract]: it
    updates the pair [(contract, exportName)]. *)
Definition visit_contract (acc : value * option string) (node : Node)
  : value * option string :=
  match node with
  | VariableStatement (declaration :: _) =>
      match decl_identifier declaration with
      | Some name =>
          if String.eqb name "Contract" then
            (match decl_initializer declaration with
             | Some (ObjectLiteralExpression extracted) => extracted
             | _ => fst acc
             end, Some name)
          else acc
      | None => acc
      end
  | _ => acc
  end.

(** [readContract]: every fault of its body is rethrown with the
    resolved path in the message. *)
Definition readContract (contractPath : string) (a : Adapter)
  : result ContractInfo * Adapter :=
  let resolvedPath := resolveContractPath a contractPath in
  match fs_readFile host resolvedPath with
  | inl message =>
      (Throw ("Failed to read contract file " ++ resolvedPath ++ ": " ++ message), a)
  | inr content =>
      let a1 := match program a with
                | None => initTypeScriptCompiler a
                | Some _ => a
                end in
      match program a1, typeChecker a1 with
      | Some prog, Some _ =>
          match prog resolvedPath with
          | None =>
              (Ok {| ci_path := resolvedPath; ci_content := content;
                     ci_contract := VUndefined; ci_exportName := None;
                     ci_sourceFile := Some (ts_createSourceFile host resolvedPath content) |},
               a1)
          | Some sourceFile =>
              let '(contract, exportName) :=
                fold_left visit_contract sourceFile (VNull, None) in
              (Ok {| ci_path := resolvedPath; ci_content := content;
                     ci_contract := contract; ci_exportName := exportName;
                     ci_sourceFile := Some sourceFile |},
               a1)
          end
      | _, _ =>
          (Ok {| ci_path := resolvedPath; ci_content := content;
                 ci_contract := VUndefined; ci_exportName := None;
                 ci_sourceFile := None |},
           a1)
      end
  end.

(** [path.basename(contractPath, path.extname(contractPath))]. *)
Definition contractName (contractPath : string) : string :=
  path_basename host contractPath (path_extname host contractPath).

Definition failed (message : string) : ValidationResult :=
  {| success := false; errors := Some [message]; warnings := None; details := None |}.

(** The result every validator returns from its collected messages:
    [{ success: errors.length === 0,
       errors: errors.length > 0 ? errors : undefined,
       warnings: warnings.length > 0 ? warnings : undefined, details }]. *)
Definition report (errors warnings : list string) (details : list (string * value))
  : ValidationResult :=
  {| success := Nat.eqb (List.length errors) 0;
     errors := or_undefined errors;
     warnings := or_undefined warnings;
     details := Some details |}.

(** The early return of the validators when no contract was extracted. *)
Definition not_found (message contractPath : string) (info : ContractInfo)
  : ValidationResult :=
  {| success := false;
     errors := Some [message];
     warnings := None;
     details := Some [("contractName", VStr (contractName contractPath));
                      ("path", VStr (ci_path info))] |}.

(** *** [validateContract] *)

Definition requiredFields : list string := ["path"; "method"; "response"].

Definition methods : list string := ["get"; "post"; "put"; "delete"; "patch"].

(** Lines 445-451. *)
Definition check_required (contract : value) : result (list string) :=
  for_each requiredFields (fun field =>
    v <- Js.get contract field ;;
    Ok (when (negb (Js.truthy v)) push ("Missing required field: " ++ field))).

(** Lines 453-456. *)
Definition check_method (contract : value) : result (list string) :=
  method <- Js.get contract "method" ;;
  if Js.truthy method && negb (Js.includes methods method) then
    shown <- Js.to_string method ;;
    Ok ["Invalid method: " ++ shown ++ ". Must be one of: get, post, put, delete, patch"]
  else Ok [].

(** Lines 458-461: [startsWith] only exists on a string. *)
Definition check_path (contract : value) : result (list string) :=
  path <- Js.get contract "path" ;;
  if Js.truthy path then
    match path with
    | VStr s =>
        Ok (when (negb (JsString.startsWith s "/"))
            push ("Invalid path: " ++ s ++ ". Must start with /"))
    | _ => Throw "contract.path.startsWith is not a function"
    end
  else Ok [].

Definition invalid_status (key : string) : bool :=
  let statusCode := JsNumber.parseInt key (Some 10) in
  JsNumber.isNaN statusCode
  || JsNumber.lt statusCode (Num 100)
  || JsNumber.gt statusCode (Num 599).

Definition invalid_status_message (key : string) : string :=
  "Invalid status code in response: " ++ key
  ++ ". Must be a valid HTTP status code (100-599)".

(** Lines 463-477. *)
Definition check_response (contract : value) : result (list string) :=
  response <- Js.get contract "response" ;;
  if Js.truthy response && Js.typeof_object response then
    responseKeys <- Js.keys response ;;
    match responseKeys with
    | [] => Ok ["Response object must have at least one status code"]
    | _ =>
        for_each responseKeys (fun key =>
          Ok (when (invalid_status key) push (invalid_status_message key)))
    end
  else Ok [].

Definition check_string_or_array (v : value) (message : string) : list string :=
  when (Js.truthy v && negb (Js.isArray v) && negb (Js.typeof_string v)) push message.

Definition claim_missing (index : nat) (field : string) : string :=
  "Claim at index " ++ JsString.of_nat index ++ " is missing required field " ++ field.

Definition check_claim (entry : nat * value) : result (list string) :=
  let '(index, claim) := entry in
  userClaimPath <- Js.get claim "userClaimPath" ;;
  routeParamName <- Js.get claim "routeParamName" ;;
  Ok (app (when (negb (Js.truthy userClaimPath))
           push (claim_missing index "userClaimPath"))
          (when (negb (Js.truthy routeParamName))
           push (claim_missing index "routeParamName"))).

Definition check_claims (claims : value) : result (list string) :=
  if Js.truthy claims then
    match claims with
    | VArr elems => for_each (indexed elems) check_claim
    | _ => Ok ["Authorization claims must be an array"]
    end
  else Ok [].

(** Lines 479-513. *)
Definition check_auth (contract : value) : result (list string) :=
  auth <- Js.get contract "auth" ;;
  if Js.truthy auth then
    authorization <- Js.get auth "authorization" ;;
    if Js.truthy authorization then
      roles <- Js.get authorization "roles" ;;
      scopes <- Js.get authorization "scopes" ;;
      claims <- Js.get authorization "claims" ;;
      claim_errors <- check_claims claims ;;
      Ok (check_string_or_array roles
            "Authorization roles must be a string or array of strings"
          ++ check_string_or_array scopes
               "Authorization scopes must be a string or array of strings"
          ++ claim_errors)%list
    else Ok []
  else Ok [].

(** Lines 515-524. *)
Definition check_params_schema (contract : value) : result (list string) :=
  path <- Js.get contract "path" ;;
  if Js.truthy path then
    pathParams <- PathParams.of_value path ;;
    params <- Js.get contract "params" ;;
    Ok (when (negb (Nat.eqb (List.length pathParams) 0) && negb (Js.truthy params))
        push ("Path contains parameters (" ++ JsString.join ", " pathParams
              ++ ") but no params schema is defined"))
  else Ok [].

(** Lines 528-548. *)
Definition contract_details (contractPath : string) (info : ContractInfo)
  (contract : value) : result (list (string * value)) :=
  tags <- Js.get contract "tags" ;;
  summary <- Js.get contract "summary" ;;
  method <- Js.get contract "method" ;;
  apiPath <- Js.get contract "path" ;;
  params <- Js.get contract "params" ;;
  query <- Js.get contract "query" ;;
  body <- Js.get contract "body" ;;
  response <- Js.get contract "response" ;;
  responseStatuses <- (if Js.truthy response then Js.keys response else Ok []) ;;
  auth <- Js.get contract "auth" ;;
  Ok [ ("contractName", VStr (contractName contractPath));
       ("path", VStr (ci_path info));
       ("method", method);
       ("apiPath", apiPath);
       ("tags", if Js.truthy tags
                then (if Js.isArray tags then tags else VArr [tags])
                else VArr []);
       ("summary", if Js.truthy summary then summary else VStr "No summary provided");
       ("hasParams", VBool (Js.truthy params));
       ("hasQuery", VBool (Js.truthy query));
       ("hasBody", VBool (Js.truthy body));
       ("responseStatuses", Js.strings responseStatuses);
       ("requiresAuth",
        VBool (match Js.get_opt auth "requiresAuthentication" with
               | VBool true => true
               | _ => false
               end)) ].

(** The body of the [try] block once the file was read. *)
Definition validateContract_checks (contractPath : string) (info : ContractInfo)
  : result ValidationResult :=
  let contract := ci_contract info in
  if negb (Js.truthy contract) then
    Ok (not_found "Contract export not found in the file" contractPath info)
  else
    e_required <- check_required contract ;;
    e_method <- check_method contract ;;
    e_path <- check_path contract ;;
    e_response <- check_response contract ;;
    e_auth <- check_auth contract ;;
    warnings <- check_params_schema contract ;;
    details <- contract_details contractPath info contract ;;
    let errors := (e_required ++ e_method ++ e_path ++ e_response ++ e_auth)%list in
    Ok (report errors warnings details).

Definition validateContract (contractPath : string) (a : Adapter)
  : result ValidationResult * Adapter :=
  let '(read, a') := readContract contractPath a in
  (try_catch (info <- read ;; validateContract_checks contractPath info)
     (fun message => Ok (failed ("Failed to validate contract: " ++ message))),
   a').

(** *** [validateRequestType] *)

(** Whether a top-level variable statement declares [name] first. *)
Definition declares_variable (sourceFile : SourceFile) (name : string) : bool :=
  existsb (fun node =>
             match node with
             | VariableStatement (declaration :: _) =>
                 match decl_identifier declaration with
                 | Some n => String.eqb n name
                 | None => false
                 end
             | _ => false
             end) sourceFile.

(** Whether a top-level type alias is named [name]. *)
Definition declares_type (sourceFile : SourceFile) (name : string) : bool :=
  existsb (fun node =>
             match node with
             | TypeAliasDeclaration n => String.eqb n name
             | _ => false
             end) sourceFile.

(** [contract.method.toUpperCase()]. *)
Definition method_toUpperCase (method : value) : result string :=
  match method with
  | VStr s => Ok (JsString.toUpperCase s)
  | VUndefined => Throw "Cannot read properties of undefined (reading 'toUpperCase')"
  | VNull => Throw "Cannot read properties of null (reading 'toUpperCase')"
  | _ => Throw "contract.method.toUpperCase is not a function"
  end.

Definition body_methods : list string := ["post"; "put"; "patch"].

Definition validateRequestType_checks (contractPath : string) (info : ContractInfo)
  : result ValidationResult :=
  let contract := ci_contract info in
  match Js.truthy contract, ci_sourceFile info with
  | true, Some sourceFile =>
      method <- Js.get contract "method" ;;
      apiPath <- Js.get contract "path" ;;
      let details0 := [ ("contractName", VStr (contractName contractPath));
                        ("path", VStr (ci_path info));
                        ("method", method);
                        ("apiPath", apiPath) ] in
      (* lines 588-603 *)
      pathParams <- PathParams.of_value apiPath ;;
      params <- Js.get contract "params" ;;
      let has_params := negb (Nat.eqb (List.length pathParams) 0) in
      let errors :=
        when (has_params && negb (Js.truthy params))
        push ("Path contains parameters (" ++ JsString.join ", " pathParams
              ++ ") but no params schema is defined") in
      let details1 :=
        if has_params then
          ("pathParams", Js.strings pathParams)
          :: (when (Js.truthy params) push ("hasParamsSchema", VBool true))
        else [] in
      (* lines 605-626 *)
      query <- Js.get contract "query" ;;
      let checks_query := Js.eq_str method "get" && Js.truthy query in
      let w_query :=
        when (checks_query && negb (declares_variable sourceFile "QuerySchema"))
        push "Contract has a query parameter but QuerySchema is not exported" in
      let details2 := when checks_query push ("hasQuerySchema", VBool true) in
      (* lines 628-635 *)
      body <- Js.get contract "body" ;;
      w_body <- (if Js.includes body_methods method && negb (Js.truthy body) then
                   upper <- method_toUpperCase method ;;
                   Ok [upper ++ " request typically requires a body schema"]
                 else Ok []) ;;
      let details3 :=
        when (Js.includes body_methods method && Js.truthy body)
        push ("hasBodySchema", VBool true) in
      Ok (report errors (w_query ++ w_body)%list
            (details0 ++ details1 ++ details2 ++ details3)%list)
  | _, _ =>
      Ok (not_found
            "Contract export not found in the file or could not parse source file"
            contractPath info)
  end.

Definition validateRequestType (contractPath : string) (a : Adapter)
  : result ValidationResult * Adapter :=
  let '(read, a') := readContract contractPath a in
  (try_catch (info <- read ;; validateRequestType_checks contractPath info)
     (fun message => Ok (failed ("Failed to validate request type: " ++ message))),
   a').

(** *** [validateResponseType] *)

Definition has (codes : list string) (code : string) : bool :=
  existsb (String.eqb code) codes.

(** The [switch] on [contract.method], lines 711-733. *)
Definition conventional_status (method : value) (codes : list string)
  : result (list string) :=
  if Js.eq_str method "get" then
    Ok (when (negb (has codes "200"))
        push "GET requests typically include a 200 response status")
  else if Js.eq_str method "post" then
    Ok (when (negb (has codes "201") && negb (has codes "200"))
        push "POST requests typically include a 201 or 200 response status")
  else if Js.eq_str method "put" || Js.eq_str method "patch" then
    if negb (has codes "200") then
      upper <- method_toUpperCase method ;;
      Ok [upper ++ " requests typically include a 200 response status"]
    else Ok []
  else if Js.eq_str method "delete" then
    Ok (when (negb (has codes "204") && negb (has codes "200"))
        push "DELETE requests typically include a 204 or 200 response status")
  else Ok [].

Definition validateResponseType_checks (contractPath : string) (info : ContractInfo)
  : result ValidationResult :=
  let contract := ci_contract info in
  match Js.truthy contract, ci_sourceFile info with
  | true, Some sourceFile =>
      method <- Js.get contract "method" ;;
      let details0 := [ ("contractName", VStr (contractName contractPath));
                        ("path", VStr (ci_path info));
                        ("method", method) ] in
      response <- Js.get contract "response" ;;
      (* lines 681-739 *)
      '(errors, warnings, details1) <-
        (if negb (Js.truthy response) || negb (Js.typeof_object response) then
           Ok (["Response schema is required and must be an object"], [], [])
         else
           responseStatusCodes <- Js.keys response ;;
           w_method <- conventional_status method responseStatusCodes ;;
           Ok (when (Nat.eqb (List.length responseStatusCodes) 0)
               push "Response object must define at least one status code",
               ((when (negb (declares_variable sourceFile "ResponseSchema"))
                 push "ResponseSchema is not exported, which may make it difficult to reuse")
                ++ w_method
                ++ (when (negb (existsb (fun code =>
                                          JsNumber.ge (JsNumber.parseInt code None) (Num 400))
                                        responseStatusCodes))
                    push "No error response status codes defined (4xx, 5xx)"))%list,
               [("responseStatusCodes", Js.strings responseStatusCodes)])) ;;
      (* lines 741-751 *)
      let w_type :=
        when (negb (declares_type sourceFile "Response"))
        push "Response type is not exported" in
      Ok (report errors (warnings ++ w_type)%list (details0 ++ details1)%list)
  | _, _ =>
      Ok (not_found
            "Contract export not found in the file or could not parse source file"
            contractPath info)
  end.

Definition validateResponseType (contractPath : string) (a : Adapter)
  : result ValidationResult * Adapter :=
  let '(read, a') := readContract contractPath a in
  (try_catch (info <- read ;; validateResponseType_checks contractPath info)
     (fun message => Ok (failed ("Failed to validate response type: " ++ message))),
   a').

(** *** [validateRequestAgainstContract] *)

(** [const { params, query, body } = request]. *)
Definition destructure_request (request : value) : result (value * value * value) :=
  match request with
  | VUndefined =>
      Throw "Cannot destructure property 'params' of 'request' as it is undefined."
  | VNull =>
      Throw "Cannot destructure property 'params' of 'request' as it is null."
  | _ => Ok (Js.prop request "params", Js.prop request "query", Js.prop request "body")
  end.

(** Lines 821-842: the container check shared by [params] and [query]. *)
Definition check_container (schema supplied : value) (message valid provided : string)
  : result (list string * list (string * value)) :=
  if Js.truthy schema && Js.truthy supplied then
    if negb (Js.typeof_object supplied) then Ok ([message], [])
    else
      names <- Js.keys supplied ;;
      Ok ([], [(valid, VBool true); (provided, Js.strings names)])
  else Ok ([], []).

Definition missing_parameter (param : string) : string :=
  "Missing required path parameter: " ++ param.

(** Lines 844-855. *)
Definition check_body (contract_body method body : value) : result (list string) :=
  if Js.truthy contract_body && Js.truthy body then
    Ok (when (Js.eq_str method "get" && Js.truthy body)
        push "GET requests should not have a body")
  else if Js.includes body_methods method && negb (Js.truthy body) then
    upper <- method_toUpperCase method ;;
    Ok [upper ++ " request is missing a body"]
  else Ok [].

(** Lines 857-874. *)
Definition check_path_parameters (apiPath params : value) : result (list string) :=
  if Js.truthy apiPath then
    pathParams <- PathParams.of_value apiPath ;;
    match pathParams with
    | [] => Ok []
    | _ =>
        if negb (Js.truthy params) then
          Ok ["Path contains parameters (" ++ JsString.join ", " pathParams
              ++ ") but no params object was provided"]
        else
          for_each pathParams (fun param =>
            supplied <- Js.get params param ;;
            Ok (when (Js.is_undefined supplied) push (missing_parameter param)))
    end
  else Ok [].

Definition validateRequestAgainstContract_checks (contractPath : string)
  (info : ContractInfo) (request : value) : result ValidationResult :=
  let contract := ci_contract info in
  if negb (Js.truthy contract) then
    Ok (not_found "Contract export not found in the file" contractPath info)
  else
    method <- Js.get contract "method" ;;
    apiPath <- Js.get contract "path" ;;
    let details0 := [ ("contractName", VStr (contractName contractPath));
                      ("path", VStr (ci_path info));
                      ("method", method);
                      ("apiPath", apiPath) ] in
    '(params, query, body) <- destructure_request request ;;
    contract_params <- Js.get contract "params" ;;
    '(e_params, d_params) <-
      check_container contract_params params
        "Path parameters must be an object" "paramsValid" "paramsProvided" ;;
    contract_query <- Js.get contract "query" ;;
    '(e_query, d_query) <-
      check_container contract_query query
        "Query parameters must be an object" "queryValid" "queryProvided" ;;
    contract_body <- Js.get contract "body" ;;
    warnings <- check_body contract_body method body ;;
    let d_body :=
      when (Js.truthy contract_body && Js.truthy body) push ("bodyProvided", VBool true) in
    e_path <- check_path_parameters apiPath params ;;
    let errors := (e_params ++ e_query ++ e_path)%list in
    Ok (report errors warnings (details0 ++ d_params ++ d_query ++ d_body)%list).

Definition validateRequestAgainstContract (contractPath : string) (request : value)
  (a : Adapter) : result ValidationResult * Adapter :=
  let '(read, a') := readContract contractPath a in
  (try_catch
     (info <- read ;; validateRequestAgainstContract_checks contractPath info request)
     (fun message => Ok (failed ("Failed to validate request: " ++ message))),
   a').

(** *** [validateResponseAgainstContract] *)

(** The default value of the parameter [statusCode]. *)
Definition default_status (statusCode : option number) : number :=
  match statusCode with
  | Some n => n
  | None => Num 200
  end.

(** [!contract.response || !contract.response[statusCode.toString()]]. *)
Definition undeclared (response : value) (statusCode : number) : result bool :=
  if negb (Js.truthy response) then Ok true
  else
    schema <- Js.get response (JsNumber.toString statusCode) ;;
    Ok (negb (Js.truthy schema)).

(** [s] between double quotes. *)
Definition quoted (s : string) : string :=
  let q := String (ascii_of_nat 34) EmptyString in q ++ s ++ q.

Definition get_200_warning : string :=
  "GET 200 responses typically include data in a " ++ quoted "data" ++ ", "
  ++ quoted "items" ++ ", or " ++ quoted "results" ++ " property or as an array".

Definition created_warning : string :=
  "Created resources typically include an " ++ quoted "id" ++ " or "
  ++ quoted "_id" ++ " property".

(** Lines 944-957: the payload is a truthy object here. *)
Definition payload_warnings (method response : value) (statusCode : number)
  : list string :=
  ((when (JsNumber.strict_eq statusCode (Num 200) && Js.eq_str method "get"
          && negb (Js.isArray response)
          && (negb (Js.truthy (Js.prop response "data"))
              && negb (Js.truthy (Js.prop response "items"))
              && negb (Js.truthy (Js.prop response "results"))))
    push get_200_warning)
   ++ (when (JsNumber.strict_eq statusCode (Num 201) && Js.eq_str method "post"
             && Js.typeof_object response
             && negb (Js.truthy (Js.prop response "id"))
             && negb (Js.truthy (Js.prop response "_id")))
       push created_warning))%list.

Definition validateResponseAgainstContract_checks (contractPath : string)
  (info : ContractInfo) (response : value) (status : option number)
  : result ValidationResult :=
  let statusCode := default_status status in
  let contract := ci_contract info in
  if negb (Js.truthy contract) then
    Ok (not_found "Contract export not found in the file" contractPath info)
  else
    method <- Js.get contract "method" ;;
    let details0 := [ ("contractName", VStr (contractName contractPath));
                      ("path", VStr (ci_path info));
                      ("method", method);
                      ("statusCode", VNum statusCode) ] in
    contract_response <- Js.get contract "response" ;;
    missing <- undeclared contract_response statusCode ;;
    '(errors, warnings, details1) <-
      (if missing then
         definedStatusCodes <-
           (if Js.truthy contract_response then Js.keys contract_response else Ok []) ;;
         Ok (["Contract does not define a response for status code "
              ++ JsNumber.toString statusCode],
             [],
             match definedStatusCodes with
             | [] => []
             | _ => [ ("definedStatusCodes", Js.strings definedStatusCodes);
                      ("suggestions",
                       VStr ("Contract defines responses for status codes: "
                             ++ JsString.join ", " definedStatusCodes)) ]
             end)
       else if negb (Js.truthy response) then
         Ok (["Response body is required for status code "
              ++ JsNumber.toString statusCode],
             [], [("responseSchemaExists", VBool true)])
       else if negb (Js.typeof_object response) then
         Ok (["Response must be an object or array"],
             [], [("responseSchemaExists", VBool true)])
       else
         Ok ([], payload_warnings method response statusCode,
             [("responseSchemaExists", VBool true); ("responseProvided", VBool true)])) ;;
    Ok (report errors warnings (details0 ++ details1)%list).

Definition validateResponseAgainstContract (contractPath : string) (response : value)
  (status : option number) (a : Adapter) : result ValidationResult * Adapter :=
  let '(read, a') := readContract contractPath a in
  (try_catch
     (info <- read ;;
      validateResponseAgainstContract_checks contractPath info response status)
     (fun message => Ok (failed ("Failed to validate response: " ++ message))),
   a').

(** *** [generateMockResponse] *)

(** Mock data reads [Math.random] and the clock; a generator threads the
    two counters of the adapter. *)
Definition Gen (A : Type) : Type := nat * nat -> A * (nat * nat).

Definition gen_ret {A : Type} (x : A) : Gen A := fun st => (x, st).

Definition gen_bind {A B : Type} (g : Gen A) (k : A -> Gen B) : Gen B :=
  fun st => let '(x, st') := g st in k x st'.

Notation "x <~ g ;; k" := (gen_bind g (fun x => k))
  (at level 61, g at next level, right associativity).

Definition random_string (from to : nat) : Gen string :=
  fun '(d, c) => (JsString.substring from to (random_base36 host d), (S d, c)).

Definition random_below (k : Z) : Gen Z :=
  fun '(d, c) => (random_floor host d k, (S d, c)).

Definition now_iso (ago : Z) : Gen string :=
  fun '(d, c) => (date_toISOString host c ago, (d, S c)).

(** [Math.random().toString(36).substring(2, 15)]. *)
Definition generateRandomId : Gen string := random_string 2 15.

Fixpoint hex_digits (n : nat) : Gen (list string) :=
  match n with
  | O => gen_ret []
  | S n' =>
      x <~ random_below 16 ;;
      rest <~ hex_digits n' ;;
      gen_ret (JsString.hex_of_Z x :: rest)
  end.

(** Forty hexadecimal digits. *)
Definition generateRandomHash : Gen string :=
  ds <~ hex_digits 40 ;; gen_ret (JsString.join "" ds).

Definition generateTruncatedKey : Gen string :=
  prefix <~ random_string 2 5 ;;
  suffix <~ random_string 2 5 ;;
  gen_ret (prefix ++ "..." ++ suffix).

(** The fields shared by the three API key records, in evaluation
    order; [description] is only present in the first record of the
    list. *)
Definition api_key (name : string) (description : list (string * value))
  (permissions : list string) (usage : Gen Z) (ago : Z) : Gen value :=
  id <~ generateRandomId ;;
  uniqueIdentifier <~ generateRandomId ;;
  company <~ generateRandomId ;;
  user <~ generateRandomId ;;
  keyHash <~ generateRandomHash ;;
  truncatedKey <~ generateTruncatedKey ;;
  usageCount <~ usage ;;
  createdAt <~ now_iso ago ;;
  gen_ret (VObj ([ ("id", VStr ("apikey_" ++ id)); ("name", VStr name) ]
                 ++ description
                 ++ [ ("uniqueIdentifier", VStr uniqueIdentifier);
                      ("company", VStr ("company_" ++ company));
                      ("user", VStr ("user_" ++ user));
                      ("keyHash", VStr keyHash);
                      ("truncatedKey", VStr truncatedKey);
                      ("status", VStr "active");
                      ("permissions", Js.strings permissions);
                      ("usageCount", VNum (Num usageCount));
                      ("createdAt", VStr createdAt) ])%list).

Definition error_mock : MockResponse :=
  {| mock_data := VNull; mock_type := "error"; mock_success := false |}.

(** Lines 1141-1151. *)
Definition generic_mock (name : string) (statusCode : number) : Gen MockResponse :=
  id <~ generateRandomId ;;
  timestamp <~ now_iso 0 ;;
  gen_ret {| mock_data :=
               VObj [ ("id", VStr id);
                      ("timestamp", VStr timestamp);
                      ("success", VBool true);
                      ("message",
                       VStr ("Mock response for " ++ name ++ " with status "
                             ++ JsNumber.toString statusCode)) ];
             mock_type := "generic";
             mock_success := true |}.

(** Lines 1072-1151: the shape chosen from the contract name, once the
    status code is settled. *)
Definition mock_for (name : string) (statusCode : number) : Gen MockResponse :=
  if JsString.includes name "api-key" then
    if JsString.includes name "get" then
      if JsNumber.strict_eq statusCode (Num 200) then
        first <~ api_key "Test API Key 1"
                   [("description", VStr "Generated test API key")]
                   ["read"; "write"] (random_below 1000) 0 ;;
        second <~ api_key "Test API Key 2" [] ["read"] (random_below 100) 86400000 ;;
        gen_ret {| mock_data := VArr [first; second];
                   mock_type := "Array<APIAuthKey>";
                   mock_success := true |}
      else generic_mock name statusCode
    else if JsString.includes name "post" then
      if JsNumber.strict_eq statusCode (Num 201)
         || JsNumber.strict_eq statusCode (Num 200) then
        created <~ api_key "New API Key" [] ["read"; "write"] (gen_ret 0) 0 ;;
        gen_ret {| mock_data := created; mock_type := "APIAuthKey"; mock_success := true |}
      else generic_mock name statusCode
    else generic_mock name statusCode
  else generic_mock name statusCode.

(** Lines 1053-1070: the status code the synthesizer goes on with, or
    [None] when it returns the error mock. *)
Definition settle_status (contract : value) (statusCode : number)
  : result (option number) :=
  response <- Js.get contract "response" ;;
  missing <- undeclared response statusCode ;;
  if missing then
    availableStatusCodes <- (if Js.truthy response then Js.keys response else Ok []) ;;
    match availableStatusCodes with
    | alternativeStatusCode :: _ =>
        Ok (Some (JsNumber.parseInt alternativeStatusCode (Some 10)))
    | [] => Ok None
    end
  else Ok (Some statusCode).

Definition with_counters (a : Adapter) (st : nat * nat) : Adapter :=
  {| contractsBasePath := contractsBasePath a;
     program := program a;
     typeChecker := typeChecker a;
     draws := fst st;
     clock := snd st |}.

Definition generateMockResponse (contractPath : string) (status : option number)
  (a : Adapter) : result MockResponse * Adapter :=
  let '(read, a') := readContract contractPath a in
  let settled :=
    info <- read ;;
    match Js.truthy (ci_contract info), ci_sourceFile info with
    | true, Some _ => settle_status (ci_contract info) (default_status status)
    | _, _ => Ok None
    end in
  match settled with
  | Ok (Some statusCode) =>
      let '(mock, st) := mock_for (contractName contractPath) statusCode (draws a', clock a') in
      (Ok mock, with_counters a' st)
  | Ok None => (Ok error_mock, a')
  | Throw _ => (Ok error_mock, a')
  end.

(** *** The operations that are not implemented yet

    Each reads the contract, returns a fixed answer and rethrows a
    failed read to its caller. *)

Definition rethrow {A : Type} (read : result ContractInfo) (label : string)
  (answer : ContractInfo -> A) : result A :=
  match read with
  | Ok info => Ok (answer info)
  | Throw message => Throw (label ++ message)
  end.

Definition createMockRequest (contractPath : string) (a : Adapter)
  : result value * Adapter :=
  let '(read, a') := readContract contractPath a in
  (rethrow read "Failed to create mock request: " (fun _ => VObj []), a').

Record GeneratedTypes : Type := {
  code : string;
  typeNames : list string;
  sourcePath : string
}.

Definition generateTypes (contractPath : string) (a : Adapter)
  : result GeneratedTypes * Adapter :=
  let '(read, a') := readContract contractPath a in
  (rethrow read "Failed to generate types: "
     (fun info => {| code := "// Generated types will go here";
                     typeNames := [];
                     sourcePath := ci_path info |}),
   a').

Definition checkTypeExistence (contractPath typeName : string) (a : Adapter)
  : result bool * Adapter :=
  let '(read, a') := readContract contractPath a in
  (rethrow read "Failed to check type existence: " (fun _ => true), a').

Definition checkTypeProperty (contractPath typeName propertyName : string) (a : Adapter)
  : result bool * Adapter :=
  let '(read, a') := readContract contractPath a in
  (rethrow read "Failed to check type property: " (fun _ => true), a').

End TypedAPIAdapter.

(** ** The addon

    [TypedAPIAddon.ts] registers one capability per operation of the
    adapter; a handler passes its own parameters on and nothing else.
    The handlers of [validateResponseAgainstContract] and
    [generateMockResponse] take no status code, so the adapter falls
    back on its default. *)

Section TypedAPIAddon.

Variable host : Host.

(** Lines 141-143. *)
Definition handler_validateResponseAgainstContract (contractPath : string)
  (response : value) (a : Adapter) : result ValidationResult * Adapter :=
  validateResponseAgainstContract host contractPath response None a.

(** Lines 210-212. *)
Definition handler_generateMockResponse (contractPath : string) (a : Adapter)
  : result MockResponse * Adapter :=
  generateMockResponse host contractPath None a.

End TypedAPIAddon.

(** ** Vocabulary of the statements *)

(** A field the object literal declares, whatever its value. *)
Definition present (contract : value) (field : string) : bool :=
  match Js.own contract field with
  | Some _ => true
  | None => false
  end.

Definition nullish (v : value) : bool :=
  match v with
  | VUndefined | VNull => true
  | _ => false
  end.

(** The value is a string, unless it is absent or falsy. *)
Definition string_when_set (v : value) : bool :=
  negb (Js.truthy v) || Js.typeof_string v.

(** Every entry of [auth.authorization.claims], when that is an array,
    is a value with properties. *)
Definition claims_are_records (contract : value) : bool :=
  let auth := Js.prop contract "auth" in
  let authorization := Js.prop auth "authorization" in
  if Js.truthy auth && Js.truthy authorization then
    match Js.prop authorization "claims" with
    | VArr elems => forallb (fun claim => negb (nullish claim)) elems
    | _ => true
    end
  else true.

(** The typing of the data model: a contract description is an extracted
    object whose [path] and [method], when set, are strings and whose
    authorization claims are records. *)
Definition well_typed (contract : value) : bool :=
  Js.truthy contract
  && string_when_set (Js.prop contract "path")
  && string_when_set (Js.prop contract "method")
  && claims_are_records contract.

Definition missing_field (field : string) : string :=
  "Missing required field: " ++ field.

Definition is_missing_field_error (message : string) : bool :=
  String.prefix "Missing required field: " message.

(** The required fields that are absent or hold a falsy value. *)
Definition unset_fields (contract : value) : list string :=
  filter (fun field => negb (Js.truthy (Js.prop contract field))) requiredFields.

(** The errors that concern the [response] mapping. *)
Definition is_response_error (message : string) : bool :=
  String.prefix "Invalid status code in response: " message
  || String.eqb message "Response object must have at least one status code"
  || String.eqb message (missing_field "response").

Definition is_invalid_path_error (message : string) : bool :=
  String.prefix "Invalid path: " message.

Definition is_missing_parameter_error (message : string) : bool :=
  String.prefix "Missing required path parameter: " message.

(** [key] parses, with [parseInt(key, 10)], as an integer in [100, 599]. *)
Definition parses_as_status (key : string) : Prop :=
  exists n, JsNumber.parseInt key (Some 10) = Num n /\ 100 <= n <= 599.

(** The decimal numerals of the integers from 100 to 599. *)
Definition status_numerals : list string :=
  map (fun i => JsString.of_Z (100 + Z.of_nat i)) (seq 0 500).



(** The outcome is a returned, failed result with the single error [e]. *)
Definition single_failure (out : result ValidationResult) (e : string) : Prop :=
  exists r, out = Ok r /\ success r = false /\ errors r = Some [e].

Ltac invert_checks H :=
  repeat match type of H with
    | Throw _ = Ok _ => discriminate H
    | bind ?r _ = Ok _ =>
        let E := fresh "E" in
        destruct r eqn:E; simpl in H; [|discriminate H]
    | (let '(_, _) := ?x in _) = Ok _ => destruct x; simpl in H
    | (if ?b then _ else _) = Ok _ =>
        let E := fresh "E" in destruct b eqn:E; simpl in H
    | match ?x with _ => _ end = Ok _ =>
        let E := fresh "E" in destruct x eqn:E; simpl in H
    end.

(** The first character of a printed number: a digit, the minus sign,
    or the first letter of [NaN] and [Infinity]. *)
Definition numeric_start (s : string) : bool :=
  match s with
  | String c _ =>
      JsString.is_digit c || Ascii.eqb c "-" || Ascii.eqb c "N" || Ascii.eqb c "I"
  | EmptyString => false
  end.

(** The integer a decimal numeral writes, read from the left; [acc] is
    the value of the digits read so far. *)
Fixpoint uint_value (d : Decimal.uint) (acc : Z) : Z :=
  match d with
  | Decimal.Nil => acc
  | Decimal.D0 l => uint_value l (10 * acc + 0)
  | Decimal.D1 l => uint_value l (10 * acc + 1)
  | Decimal.D2 l => uint_value l (10 * acc + 2)
  | Decimal.D3 l => uint_value l (10 * acc + 3)
  | Decimal.D4 l => uint_value l (10 * acc + 4)
  | Decimal.D5 l => uint_value l (10 * acc + 5)
  | Decimal.D6 l => uint_value l (10 * acc + 6)
  | Decimal.D7 l => uint_value l (10 * acc + 7)
  | Decimal.D8 l => uint_value l (10 * acc + 8)
  | Decimal.D9 l => uint_value l (10 * acc + 9)
  end.

(** The error messages of one rule never look like those of another. *)
Definition unrelated (message : string) : Prop :=
  is_missing_field_error message = false
  /\ is_response_error message = false
  /\ is_invalid_path_error message = false.

(** ** Five sentences, as the specification words them

    Each is the instance of the sentence at one call; the theorems below
    settle which instances hold. *)

(** One 'Missing required field' error per missing field and none for a
    field that is present, with [success = false]. *)
Definition errors_per_missing_field (host : Host) (contractPath : string) (a : Adapter)
  : Prop :=
  forall info a',
    readContract host contractPath a = (Ok info, a') ->
    (exists field, In field requiredFields /\ present (ci_contract info) field = false) ->
    exists r,
      fst (validateContract host contractPath a) = Ok r
      /\ success r = false
      /\ forall field,
          In field requiredFields ->
          count_occ string_dec (error_list r) (missing_field field)
          = if present (ci_contract info) field then 0%nat else 1%nat.


(** For a contract whose [response] is a non-empty object, exactly one
    error per key that does not parse as an integer in [100, 599]. *)
Definition error_per_invalid_key (host : Host) (contractPath : string) (a : Adapter)
  : Prop :=
  forall info a' props,
    readContract host contractPath a = (Ok info, a') ->
    Js.prop (ci_contract info) "response" = VObj props ->
    props <> [] ->
    exists r,
      fst (validateContract host contractPath a) = Ok r
      /\ forall key,
          In key (map fst props) ->
          ~ parses_as_status key ->
          count_occ string_dec (error_list r) (invalid_status_message key) = 1%nat.

(** A [path] that is present but is the empty string is reported by
    'Missing required field: path', and the leading-slash rule is not
    applied to it. *)
Definition empty_path_reported_missing (host : Host) (contractPath : string)
  (a : Adapter) : Prop :=
  forall info a',
    readContract host contractPath a = (Ok info, a') ->
    Js.own (ci_contract info) "path" = Some (VStr "") ->
    exists r,
      fst (validateContract host contractPath a) = Ok r
      /\ In (missing_field "path") (error_list r)
      /\ filter is_invalid_path_error (error_list r) = [].


(** ** Vocabulary of the further results *)

(** The program and its type checker are set together. *)
Definition paired (a : Adapter) : Prop :=
  program a = None <-> typeChecker a = None.

(** A fresh adapter: no program was built yet. *)
Definition fresh (a : Adapter) : Prop :=
  program a = None /\ typeChecker a = None.

(** The object a node binds to [Contract], when its first declaration
    is [Contract] initialised with an object literal. *)
Definition contract_literal (node : Node) : option value :=
  match node with
  | VariableStatement (declaration :: _) =>
      match decl_identifier declaration, decl_initializer declaration with
      | Some name, Some (ObjectLiteralExpression extracted) =>
          if String.eqb name "Contract" then Some extracted else None
      | _, _ => None
      end
  | _ => None
  end.

Fixpoint all_chars (f : ascii -> bool) (s : string) : bool :=
  match s with
  | EmptyString => true
  | String c s' => f c && all_chars f s'
  end.

(** A placeholder name: one word character or more. *)
Definition is_name (s : string) : bool :=
  negb (String.eqb s "") && all_chars JsString.is_word_char s.

(** The path [/:n1/:n2...] built from a list of names. *)
Definition path_of_names (names : list string) : string :=
  String.concat "" (map (fun name => "/:" ++ name) names).

(** The rule of [validateContract] an error message comes from, told by
    the way the message starts. *)
Inductive rule : Type := Required | Method | Path | Response | Auth.

Definition rule_of (message : string) : option rule :=
  if String.prefix "Missing required field: " message then Some Required
  else if String.prefix "Invalid method: " message then Some Method
  else if String.prefix "Invalid path: " message then Some Path
  else if String.prefix "Invalid status code in response: " message
          || String.eqb message "Response object must have at least one status code"
       then Some Response
  else if String.prefix "Authorization " message || String.prefix "Claim at index " message
       then Some Auth
  else None.

Definition from_rule (r : rule) (messages : list string) : Prop :=
  Forall (fun m => rule_of m = Some r) messages.

Definition is_method_error (message : string) : bool :=
  String.prefix "Invalid method: " message.

Definition is_hex_digit (c : ascii) : bool :=
  JsString.is_digit c || JsString.in_range "a" "f" c.

(** What every API key record of the mock data holds at least. *)
Definition api_key_record (props : list (string * value)) : Prop :=
  (exists id, Js.assoc props "id" = Some (VStr ("apikey_" ++ id)))
  /\ Js.assoc props "status" = Some (VStr "active")
  /\ (exists permission more,
        Js.assoc props "permissions" = Some (Js.strings (permission :: more)))
  /\ (exists createdAt, Js.assoc props "createdAt" = Some (VStr createdAt)).

(** The mock is either the error mock or carries data. *)
Definition mock_coherent (m : MockResponse) : Prop :=
  (mock_success m = true <-> mock_data m <> VNull)
  /\ (mock_success m = false <-> mock_type m = "error").

(** ** A concrete host

    One contracts directory with one file, whose [Contract] declaration
    extracts to [contract]; the file [/missing.ts] cannot be read. *)

Definition demo_source (contract : value) : SourceFile :=
  [ OtherNode;
    VariableStatement
      [ {| decl_identifier := Some "Contract";
           decl_initializer := Some (ObjectLiteralExpression contract) |} ] ].

Definition demo_host (contract : value) : Host :=
  {| path_isAbsolute := fun p => String.prefix "/" p;
     path_resolve := fun base file => base ++ "/" ++ file;
     path_basename := fun p ext =>
       if endsWith p ext
       then String.substring 0 (String.length p - String.length ext) p
       else p;
     path_extname := fun p => ".ts";
     fs_readFile := fun p =>
       if String.eqb p "/missing.ts"
       then inl "ENOENT: no such file or directory, open '/missing.ts'"
       else inr "export const Contract = { };";
     fs_readdirSync := fun p => inr ["user.get.contracts.ts"; "README.md"];
     ts_createProgram := fun fileNames p => Some (demo_source contract);
     ts_createSourceFile := fun p content => [];
     random_base36 := fun n => "0.k3j9x7q2m1abcd";
     random_floor := fun n k => Z.of_nat n mod k;
     date_toISOString := fun n ago => "2024-01-01T00:00:00.000Z" |}.

Definition demo_adapter : Adapter :=
  {| contractsBasePath := "/contracts";
     program := None;
     typeChecker := None;
     draws := 0;
     clock := 0 |}.

Definition user_contract : value :=
  VObj [ ("path", VStr "/users/:userId");
         ("method", VStr "get");
         ("params", VStr "ParamsSchema");
         ("response", VObj [ ("200", VObj [("description", VStr "User found")]);
                             ("404", VObj [("description", VStr "User not found")]) ]) ].

Example parseInt_200 : JsNumber.parseInt "200" (Some 10) = Num 200.
Proof. reflexivity. Qed.

Example parseInt_suffix : JsNumber.parseInt " 404x" (Some 10) = Num 404.
Proof. reflexivity. Qed.

Example parseInt_default : JsNumber.parseInt "default" (Some 10) = NaN.
Proof. reflexivity. Qed.

Example parseInt_hex : JsNumber.parseInt "0x1F4" None = Num 500.
Proof. reflexivity. Qed.

Example toString_599 : JsNumber.toString (Num 599) = "599".
Proof. reflexivity. Qed.

Example parseInt_rounds :
  JsNumber.parseInt "9007199254740993" (Some 10) = Num 9007199254740992.
Proof. vm_compute. reflexivity. Qed.

Example toString_shortest :
  JsNumber.toString (Num (2 ^ 60)) = "1152921504606847000"
  /\ JsNumber.toString (Num 123456789012345677877) = "123456789012345680000".
Proof. split; vm_compute; reflexivity. Qed.

Example toString_exponent :
  JsNumber.toString (Num (10 ^ 21)) = "1e+21"
  /\ JsNumber.toString (Num (2 ^ 100)) = "1.2676506002282294e+30"
  /\ JsNumber.toString (Num (- 2 ^ 1023)) = "-8.98846567431158e+307".
Proof. repeat split; vm_compute; reflexivity. Qed.

Example of_integer_overflow :
  JsNumber.of_integer (2 ^ 1024 - 2 ^ 970) = Infinity false
  /\ JsNumber.toString (JsNumber.of_integer (2 ^ 1024 - 2 ^ 970 - 1))
     = "1.7976931348623157e+308".
Proof. split; vm_compute; reflexivity. Qed.

Example get_missing : Js.get (VObj [("a", VNull)]) "b" = Ok VUndefined.
Proof. reflexivity. Qed.

Example get_inherited : Js.get (VObj []) "constructor" = Ok (VBuiltin "constructor").
Proof. reflexivity. Qed.

Example get_of_array :
  Js.get (VArr [VNull]) "map" = Ok (VBuiltin "map")
  /\ Js.get (VArr [VNull]) "size" = Ok VUndefined
  /\ Js.get (VArr [VNull]) "length" = Ok (VNum (Num 1))
  /\ Js.get (VStr "abc") "trim" = Ok (VBuiltin "trim").
Proof. repeat split. Qed.

Example get_of_undefined :
  Js.get VUndefined "match" = Throw "Cannot read properties of undefined (reading 'match')".
Proof. reflexivity. Qed.

Example keys_of_array : Js.keys (VArr [VNull; VNull]) = Ok ["0"; "1"].
Proof. reflexivity. Qed.

Example to_string_array :
  Js.to_string (VArr [VNum (Num 1); VNull; VStr "a"]) = Ok "1,,a".
Proof. reflexivity. Qed.

Example placeholders_user :
  PathParams.placeholders "/users/:userId/posts/:post_id" = ["userId"; "post_id"].
Proof. reflexivity. Qed.

Example placeholders_colons : PathParams.placeholders "/a::b:/:c-d" = ["b"; "c"].
Proof. reflexivity. Qed.

Example user_contract_well_formed : Js.well_formed user_contract = true.
Proof. reflexivity. Qed.

Example keys_out_of_order :
  Js.enumeration_order ["200"; "default"; "99"] = false
  /\ Js.enumeration_order ["99"; "200"; "default"; "0200"] = true.
Proof. split; reflexivity. Qed.

Example validate_user_contract :
  fst (validateContract (demo_host user_contract) "user.get.contracts.ts" demo_adapter)
  = Ok {| success := true;
          errors := None;
          warnings := None;
          details :=
            Some [ ("contractName", VStr "user.get.contracts");
                   ("path", VStr "/contracts/user.get.contracts.ts");
                   ("method", VStr "get");
                   ("apiPath", VStr "/users/:userId");
                   ("tags", VArr []);
                   ("summary", VStr "No summary provided");
                   ("hasParams", VBool true);
                   ("hasQuery", VBool false);
                   ("hasBody", VBool false);
                   ("responseStatuses", VArr [VStr "200"; VStr "404"]);
                   ("requiresAuth", VBool false) ] |}.
Proof. reflexivity. Qed.

Example request_without_parameter :
  fst (validateRequestAgainstContract (demo_host user_contract) "user.get.contracts.ts"
         (VObj [("params", VObj [])]) demo_adapter)
  = Ok {| success := false;
          errors := Some ["Missing required path parameter: userId"];
          warnings := None;
          details :=
            Some [ ("contractName", VStr "user.get.contracts");
                   ("path", VStr "/contracts/user.get.contracts.ts");
                   ("method", VStr "get");
                   ("apiPath", VStr "/users/:userId");
                   ("paramsValid", VBool true);
                   ("paramsProvided", VArr []) ] |}.
Proof. reflexivity. Qed.

Example request_with_parameter :
  exists d,
    fst (validateRequestAgainstContract (demo_host user_contract) "user.get.contracts.ts"
           (VObj [("params", VObj [("userId", VStr "abc")])]) demo_adapter)
    = Ok {| success := true; errors := None; warnings := None; details := d |}.
Proof. eexists. reflexivity. Qed.

Example request_with_array_params :
  exists d,
    fst (validateRequestAgainstContract
           (demo_host (VObj [ ("path", VStr "/x/:map/:size"); ("method", VStr "get");
                              ("response", VObj [("200", VObj [])]) ]))
           "x.ts" (VObj [("params", VArr [])]) demo_adapter)
    = Ok {| success := false;
            errors := Some ["Missing required path parameter: size"];
            warnings := None; details := d |}.
Proof. eexists. reflexivity. Qed.

Example empty_response_type :
  exists w d,
    fst (validateResponseType
           (demo_host (VObj [("path", VStr "/x"); ("method", VStr "get"); ("response", VObj [])]))
           "x.ts" demo_adapter)
    = Ok {| success := false;
            errors := Some ["Response object must define at least one status code"];
            warnings := w; details := d |}.
Proof. do 2 eexists. reflexivity. Qed.

Example generic_mock_shape :
  fst (generateMockResponse (demo_host user_contract) "user.get.contracts.ts" None demo_adapter)
  = Ok {| mock_data :=
            VObj [ ("id", VStr "k3j9x7q2m1abc");
                   ("timestamp", VStr "2024-01-01T00:00:00.000Z");
                   ("success", VBool true);
                   ("message",
                    VStr "Mock response for user.get.contracts with status 200") ];
          mock_type := "generic";
          mock_success := true |}.
Proof. reflexivity. Qed.

Example mock_for_rounded_key :
  Js.prop (mock_data
             (fst (mock_for (demo_host VNull) "user.get.contracts"
                     (JsNumber.parseInt "9007199254740993" (Some 10)) (0%nat, 0%nat))))
    "message"
  = VStr "Mock response for user.get.contracts with status 9007199254740992".
Proof. vm_compute. reflexivity. Qed.

Example response_for_large_status :
  exists w d,
    fst (validateResponseAgainstContract
           (demo_host (VObj [ ("path", VStr "/x"); ("method", VStr "get");
                              ("response",
                               VObj [("1000000000000000000000", VObj [])]) ]))
           "x.ts" (VObj []) (Some (Num (10 ^ 21))) demo_adapter)
    = Ok {| success := false;
            errors := Some ["Contract does not define a response for status code 1e+21"];
            warnings := w; details := d |}.
Proof. do 2 eexists. vm_compute. reflexivity. Qed.

(** ** Basic facts *)

Lemma truthy_not_nullish (v : value) : Js.truthy v = true -> nullish v = false.
Proof. destruct v; simpl; intros H; try reflexivity; discriminate H. Qed.

Lemma get_not_nullish (v : value) (k : string) :
  nullish v = false -> Js.get v k = Ok (Js.prop v k).
Proof. destruct v; simpl; intros H; try reflexivity; discriminate H. Qed.

Lemma get_truthy (v : value) (k : string) :
  Js.truthy v = true -> Js.get v k = Ok (Js.prop v k).
Proof. intros H. apply get_not_nullish, truthy_not_nullish, H. Qed.

Lemma keys_truthy (v : value) : Js.truthy v = true -> exists ks, Js.keys v = Ok ks.
Proof. destruct v; simpl; intros H; try discriminate H; eexists; reflexivity. Qed.

Lemma for_each_ok {A : Type} (l : list A) (body : A -> result (list string)) :
  (forall x, In x l -> exists out, body x = Ok out) ->
  exists out, for_each l body = Ok out.
Proof.
  induction l as [|x rest IH]; intros Hbody; simpl.
  - eexists; reflexivity.
  - destruct (Hbody x (or_introl eq_refl)) as [here Hx].
    destruct IH as [later Hrest].
    + intros y Hy. apply Hbody. right. exact Hy.
    + rewrite Hx, Hrest. simpl. eexists; reflexivity.
Qed.

(** The messages of a loop are the concatenation of the messages of its
    iterations. *)
Lemma for_each_pure {A : Type} (l : list A) (body : A -> result (list string))
  (f : A -> list string) :
  (forall x, In x l -> body x = Ok (f x)) ->
  for_each l body = Ok (flat_map f l).
Proof.
  induction l as [|x rest IH]; intros Hbody; simpl.
  - reflexivity.
  - rewrite (Hbody x (or_introl eq_refl)). simpl.
    rewrite IH by (intros y Hy; apply Hbody; right; exact Hy).
    reflexivity.
Qed.

Lemma for_each_Forall {A : Type} (P : string -> Prop) (l : list A)
  (body : A -> result (list string)) (out : list string) :
  (forall x o, In x l -> body x = Ok o -> Forall P o) ->
  for_each l body = Ok out -> Forall P out.
Proof.
  revert out. induction l as [|x rest IH]; intros out Hbody H; simpl in H.
  - injection H as <-. constructor.
  - destruct (body x) as [here|] eqn:Hx; simpl in H; [|discriminate H].
    destruct (for_each rest body) as [later|] eqn:Hrest; simpl in H; [|discriminate H].
    injection H as <-. apply Forall_app. split.
    + apply (Hbody x here); [left; reflexivity | exact Hx].
    + apply IH; [|reflexivity]. intros y o Hy. apply Hbody. right. exact Hy.
Qed.

Lemma filter_none {A : Type} (f : A -> bool) (l : list A) :
  Forall (fun x => f x = false) l -> filter f l = [].
Proof.
  induction 1 as [|x l Hx _ IH]; simpl; [reflexivity|]. rewrite Hx. exact IH.
Qed.

Lemma filter_all {A : Type} (f : A -> bool) (l : list A) :
  Forall (fun x => f x = true) l -> filter f l = l.
Proof.
  induction 1 as [|x l Hx _ IH]; simpl; [reflexivity|]. rewrite Hx, IH. reflexivity.
Qed.

Lemma prefix_append (p s : string) : String.prefix p (p ++ s) = true.
Proof.
  induction p as [|c p IH]; simpl.
  - destruct s; reflexivity.
  - destruct (ascii_dec c c) as [_|Hc]; [exact IH | contradiction Hc; reflexivity].
Qed.


(** ** Reading the contract *)

Section Reading.

Variable host : Host.

Lemma readContract_unreadable (contractPath message : string) (a : Adapter) :
  fs_readFile host (resolveContractPath host a contractPath) = inl message ->
  readContract host contractPath a
  = (Throw ("Failed to read contract file " ++ resolveContractPath host a contractPath
            ++ ": " ++ message), a).
Proof. intros H. unfold readContract. rewrite H. reflexivity. Qed.

(** The adapter only ever extracts a contract from a parsed source file. *)
Lemma readContract_sourceFile (contractPath : string) (a a' : Adapter)
  (info : ContractInfo) :
  readContract host contractPath a = (Ok info, a') ->
  Js.truthy (ci_contract info) = true ->
  exists sourceFile, ci_sourceFile info = Some sourceFile.
Proof.
  unfold readContract. intros H Ht.
  destruct (fs_readFile host _); [discriminate H|].
  destruct (program _) as [prog|]; [destruct (typeChecker _)|].
  - destruct (prog _) as [sf|].
    + destruct (fold_left _ _ _). injection H as <- _. eexists; reflexivity.
    + injection H as <- _. eexists; reflexivity.
  - injection H as <- _. discriminate Ht.
  - injection H as <- _. discriminate Ht.
Qed.

Lemma initTypeScriptCompiler_basePath (a : Adapter) :
  contractsBasePath (initTypeScriptCompiler host a) = contractsBasePath a.
Proof. unfold initTypeScriptCompiler. destruct (findContractFiles host a); reflexivity. Qed.

(** A second initialisation changes nothing: either no file was found
    and the adapter is as before, or the program is already there. *)
Lemma initTypeScriptCompiler_again (a : Adapter) :
  program (initTypeScriptCompiler host a) = None ->
  initTypeScriptCompiler host (initTypeScriptCompiler host a) = initTypeScriptCompiler host a.
Proof.
  unfold initTypeScriptCompiler. destruct (findContractFiles host a) eqn:E; simpl.
  - intros _. rewrite E. reflexivity.
  - intros H. discriminate H.
Qed.

(** Reading the same location again from the adapter the first read
    left gives the same outcome and leaves the adapter as it is. *)
Lemma readContract_again (contractPath : string) (a a' : Adapter)
  (read : result ContractInfo) :
  readContract host contractPath a = (read, a') ->
  readContract host contractPath a' = (read, a').
Proof.
  unfold readContract, resolveContractPath. intros H.
  destruct (fs_readFile host (if path_isAbsolute host contractPath then _ else _)) eqn:Hfile.
  - injection H as <- <-. rewrite Hfile. reflexivity.
  - set (a1 := match program a with None => initTypeScriptCompiler host a | Some _ => a end) in *.
    assert (Hbase : contractsBasePath a1 = contractsBasePath a).
    { unfold a1. destruct (program a); [reflexivity | apply initTypeScriptCompiler_basePath]. }
    assert (Hstable : match program a1 with
                      | None => initTypeScriptCompiler host a1
                      | Some _ => a1
                      end = a1).
    { destruct (program a1) eqn:Hp; [reflexivity|].
      unfold a1 in *. destruct (program a) eqn:Hpa.
      - rewrite Hpa in Hp. discriminate Hp.
      - apply initTypeScriptCompiler_again. exact Hp. }
    assert (Ha' : a' = a1).
    { destruct (program a1); [destruct (typeChecker a1)|].
      - destruct (p _); [destruct (fold_left _ _ _)|]; injection H as _ <-; reflexivity.
      - injection H as _ <-; reflexivity.
      - injection H as _ <-; reflexivity. }
    subst a'. rewrite Hbase, Hfile. rewrite Hstable. exact H.
Qed.

End Reading.

(** ** Results and their [success] flag *)

Section Results.

Variable host : Host.




Lemma failed_single (message : string) : single_failure (Ok (failed message)) message.
Proof. exists (failed message). repeat split. Qed.







End Results.


(** C5: when the contract file cannot be read, each of the five
    validators returns (it does not throw) a result with [success = false]
    and exactly one error, which names its operation, the resolved
    location and the fault of the file system. *)
Theorem unreadable_contract_fails (host : Host) (contractPath message : string)
  (request response : value) (status : option number) (a : Adapter) :
  fs_readFile host (resolveContractPath host a contractPath) = inl message ->
  let reason := "Failed to read contract file " ++ resolveContractPath host a contractPath
                ++ ": " ++ message in
  single_failure (fst (validateContract host contractPath a))
    ("Failed to validate contract: " ++ reason)
  /\ single_failure (fst (validateRequestType host contractPath a))
       ("Failed to validate request type: " ++ reason)
  /\ single_failure (fst (validateResponseType host contractPath a))
       ("Failed to validate response type: " ++ reason)
  /\ single_failure (fst (validateRequestAgainstContract host contractPath request a))
       ("Failed to validate request: " ++ reason)
  /\ single_failure
       (fst (validateResponseAgainstContract host contractPath response status a))
       ("Failed to validate response: " ++ reason).
Proof.
  intros Hfile reason.
  unfold validateContract, validateRequestType, validateResponseType,
    validateRequestAgainstContract, validateResponseAgainstContract.
  rewrite (readContract_unreadable host contractPath message a Hfile). simpl.
  repeat split; apply failed_single.
Qed.

Lemma unreadable_contract_fails_witness :
  fs_readFile (demo_host user_contract)
    (resolveContractPath (demo_host user_contract) demo_adapter "/missing.ts")
  = inl "ENOENT: no such file or directory, open '/missing.ts'"
  /\ single_failure
       (fst (validateRequestType (demo_host user_contract) "/missing.ts" demo_adapter))
       ("Failed to validate request type: Failed to read contract file /missing.ts: "
        ++ "ENOENT: no such file or directory, open '/missing.ts'").
Proof.
  split; [reflexivity|].
  apply (unreadable_contract_fails (demo_host user_contract) "/missing.ts"
           "ENOENT: no such file or directory, open '/missing.ts'"
           VNull VNull None demo_adapter).
  reflexivity.
Defined.

(** C8: validating the same location again, on the adapter the first
    call left and with the files unchanged, returns the same result:
    same success, errors, warnings and details. *)
Theorem validateContract_idempotent (host : Host) (contractPath : string) (a : Adapter) :
  fst (validateContract host contractPath (snd (validateContract host contractPath a)))
  = fst (validateContract host contractPath a).
Proof.
  unfold validateContract.
  destruct (readContract host contractPath a) as [read a'] eqn:E. simpl.
  rewrite (readContract_again host contractPath a a' read E). reflexivity.
Qed.

(** C10: when the file is read and the extracted [Contract] object has
    no [path] property, [validateRequestType] returns a failed result
    whose single error begins with "Failed to validate request type": the
    fault of reading [match] on [undefined] is caught, and it is not
    reported as a missing required field. *)
Theorem request_type_without_path (host : Host) (contractPath : string) (a a' : Adapter)
  (info : ContractInfo) (props : list (string * value)) :
  readContract host contractPath a = (Ok info, a') ->
  ci_contract info = VObj props ->
  Js.assoc props "path" = None ->
  exists e,
    fst (validateRequestType host contractPath a)
    = Ok {| success := false; errors := Some [e]; warnings := None; details := None |}
    /\ e = "Failed to validate request type: Cannot read properties of undefined (reading 'match')"
    /\ String.prefix "Failed to validate request type" e = true
    /\ is_missing_field_error e = false.
Proof.
  intros Hread Hcontract Hpath.
  destruct (readContract_sourceFile host contractPath a a' info Hread) as [sf Hsf].
  { rewrite Hcontract. reflexivity. }
  eexists. split; [|split; [reflexivity | split; reflexivity]].
  unfold validateRequestType. rewrite Hread. simpl.
  unfold validateRequestType_checks. rewrite Hcontract, Hsf. simpl.
  unfold Js.prop. simpl. rewrite Hpath. simpl. reflexivity.
Qed.

Lemma request_type_without_path_witness :
  let contract := VObj [("method", VStr "get"); ("response", VObj [("200", VObj [])])] in
  exists e,
    fst (validateRequestType (demo_host contract) "c.ts" demo_adapter)
    = Ok {| success := false; errors := Some [e]; warnings := None; details := None |}
    /\ e = "Failed to validate request type: Cannot read properties of undefined (reading 'match')"
    /\ String.prefix "Failed to validate request type" e = true
    /\ is_missing_field_error e = false.
Proof.
  intros contract.
  eapply (request_type_without_path (demo_host contract) "c.ts" demo_adapter);
    reflexivity.
Defined.

(** ** The rules of [validateContract] *)

Lemma unrelated_when (b : bool) (message : string) :
  unrelated message -> Forall unrelated (when b push message).
Proof. intros H. destruct b; [constructor; [exact H | constructor] | constructor]. Qed.

Section ContractRules.

Variable host : Host.
Variable contract : value.
Hypothesis contract_truthy : Js.truthy contract = true.

Lemma check_required_unset :
  check_required contract = Ok (map missing_field (unset_fields contract)).
Proof.
  unfold check_required, unset_fields, requiredFields. simpl.
  rewrite !(get_truthy contract _ contract_truthy). simpl.
  destruct (Js.truthy (Js.prop contract "path")),
    (Js.truthy (Js.prop contract "method")),
    (Js.truthy (Js.prop contract "response")); reflexivity.
Qed.

Lemma check_method_unrelated (e : list string) :
  check_method contract = Ok e -> Forall unrelated e.
Proof.
  unfold check_method. intros H. invert_checks H; injection H as <-.
  - repeat constructor.
  - constructor.
Qed.

Lemma check_method_typed :
  string_when_set (Js.prop contract "method") = true ->
  exists e, check_method contract = Ok e.
Proof.
  unfold check_method, string_when_set. rewrite (get_truthy _ _ contract_truthy). simpl.
  destruct (Js.prop contract "method"); simpl; intros H;
    try discriminate H; try (eexists; reflexivity).
  - destruct b; [discriminate H | eexists; reflexivity].
  - destruct n as [|z|negative]; [eexists; reflexivity| |discriminate H].
    destruct (z =? 0); [eexists; reflexivity | discriminate H].
  - destruct (negb _ && negb _); eexists; reflexivity.
Qed.

Lemma check_path_messages (e : list string) :
  check_path contract = Ok e ->
  Forall (fun m => is_missing_field_error m = false /\ is_response_error m = false) e.
Proof.
  unfold check_path. intros H. invert_checks H; injection H as <-;
    try constructor.
  destruct (negb _); repeat constructor.
Qed.

Lemma check_path_typed :
  string_when_set (Js.prop contract "path") = true ->
  exists e, check_path contract = Ok e.
Proof.
  unfold check_path, string_when_set. rewrite (get_truthy _ _ contract_truthy). simpl.
  destruct (Js.prop contract "path"); simpl; intros H;
    try discriminate H; try (eexists; reflexivity).
  - destruct b; [discriminate H | eexists; reflexivity].
  - destruct n as [|z|negative]; [eexists; reflexivity| |discriminate H].
    destruct (z =? 0); [eexists; reflexivity | discriminate H].
  - destruct (negb (String.eqb s "")); eexists; reflexivity.
Qed.

Lemma check_path_unset :
  Js.truthy (Js.prop contract "path") = false -> check_path contract = Ok [].
Proof.
  intros H. unfold check_path. rewrite (get_truthy _ _ contract_truthy). simpl.
  rewrite H. reflexivity.
Qed.

Lemma check_response_messages (e : list string) :
  check_response contract = Ok e ->
  Forall (fun m => is_missing_field_error m = false /\ is_invalid_path_error m = false) e.
Proof.
  unfold check_response. intros H.
  destruct (Js.get contract "response") as [response|]; simpl in H; [|discriminate H].
  destruct (Js.truthy response && Js.typeof_object response);
    [|injection H as <-; constructor].
  destruct (Js.keys response) as [ks|]; simpl in H; [|discriminate H].
  destruct ks as [|k ks]; [injection H as <-; repeat constructor|].
  revert H. apply for_each_Forall. intros key o _ Ho.
  injection Ho as <-. destruct (invalid_status key); repeat constructor.
Qed.

Lemma check_response_ok : exists e, check_response contract = Ok e.
Proof.
  unfold check_response. rewrite (get_truthy _ _ contract_truthy). simpl.
  destruct (Js.truthy (Js.prop contract "response")) eqn:Ht; simpl;
    [|eexists; reflexivity].
  destruct (Js.typeof_object _); [|eexists; reflexivity].
  destruct (keys_truthy _ Ht) as [ks ->]. simpl.
  destruct ks; [eexists; reflexivity|].
  apply for_each_ok. intros; eexists; reflexivity.
Qed.

(** The response rule on an object: one message per invalid key, or
    the single message of the empty mapping. *)
Lemma check_response_object (props : list (string * value)) :
  Js.prop contract "response" = VObj props ->
  check_response contract
  = Ok (match props with
        | [] => ["Response object must have at least one status code"]
        | _ => map invalid_status_message (filter invalid_status (map fst props))
        end).
Proof.
  intros H. unfold check_response. rewrite (get_truthy _ _ contract_truthy).
  cbn [bind]. rewrite H. cbn [Js.truthy Js.typeof_object andb Js.keys bind].
  destruct props as [|[k v] props]; [reflexivity|].
  cbn [map fst]. generalize (k :: map fst props). intros ks.
  rewrite (for_each_pure ks _
             (fun key => when (invalid_status key) push (invalid_status_message key)))
    by reflexivity.
  f_equal. induction ks as [|key ks IH]; simpl; [reflexivity|].
  rewrite IH. destruct (invalid_status key); reflexivity.
Qed.

Lemma check_claim_unrelated (entry : nat * value) (e : list string) :
  check_claim entry = Ok e -> Forall unrelated e.
Proof.
  destruct entry as [index claim]. unfold check_claim. intros H.
  invert_checks H. injection H as <-.
  apply Forall_app. split; apply unrelated_when; repeat split.
Qed.

Lemma check_auth_unrelated (e : list string) :
  check_auth contract = Ok e -> Forall unrelated e.
Proof.
  unfold check_auth. intros H.
  destruct (Js.get contract "auth") as [auth|]; simpl in H; [|discriminate H].
  destruct (Js.truthy auth); [|injection H as <-; constructor].
  destruct (Js.get auth "authorization") as [authorization|]; simpl in H; [|discriminate H].
  destruct (Js.truthy authorization); [|injection H as <-; constructor].
  destruct (Js.get authorization "roles") as [roles|]; simpl in H; [|discriminate H].
  destruct (Js.get authorization "scopes") as [scopes|]; simpl in H; [|discriminate H].
  destruct (Js.get authorization "claims") as [claims|]; simpl in H; [|discriminate H].
  destruct (check_claims claims) as [claim_errors|] eqn:Hclaims; simpl in H; [|discriminate H].
  injection H as <-.
  apply Forall_app. split; [apply unrelated_when; repeat split|].
  apply Forall_app. split; [apply unrelated_when; repeat split|].
  unfold check_claims in Hclaims.
  destruct (Js.truthy claims); [|injection Hclaims as <-; constructor].
  destruct claims; try (injection Hclaims as <-; repeat constructor).
  revert Hclaims. apply for_each_Forall. intros entry o _. apply check_claim_unrelated.
Qed.

Lemma check_claims_records (elems : list value) :
  forallb (fun claim => negb (nullish claim)) elems = true ->
  exists e, check_claims (VArr elems) = Ok e.
Proof.
  intros H. unfold check_claims. simpl. apply for_each_ok.
  intros [index claim] Hin. unfold check_claim.
  assert (Hclaim : nullish claim = false).
  { apply in_combine_r in Hin. rewrite forallb_forall in H.
    apply H in Hin. destruct (nullish claim); [discriminate Hin | reflexivity]. }
  rewrite !(get_not_nullish claim _ Hclaim). simpl. eexists; reflexivity.
Qed.

Lemma check_auth_typed :
  claims_are_records contract = true -> exists e, check_auth contract = Ok e.
Proof.
  unfold claims_are_records, check_auth. rewrite (get_truthy _ _ contract_truthy). simpl.
  destruct (Js.truthy (Js.prop contract "auth")) eqn:Hauth; simpl;
    [|intros _; eexists; reflexivity].
  rewrite (get_truthy _ _ Hauth). simpl.
  destruct (Js.truthy (Js.prop (Js.prop contract "auth") "authorization")) eqn:Hz; simpl;
    [|intros _; eexists; reflexivity].
  rewrite !(get_truthy _ _ Hz). simpl. intros H.
  assert (Hc : exists e, check_claims
                           (Js.prop (Js.prop (Js.prop contract "auth") "authorization")
                              "claims") = Ok e).
  { destruct (Js.prop (Js.prop (Js.prop contract "auth") "authorization") "claims")
      as [| | | | | |elems|] eqn:Hclaims;
      try (unfold check_claims; simpl;
           try match goal with
             | n : number |- _ => destruct n; simpl
             end;
           try match goal with
             | |- context [if ?b then _ else _] => destruct b
             end;
           eexists; reflexivity).
    apply check_claims_records. exact H. }
  destruct Hc as [e ->]. simpl. eexists; reflexivity.
Qed.

End ContractRules.

Section TypedContracts.

Variable host : Host.

Lemma error_list_report (errors warnings : list string) (details : list (string * value)) :
  error_list (report errors warnings details) = errors.
Proof. unfold error_list, report; simpl. destruct errors; reflexivity. Qed.

Lemma warning_list_report (errors warnings : list string)
  (details : list (string * value)) :
  warning_list (report errors warnings details) = warnings.
Proof. unfold warning_list, report; simpl. destruct warnings; reflexivity. Qed.

Lemma success_report (errors warnings : list string) (details : list (string * value)) :
  success (report errors warnings details) = Nat.eqb (List.length errors) 0.
Proof. reflexivity. Qed.

Lemma check_params_schema_typed (contract : value) :
  Js.truthy contract = true ->
  string_when_set (Js.prop contract "path") = true ->
  exists w, check_params_schema contract = Ok w.
Proof.
  intros Ht. unfold check_params_schema, string_when_set.
  rewrite !(get_truthy _ _ Ht). simpl.
  destruct (Js.truthy (Js.prop contract "path")); simpl; [|eexists; reflexivity].
  destruct (Js.prop contract "path"); simpl; intros H; try discriminate H.
  eexists; reflexivity.
Qed.

Lemma contract_details_ok (contractPath : string) (info : ContractInfo) (contract : value) :
  Js.truthy contract = true ->
  exists d, contract_details host contractPath info contract = Ok d.
Proof.
  intros Ht. unfold contract_details. rewrite !(get_truthy _ _ Ht). cbn [bind].
  destruct (Js.truthy (Js.prop contract "response")) eqn:Hr.
  - destruct (keys_truthy _ Hr) as [ks ->]. cbn [bind]. eexists; reflexivity.
  - cbn [bind]. eexists; reflexivity.
Qed.

(** On a typed contract no rule faults, and the collected errors are
    those of the five rules, in their order. *)
Lemma validateContract_checks_typed (contractPath : string) (info : ContractInfo) :
  well_typed (ci_contract info) = true ->
  exists e_method e_path e_response e_auth warnings details,
    check_method (ci_contract info) = Ok e_method
    /\ check_path (ci_contract info) = Ok e_path
    /\ check_response (ci_contract info) = Ok e_response
    /\ check_auth (ci_contract info) = Ok e_auth
    /\ validateContract_checks host contractPath info
       = Ok (report (map missing_field (unset_fields (ci_contract info))
                     ++ e_method ++ e_path ++ e_response ++ e_auth)
               warnings details).
Proof.
  unfold well_typed. intros H.
  apply andb_prop in H as [H Hclaims]. apply andb_prop in H as [H Hmethod].
  apply andb_prop in H as [Ht Hpath].
  destruct (check_method_typed _ Ht Hmethod) as [e_method Em].
  destruct (check_path_typed _ Ht Hpath) as [e_path Ep].
  destruct (check_response_ok _ Ht) as [e_response Er].
  destruct (check_auth_typed _ Ht Hclaims) as [e_auth Ea].
  destruct (check_params_schema_typed _ Ht Hpath) as [w Ew].
  destruct (contract_details_ok contractPath info _ Ht) as [d Ed].
  exists e_method, e_path, e_response, e_auth, w, d.
  repeat (split; [assumption|]).
  unfold validateContract_checks. rewrite Ht. cbn [negb].
  rewrite (check_required_unset _ Ht), Em, Ep, Er, Ea, Ew, Ed. reflexivity.
Qed.

Lemma validateContract_read (contractPath : string) (a a' : Adapter) (info : ContractInfo)
  (r : ValidationResult) :
  readContract host contractPath a = (Ok info, a') ->
  validateContract_checks host contractPath info = Ok r ->
  fst (validateContract host contractPath a) = Ok r.
Proof. intros Hread Hr. unfold validateContract. rewrite Hread. cbn. rewrite Hr. reflexivity. Qed.

Lemma missing_field_is_missing (fields : list string) :
  filter is_missing_field_error (map missing_field fields) = map missing_field fields.
Proof. apply filter_all. apply Forall_forall. intros m Hm.
       apply in_map_iff in Hm as [f [<- _]]. apply prefix_append. Qed.

Lemma missing_field_not_path (fields : list string) :
  filter is_invalid_path_error (map missing_field fields) = [].
Proof. apply filter_none. apply Forall_forall. intros m Hm.
       apply in_map_iff in Hm as [f [<- _]]. reflexivity. Qed.

Lemma unrelated_missing (l : list string) :
  Forall unrelated l -> filter is_missing_field_error l = [].
Proof. intros H. apply filter_none. revert H. apply Forall_impl. intros m Hm. apply Hm. Qed.

Lemma unrelated_response (l : list string) :
  Forall unrelated l -> filter is_response_error l = [].
Proof. intros H. apply filter_none. revert H. apply Forall_impl. intros m Hm. apply Hm. Qed.

Lemma unrelated_path (l : list string) :
  Forall unrelated l -> filter is_invalid_path_error l = [].
Proof. intros H. apply filter_none. revert H. apply Forall_impl. intros m Hm. apply Hm. Qed.

(** The 'Missing required field' errors of a typed contract are those
    of its unset fields, once each and in the order of the rule. *)
Lemma missing_errors_typed (contractPath : string) (info : ContractInfo) :
  well_typed (ci_contract info) = true ->
  exists r,
    validateContract_checks host contractPath info = Ok r
    /\ filter is_missing_field_error (error_list r)
       = map missing_field (unset_fields (ci_contract info))
    /\ success r = Nat.eqb (List.length (error_list r)) 0
    /\ (Js.truthy (Js.prop (ci_contract info) "path") = false ->
        filter is_invalid_path_error (error_list r) = []).
Proof.
  intros Htyped.
  assert (Ht : Js.truthy (ci_contract info) = true).
  { unfold well_typed in Htyped. do 3 apply andb_prop in Htyped as [Htyped _].
    exact Htyped. }
  destruct (validateContract_checks_typed contractPath info Htyped)
    as (e_method & e_path & e_response & e_auth & w & d & Em & Ep & Er & Ea & Hr).
  eexists. split; [exact Hr|]. rewrite error_list_report.
  pose proof (check_method_unrelated _ _ Em) as Um.
  pose proof (check_path_messages _ _ Ep) as Up.
  pose proof (check_response_messages _ _ Er) as Ur.
  pose proof (check_auth_unrelated _ _ Ea) as Ua.
  split; [|split; [reflexivity|]].
  - rewrite !filter_app, missing_field_is_missing.
    rewrite (unrelated_missing _ Um), (unrelated_missing _ Ua).
    rewrite (filter_none is_missing_field_error e_path)
      by (revert Up; apply Forall_impl; intros m Hm; apply Hm).
    rewrite (filter_none is_missing_field_error e_response)
      by (revert Ur; apply Forall_impl; intros m Hm; apply Hm).
    rewrite !app_nil_r. reflexivity.
  - intros Hunset. rewrite (check_path_unset _ Ht Hunset) in Ep. injection Ep as <-.
    rewrite !filter_app, missing_field_not_path.
    rewrite (unrelated_path _ Um), (unrelated_path _ Ua).
    rewrite (filter_none is_invalid_path_error e_response)
      by (revert Ur; apply Forall_impl; intros m Hm; apply Hm).
    reflexivity.
Qed.

End TypedContracts.

Lemma count_occ_filter (f : string -> bool) (x : string) (l : list string) :
  f x = true -> count_occ string_dec (filter f l) x = count_occ string_dec l x.
Proof.
  intros Hx. induction l as [|y l IH]; simpl; [reflexivity|].
  destruct (f y) eqn:Hy; simpl.
  - destruct (string_dec y x); rewrite IH; reflexivity.
  - destruct (string_dec y x) as [->|_]; [rewrite Hx in Hy; discriminate Hy | exact IH].
Qed.

Lemma absent_is_unset (contract : value) (field : string) :
  In field requiredFields -> present contract field = false ->
  In field (unset_fields contract).
Proof.
  intros Hin Habsent. unfold unset_fields. apply filter_In. split; [exact Hin|].
  unfold present in Habsent. unfold Js.prop.
  destruct (Js.own contract field); [discriminate Habsent|].
  simpl in Hin. destruct Hin as [<-|[<-|[<-|[]]]]; destruct contract; reflexivity.
Qed.

(** C1, amended: on a typed contract description, [validateContract]
    reports 'Missing required field' once for each of [path], [method],
    [response] that is absent or holds a falsy value, in that order, and
    for no other field; the result fails as soon as one is reported.  A
    field that is absent is always among them. *)
Theorem unset_fields_reported (host : Host) (contractPath : string) (a a' : Adapter)
  (info : ContractInfo) :
  readContract host contractPath a = (Ok info, a') ->
  well_typed (ci_contract info) = true ->
  exists r,
    fst (validateContract host contractPath a) = Ok r
    /\ filter is_missing_field_error (error_list r)
       = map missing_field (unset_fields (ci_contract info))
    /\ (unset_fields (ci_contract info) <> [] -> success r = false)
    /\ (forall field, In field requiredFields ->
                      present (ci_contract info) field = false ->
                      In (missing_field field) (error_list r)).
Proof.
  intros Hread Htyped.
  destruct (missing_errors_typed host contractPath info Htyped)
    as (r & Hr & Hmissing & Hsuccess & _).
  exists r. split; [apply (validateContract_read host _ a a' info r Hread Hr)|].
  split; [exact Hmissing|]. split.
  - intros Hne. rewrite Hsuccess. destruct (error_list r) as [|e l]; [|reflexivity].
    simpl in Hmissing. destruct (unset_fields (ci_contract info)); [tauto | discriminate Hmissing].
  - intros field Hin Habsent.
    assert (Hf : In (missing_field field) (filter is_missing_field_error (error_list r))).
    { rewrite Hmissing. apply in_map. apply absent_is_unset; assumption. }
    apply filter_In in Hf. apply Hf.
Qed.

Lemma unset_fields_reported_witness :
  let contract := VObj [("path", VStr "/users"); ("summary", VStr "no method")] in
  exists r,
    fst (validateContract (demo_host contract) "c.ts" demo_adapter) = Ok r
    /\ filter is_missing_field_error (error_list r)
       = ["Missing required field: method"; "Missing required field: response"]
    /\ success r = false.
Proof.
  intros contract.
  destruct (unset_fields_reported (demo_host contract) "c.ts" demo_adapter
              (snd (readContract (demo_host contract) "c.ts" demo_adapter))
              {| ci_path := "/contracts/c.ts";
                 ci_content := "export const Contract = { };";
                 ci_contract := contract;
                 ci_exportName := Some "Contract";
                 ci_sourceFile := Some (demo_source contract) |}
              eq_refl eq_refl) as (r & Hr & Hmissing & Hsuccess & _).
  exists r. split; [exact Hr|]. split; [exact Hmissing|].
  apply Hsuccess. discriminate.
Defined.

(** C1 fails as stated: a field that is present but falsy is reported as
    missing.  Here [path] is declared (as the empty string) and [method]
    is missing; the result carries a 'Missing required field' error for
    the present field [path]. *)
Lemma present_field_reported_missing :
  let contract := VObj [("path", VStr ""); ("response", VObj [("200", VObj [])])] in
  present contract "method" = false
  /\ present contract "path" = true
  /\ (exists d,
        fst (validateContract (demo_host contract) "c.ts" demo_adapter)
        = Ok {| success := false;
                errors := Some [ "Missing required field: path";
                                 "Missing required field: method" ];
                warnings := None;
                details := d |})
  /\ ~ errors_per_missing_field (demo_host contract) "c.ts" demo_adapter.
Proof.
  intros contract. split; [reflexivity|]. split; [reflexivity|]. split.
  - eexists. reflexivity.
  - intros H.
    edestruct H as (r & Hr & _ & Hcount); [reflexivity | |].
    + exists "method". split; [right; left; reflexivity | reflexivity].
    + vm_compute in Hr. injection Hr as <-.
      specialize (Hcount "path" (or_introl eq_refl)).
      vm_compute in Hcount. discriminate Hcount.
Qed.

(** C9, amended: on a typed contract description, a required field that
    is present but holds a falsy value (an empty [path] for one) is
    reported by 'Missing required field' exactly once; and when it is
    [path] that is falsy, no 'Invalid path' error is raised: the
    leading-slash rule is not applied. *)
Theorem falsy_field_reported_missing (host : Host) (contractPath : string)
  (a a' : Adapter) (info : ContractInfo) (field : string) (v : value) :
  readContract host contractPath a = (Ok info, a') ->
  well_typed (ci_contract info) = true ->
  In field requiredFields ->
  Js.own (ci_contract info) field = Some v ->
  Js.truthy v = false ->
  exists r,
    fst (validateContract host contractPath a) = Ok r
    /\ success r = false
    /\ count_occ string_dec (error_list r) (missing_field field) = 1%nat
    /\ (field = "path" -> filter is_invalid_path_error (error_list r) = []).
Proof.
  intros Hread Htyped Hin Hown Hfalsy.
  destruct (missing_errors_typed host contractPath info Htyped)
    as (r & Hr & Hmissing & Hsuccess & Hpath).
  assert (Hprop : Js.truthy (Js.prop (ci_contract info) field) = false).
  { unfold Js.prop. rewrite Hown. exact Hfalsy. }
  assert (Hcount : count_occ string_dec (error_list r) (missing_field field) = 1%nat).
  { rewrite <- (count_occ_filter is_missing_field_error) by apply prefix_append.
    rewrite Hmissing. unfold unset_fields, requiredFields. cbn [filter].
    simpl in Hin. destruct Hin as [<-|[<-|[<-|[]]]]; rewrite Hprop; cbn [negb];
      repeat match goal with
        | |- context [Js.truthy ?x] => destruct (Js.truthy x)
        end; reflexivity. }
  exists r. split; [apply (validateContract_read host _ a a' info r Hread Hr)|].
  split; [|split; [exact Hcount|]].
  - rewrite Hsuccess. destruct (error_list r); [discriminate Hcount | reflexivity].
  - intros ->. apply Hpath. exact Hprop.
Qed.

Lemma falsy_field_reported_missing_witness :
  let contract := VObj [ ("path", VStr ""); ("method", VStr "get");
                         ("response", VObj [("200", VObj [])]) ] in
  exists r,
    fst (validateContract (demo_host contract) "c.ts" demo_adapter) = Ok r
    /\ success r = false
    /\ count_occ string_dec (error_list r) (missing_field "path") = 1%nat
    /\ filter is_invalid_path_error (error_list r) = [].
Proof.
  intros contract.
  destruct (falsy_field_reported_missing (demo_host contract) "c.ts" demo_adapter
              (snd (readContract (demo_host contract) "c.ts" demo_adapter))
              {| ci_path := "/contracts/c.ts";
                 ci_content := "export const Contract = { };";
                 ci_contract := contract;
                 ci_exportName := Some "Contract";
                 ci_sourceFile := Some (demo_source contract) |}
              "path" (VStr "")
              eq_refl eq_refl (or_introl eq_refl) eq_refl eq_refl)
    as (r & Hr & Hsuccess & Hcount & Hpath).
  exists r. repeat split; try assumption. apply Hpath. reflexivity.
Defined.

(** C9 does not hold of every contract: a fault in a later rule
    replaces the errors collected so far.  Here [path] is present and
    empty, and one authorization claim is [null]; reading its
    [userClaimPath] faults, and the result carries the fault alone, without
    'Missing required field: path'. *)
Lemma empty_path_not_reported :
  let contract :=
    VObj [ ("path", VStr ""); ("method", VStr "get");
           ("response", VObj [("200", VObj [])]);
           ("auth", VObj [("authorization", VObj [("claims", VArr [VNull])])]) ] in
  Js.own contract "path" = Some (VStr "")
  /\ fst (validateContract (demo_host contract) "c.ts" demo_adapter)
     = Ok {| success := false;
             errors := Some [ "Failed to validate contract: Cannot read properties of null (reading 'userClaimPath')" ];
             warnings := None;
             details := None |}
  /\ ~ empty_path_reported_missing (demo_host contract) "c.ts" demo_adapter.
Proof.
  intros contract. split; [reflexivity|]. split; [reflexivity|].
  intros H.
  edestruct H as (r & Hr & Hin & _); [reflexivity | reflexivity |].
  vm_compute in Hr. injection Hr as <-.
  destruct Hin as [Hin|[]]. discriminate Hin.
Qed.

(** ** Status codes *)

Lemma invalid_status_parses (key : string) :
  invalid_status key = false <-> parses_as_status key.
Proof.
  unfold invalid_status, parses_as_status.
  destruct (JsNumber.parseInt key (Some 10)) as [|n|negative]; simpl.
  - split; [intros H; discriminate H | intros (n & H & _); discriminate H].
  - split.
    + intros H. apply orb_false_elim in H as [Hlo Hhi].
      exists n. split; [reflexivity | lia].
    + intros (m & Hm & Hrange). injection Hm as ->.
      apply orb_false_intro; lia.
  - destruct negative;
      (split; [intros H; discriminate H | intros (n & H & _); discriminate H]).
Qed.

Lemma status_numerals_valid (key : string) :
  In key status_numerals -> invalid_status key = false.
Proof.
  assert (H : forallb (fun k => negb (invalid_status k)) status_numerals = true)
    by (vm_compute; reflexivity).
  rewrite forallb_forall in H. intros Hin. apply H in Hin.
  destruct (invalid_status key); [discriminate Hin | reflexivity].
Qed.

Lemma invalid_status_message_is_response (keys : list string) :
  filter is_response_error (map invalid_status_message keys)
  = map invalid_status_message keys.
Proof.
  apply filter_all. apply Forall_forall. intros m Hm.
  apply in_map_iff in Hm as [key [<- _]].
  unfold is_response_error, invalid_status_message.
  rewrite prefix_append. reflexivity.
Qed.

(** C2, amended: on a typed contract description whose [response] is an
    object, the response-related errors of [validateContract] are exactly one
    'Invalid status code' error per key that does not parse as an integer
    in [100, 599], in key order - so none at all when every key is the
    numeral of an integer in that range - and, for the empty object, the
    single error that it must have at least one status code. *)
Theorem response_keys_checked (host : Host) (contractPath : string) (a a' : Adapter)
  (info : ContractInfo) (props : list (string * value)) :
  readContract host contractPath a = (Ok info, a') ->
  well_typed (ci_contract info) = true ->
  Js.prop (ci_contract info) "response" = VObj props ->
  (forall key, invalid_status key = true <-> ~ parses_as_status key)
  /\ exists r,
      fst (validateContract host contractPath a) = Ok r
      /\ (props <> [] ->
          filter is_response_error (error_list r)
          = map invalid_status_message (filter invalid_status (map fst props)))
      /\ (props <> [] ->
          (forall key, In key (map fst props) -> In key status_numerals) ->
          filter is_response_error (error_list r) = [])
      /\ (props = [] ->
          filter is_response_error (error_list r)
          = ["Response object must have at least one status code"]).
Proof.
  intros Hread Htyped Hresponse. split.
  { intros key. rewrite <- invalid_status_parses.
    destruct (invalid_status key); split; intros H; try reflexivity;
      try discriminate H; try (intros H'; discriminate H'); contradiction H; reflexivity. }
  assert (Ht : Js.truthy (ci_contract info) = true).
  { unfold well_typed in Htyped. do 3 apply andb_prop in Htyped as [Htyped _].
    exact Htyped. }
  destruct (validateContract_checks_typed host contractPath info Htyped)
    as (e_method & e_path & e_response & e_auth & w & d & Em & Ep & Er & Ea & Hr).
  rewrite (check_response_object _ Ht props Hresponse) in Er. injection Er as <-.
  pose proof (check_method_unrelated _ _ Em) as Um.
  pose proof (check_path_messages _ _ Ep) as Up.
  pose proof (check_auth_unrelated _ _ Ea) as Ua.
  assert (Hrequired : filter is_response_error
                        (map missing_field (unset_fields (ci_contract info))) = []).
  { unfold unset_fields, requiredFields. cbn [filter]. rewrite Hresponse. cbn [Js.truthy negb].
    destruct (Js.truthy (Js.prop (ci_contract info) "path")),
      (Js.truthy (Js.prop (ci_contract info) "method")); reflexivity. }
  assert (Hfilter :
           filter is_response_error
             (error_list
                (report (map missing_field (unset_fields (ci_contract info))
                         ++ e_method ++ e_path
                         ++ match props with
                            | [] => ["Response object must have at least one status code"]
                            | _ :: _ =>
                                map invalid_status_message
                                  (filter invalid_status (map fst props))
                            end ++ e_auth) w d))
           = match props with
             | [] => ["Response object must have at least one status code"]
             | _ :: _ => map invalid_status_message (filter invalid_status (map fst props))
             end).
  { rewrite error_list_report, !filter_app, Hrequired.
    rewrite (unrelated_response _ Um), (unrelated_response _ Ua).
    rewrite (filter_none is_response_error e_path)
      by (revert Up; apply Forall_impl; intros m Hm; apply Hm).
    rewrite app_nil_r. cbn [app].
    destruct props; [reflexivity | apply invalid_status_message_is_response]. }
  eexists. split; [apply (validateContract_read host _ a a' info _ Hread Hr)|].
  rewrite Hfilter. split; [|split].
  - intros Hne. destruct props; [contradiction Hne; reflexivity | reflexivity].
  - intros Hne Hkeys. destruct props as [|kv props]; [contradiction Hne; reflexivity|].
    rewrite (filter_none invalid_status); [reflexivity|].
    apply Forall_forall. intros key Hkey. apply status_numerals_valid, Hkeys, Hkey.
  - intros ->. reflexivity.
Qed.

Lemma response_keys_checked_witness :
  let contract := VObj [ ("path", VStr "/users"); ("method", VStr "get");
                         ("response", VObj [ ("99", VObj []); ("200", VObj []);
                                             ("404", VObj []); ("default", VObj []) ]) ] in
  exists r,
    fst (validateContract (demo_host contract) "c.ts" demo_adapter) = Ok r
    /\ filter is_response_error (error_list r)
       = [ "Invalid status code in response: 99. Must be a valid HTTP status code (100-599)";
           "Invalid status code in response: default. Must be a valid HTTP status code (100-599)" ].
Proof.
  intros contract.
  destruct (response_keys_checked (demo_host contract) "c.ts" demo_adapter
              (snd (readContract (demo_host contract) "c.ts" demo_adapter))
              {| ci_path := "/contracts/c.ts";
                 ci_content := "export const Contract = { };";
                 ci_contract := contract;
                 ci_exportName := Some "Contract";
                 ci_sourceFile := Some (demo_source contract) |}
              [ ("99", VObj []); ("200", VObj []); ("404", VObj []); ("default", VObj []) ]
              eq_refl eq_refl eq_refl) as (_ & r & Hr & Hkeys & _).
  exists r. split; [exact Hr|]. apply Hkeys. discriminate.
Defined.

(** C2 does not hold of every contract: a fault in another rule
    replaces the errors collected so far.  Here [response] is a non-empty
    object whose only key, [abc], is no status code, and [path] is a
    number; [startsWith] faults on it, and the result carries the fault
    alone, without an error for the key. *)
Lemma invalid_key_not_reported :
  let contract :=
    VObj [ ("path", VNum (Num 123)); ("method", VStr "get");
           ("response", VObj [("abc", VObj [])]) ] in
  Js.prop contract "response" = VObj [("abc", VObj [])]
  /\ ~ parses_as_status "abc"
  /\ fst (validateContract (demo_host contract) "c.ts" demo_adapter)
     = Ok {| success := false;
             errors := Some [ "Failed to validate contract: contract.path.startsWith is not a function" ];
             warnings := None;
             details := None |}
  /\ ~ error_per_invalid_key (demo_host contract) "c.ts" demo_adapter.
Proof.
  intros contract.
  assert (Hkey : ~ parses_as_status "abc").
  { intros (n & Hn & _). vm_compute in Hn. discriminate Hn. }
  split; [reflexivity|]. split; [exact Hkey|]. split; [reflexivity|].
  intros H.
  edestruct H as (r & Hr & Hcount); [reflexivity | reflexivity | discriminate |].
  vm_compute in Hr. injection Hr as <-.
  specialize (Hcount "abc" (or_introl eq_refl) Hkey).
  vm_compute in Hcount. discriminate Hcount.
Qed.

(** ** Requests against a contract *)

Section Requests.

Variable host : Host.

Lemma check_container_ok (schema supplied : value) (message valid provided : string) :
  exists e d,
    check_container schema supplied message valid provided = Ok (e, d)
    /\ Forall (fun m => m = message) e.
Proof.
  unfold check_container.
  destruct (Js.truthy schema); simpl; [|do 2 eexists; split; [reflexivity | constructor]].
  destruct (Js.truthy supplied) eqn:Ht; [|do 2 eexists; split; [reflexivity | constructor]].
  destruct (Js.typeof_object supplied); simpl.
  - destruct (keys_truthy _ Ht) as [ks ->]. simpl.
    do 2 eexists; split; [reflexivity | constructor].
  - do 2 eexists; split; [reflexivity | repeat constructor].
Qed.

Lemma includes_is_string (l : list string) (v : value) :
  Js.includes l v = true -> exists s, v = VStr s.
Proof.
  unfold Js.includes. intros H. apply existsb_exists in H as (x & _ & H).
  destruct v; try discriminate H. eexists; reflexivity.
Qed.

(** What the body rule answers, case by case. *)
Lemma check_body_cases (contract_body method body : value) :
  exists w,
    check_body contract_body method body = Ok w
    /\ (Js.truthy contract_body = true -> Js.eq_str method "get" = true ->
        Js.truthy body = true -> w = ["GET requests should not have a body"])
    /\ (Js.truthy contract_body = false -> Js.truthy body = true -> w = [])
    /\ (Js.includes body_methods method = true -> Js.truthy body = false ->
        exists s, method = VStr s
                  /\ w = [JsString.toUpperCase s ++ " request is missing a body"]).
Proof.
  unfold check_body.
  destruct (Js.includes body_methods method) eqn:Hm.
  - destruct (includes_is_string _ _ Hm) as [s Hs]. subst method.
    destruct (Js.truthy contract_body), (Js.truthy body);
      cbn [andb negb method_toUpperCase bind];
      (eexists; split; [reflexivity|]; repeat split; intros;
       try discriminate; try reflexivity).
    + match goal with H : Js.eq_str _ _ = true |- _ => rewrite H end. reflexivity.
    + exists s. split; reflexivity.
    + exists s. split; reflexivity.
  - destruct (Js.truthy contract_body), (Js.truthy body);
      cbn [andb negb method_toUpperCase bind];
      (eexists; split; [reflexivity|]; repeat split; intros;
       try discriminate; try reflexivity).
    match goal with H : Js.eq_str _ _ = true |- _ => rewrite H end. reflexivity.
Qed.




Lemma destructure_request_ok (request : value) :
  nullish request = false ->
  destructure_request request
  = Ok (Js.prop request "params", Js.prop request "query", Js.prop request "body").
Proof. destruct request; simpl; intros H; try reflexivity; discriminate H. Qed.


Lemma validateRequestAgainstContract_read (contractPath : string) (a a' : Adapter)
  (info : ContractInfo) (request : value) (r : ValidationResult) :
  readContract host contractPath a = (Ok info, a') ->
  validateRequestAgainstContract_checks host contractPath info request = Ok r ->
  fst (validateRequestAgainstContract host contractPath request a) = Ok r.
Proof.
  intros Hread Hr. unfold validateRequestAgainstContract. rewrite Hread. cbn.
  rewrite Hr. reflexivity.
Qed.

End Requests.








(** ** The mock synthesizer *)

(** Reading back a printed integer. *)

Lemma parse_digits_uint (d : Decimal.uint) (a : Z) :
  JsNumber.parse_digits 10 (DecimalString.NilEmpty.string_of_uint d) (Some a)
  = Some (uint_value d a).
Proof.
  revert a. induction d; intros a;
    cbn [DecimalString.NilEmpty.string_of_uint uint_value];
    try reflexivity; rewrite <- IHd; reflexivity.
Qed.

Lemma parse_digits_numeral (d : Decimal.uint) :
  JsNumber.parse_digits 10 (DecimalString.NilZero.string_of_uint d) None
  = Some (uint_value d 0).
Proof.
  destruct d;
    cbn [DecimalString.NilZero.string_of_uint DecimalString.NilEmpty.string_of_uint
           uint_value];
    try reflexivity; rewrite <- parse_digits_uint; reflexivity.
Qed.

Lemma uint_value_acc (d : Decimal.uint) (acc : positive) :
  uint_value d (Z.pos acc) = Z.pos (Pos.of_uint_acc d acc).
Proof.
  revert acc. induction d; intros acc; cbn [uint_value Pos.of_uint_acc]; try reflexivity;
    rewrite <- IHd; f_equal; lia.
Qed.

Lemma uint_value_of_uint (d : Decimal.uint) : uint_value d 0 = Z.of_N (Pos.of_uint d).
Proof.
  induction d; cbn [uint_value Pos.of_uint]; try reflexivity; try exact IHd;
    cbn [Z.mul Z.add]; rewrite uint_value_acc; reflexivity.
Qed.

(** An integer below 2^53 is its own Number value. *)
Lemma of_integer_safe (n : Z) :
  0 <= n < JsNumber.two53 -> JsNumber.of_integer n = Num n.
Proof.
  intros Hn. unfold JsNumber.of_integer, JsNumber.nearest.
  rewrite Z.abs_eq by lia.
  destruct (Z.ltb_spec n JsNumber.two53) as [_|H]; [|lia].
  assert (Hbig : JsNumber.two53 < Z.shiftl 1 1024) by reflexivity.
  destruct (Z.leb_spec (Z.shiftl 1 1024) n) as [H|_]; [lia|].
  f_equal. destruct n; try reflexivity. lia.
Qed.

(** [parseInt] reads the decimal numeral of an integer below 2^53 as
    that integer. *)
Lemma parseInt_numeral (n : Z) :
  0 <= n < JsNumber.two53 ->
  JsNumber.parseInt (JsString.of_Z n) (Some 10) = Num n.
Proof.
  intros Hn. unfold JsString.of_Z.
  assert (Hint : exists d, Z.to_int n = Decimal.Pos d /\ Z.of_N (Pos.of_uint d) = n).
  { destruct n as [|p|p]; [exists (Decimal.D0 Decimal.Nil); split; reflexivity | | lia].
    exists (Pos.to_uint p). split; [reflexivity|].
    rewrite DecimalPos.Unsigned.of_to. reflexivity. }
  destruct Hint as (d & -> & Hd).
  cbn [DecimalString.NilZero.string_of_int].
  pose proof (parse_digits_numeral d) as Hparse.
  rewrite uint_value_of_uint, Hd in Hparse.
  unfold JsNumber.parseInt.
  assert (Hstart : JsNumber.strip_sign
                     (JsNumber.skip_whitespace (DecimalString.NilZero.string_of_uint d))
                   = (1, DecimalString.NilZero.string_of_uint d)).
  { destruct d; reflexivity. }
  rewrite Hstart.
  cbn [Z.eqb Z.ltb negb andb orb Z.compare Pos.compare Pos.compare_cont Pos.eqb].
  rewrite Hparse, Z.mul_1_l. apply of_integer_safe, Hn.
Qed.

(** A printed integer below 2^53 is its decimal numeral. *)
Lemma toString_safe (n : Z) :
  0 <= n < JsNumber.two53 -> JsNumber.toString (Num n) = JsString.of_Z n.
Proof.
  intros Hn. unfold JsNumber.toString. rewrite (of_integer_safe n Hn).
  destruct (Z.ltb_spec n 0) as [H|_]; [lia|].
  rewrite Z.abs_eq by lia. unfold JsNumber.render.
  destruct (Z.ltb_spec n JsNumber.two53) as [_|H]; [reflexivity | lia].
Qed.

Lemma of_Z_numeric (z : Z) : numeric_start (JsString.of_Z z) = true.
Proof.
  unfold JsString.of_Z. destruct (Z.to_int z) as [d|d]; destruct d; reflexivity.
Qed.

Lemma strip_zeros_head (s : string) :
  match JsNumber.strip_zeros s, s with
  | String d _, String c _ => d = c
  | String _ _, EmptyString => False
  | EmptyString, _ => True
  end.
Proof.
  destruct s as [|c s]; cbn [JsNumber.strip_zeros]; [exact I|].
  destruct (JsNumber.strip_zeros s); [destruct (Ascii.eqb c "0")|];
    first [reflexivity | exact I].
Qed.

Lemma exponential_numeric (c : Z) : numeric_start (JsNumber.exponential c) = true.
Proof.
  unfold JsNumber.exponential.
  pose proof (of_Z_numeric c) as Hdigits.
  pose proof (strip_zeros_head (JsString.of_Z c)) as Hhead.
  destruct (JsNumber.strip_zeros (JsString.of_Z c)) as [|d rest]; [exact Hdigits|].
  destruct (JsString.of_Z c) as [|c0 digits]; [contradiction Hhead|]. subst d.
  destruct rest; exact Hdigits.
Qed.

Lemma toString_numeric (n : number) : numeric_start (JsNumber.toString n) = true.
Proof.
  destruct n as [|z|negative]; [reflexivity| |destruct negative; reflexivity].
  unfold JsNumber.toString.
  destruct (JsNumber.of_integer z) as [|d|negative];
    [reflexivity| |destruct negative; reflexivity].
  destruct (d <? 0); [reflexivity|].
  change ("" ++ JsNumber.render (Z.abs d)) with (JsNumber.render (Z.abs d)).
  unfold JsNumber.render.
  destruct (Z.abs d <? JsNumber.two53); [apply of_Z_numeric|].
  destruct (_ <? _); [apply of_Z_numeric | apply exponential_numeric].
Qed.

Lemma numeric_not_inherited (s : string) :
  numeric_start s = true -> Js.inherited s = false.
Proof.
  destruct s as [|c s]; [reflexivity|].
  destruct c as [[] [] [] [] [] [] [] []]; intros H; try discriminate H; reflexivity.
Qed.

Lemma numeral_not_inherited (n : number) : Js.inherited (JsNumber.toString n) = false.
Proof. apply numeric_not_inherited, toString_numeric. Qed.

Section Mocks.

Variable host : Host.

(** A status code that is no key of the mapping is undeclared. *)
Lemma undeclared_no_key (props : list (string * value)) (statusCode : number) :
  Js.assoc props (JsNumber.toString statusCode) = None ->
  undeclared (VObj props) statusCode = Ok true.
Proof.
  intros H. unfold undeclared. cbn [Js.truthy negb Js.get bind].
  unfold Js.prop. cbn [Js.own]. rewrite H, numeral_not_inherited. reflexivity.
Qed.

Lemma settle_status_fallback (contract : value) (statusCode : number)
  (key : string) (schema : value) (rest : list (string * value)) :
  Js.truthy contract = true ->
  Js.prop contract "response" = VObj ((key, schema) :: rest) ->
  Js.assoc ((key, schema) :: rest) (JsNumber.toString statusCode) = None ->
  settle_status contract statusCode = Ok (Some (JsNumber.parseInt key (Some 10))).
Proof.
  intros Ht Hresponse Hkey. unfold settle_status.
  rewrite (get_truthy _ _ Ht), Hresponse. cbn [bind].
  rewrite (undeclared_no_key _ _ Hkey). reflexivity.
Qed.



End Mocks.



Example mock_without_response :
  fst (generateMockResponse (demo_host (VObj [("path", VStr "/users")])) "c.ts"
         (Some (Num 404)) demo_adapter)
  = Ok {| mock_data := VNull; mock_type := "error"; mock_success := false |}.
Proof. reflexivity. Qed.

Example api_key_mock_is_a_list :
  exists first second,
    mock_data (fst (mock_for (demo_host VNull) "admin.api-key.get.contracts" (Num 200)
                      (0%nat, 0%nat)))
    = VArr [VObj first; VObj second]
    /\ Js.assoc first "status" = Some (VStr "active")
    /\ Js.assoc first "permissions" = Some (VArr [VStr "read"; VStr "write"])
    /\ Js.assoc second "createdAt" = Some (VStr "2024-01-01T00:00:00.000Z").
Proof. do 2 eexists. repeat split. Qed.

(** * Further results

    The operations and the rules that the statements above leave aside:
    responses against a contract, the request and response types, the
    reading of the source file, the life cycle of the adapter, the mock
    data, the placeholders of a path and the order of the rules. *)

(** ** Responses against a contract *)

Section Responses.

Variable host : Host.

Lemma validateResponseAgainstContract_read (contractPath : string) (a a' : Adapter)
  (info : ContractInfo) (response : value) (status : option number)
  (r : ValidationResult) :
  readContract host contractPath a = (Ok info, a') ->
  validateResponseAgainstContract_checks host contractPath info response status = Ok r ->
  fst (validateResponseAgainstContract host contractPath response status a) = Ok r.
Proof.
  intros Hread Hr. unfold validateResponseAgainstContract. rewrite Hread. cbn.
  rewrite Hr. reflexivity.
Qed.

Lemma undeclared_ok (response : value) (statusCode : number) :
  exists b, undeclared response statusCode = Ok b.
Proof.
  unfold undeclared. destruct (Js.truthy response) eqn:Ht; cbn [negb].
  - rewrite (get_truthy _ _ Ht). cbn [bind]. eexists; reflexivity.
  - eexists; reflexivity.
Qed.

Lemma undeclared_declared (response : value) (statusCode : number) :
  Js.truthy response = true ->
  Js.truthy (Js.prop response (JsNumber.toString statusCode)) = true ->
  undeclared response statusCode = Ok false.
Proof.
  intros Ht Hs. unfold undeclared. rewrite Ht. cbn [negb].
  rewrite (get_truthy _ _ Ht). cbn [bind]. rewrite Hs. reflexivity.
Qed.

End Responses.

(** X1: a status code that is no key of the contract's [response]
    mapping makes [validateResponseAgainstContract] fail with the single
    error that the contract defines no response for it, without warning,
    whatever the payload is; when the mapping declares codes, the details
    suggest them. *)
Theorem undeclared_status_fails (host : Host) (contractPath : string) (a a' : Adapter)
  (info : ContractInfo) (props : list (string * value)) (status : option number)
  (response : value) :
  readContract host contractPath a = (Ok info, a') ->
  Js.truthy (ci_contract info) = true ->
  Js.prop (ci_contract info) "response" = VObj props ->
  Js.assoc props (JsNumber.toString (default_status status)) = None ->
  exists r,
    (forall payload,
        fst (validateResponseAgainstContract host contractPath payload status a) = Ok r)
    /\ success r = false
    /\ errors r = Some [ "Contract does not define a response for status code "
                         ++ JsNumber.toString (default_status status) ]
    /\ warnings r = None
    /\ (props <> [] ->
        exists d,
          details r = Some d
          /\ Js.assoc d "definedStatusCodes" = Some (Js.strings (map fst props))
          /\ Js.assoc d "suggestions"
             = Some (VStr ("Contract defines responses for status codes: "
                           ++ JsString.join ", " (map fst props)))).
Proof.
  intros Hread Ht Hresponse Hkey.
  assert (Hchecks : forall payload,
             validateResponseAgainstContract_checks host contractPath info payload status
             = Ok (report
                     [ "Contract does not define a response for status code "
                       ++ JsNumber.toString (default_status status) ]
                     []
                     ([ ("contractName", VStr (contractName host contractPath));
                        ("path", VStr (ci_path info));
                        ("method", Js.prop (ci_contract info) "method");
                        ("statusCode", VNum (default_status status)) ]
                      ++ match map fst props with
                         | [] => []
                         | _ :: _ =>
                             [ ("definedStatusCodes", Js.strings (map fst props));
                               ("suggestions",
                                VStr ("Contract defines responses for status codes: "
                                      ++ JsString.join ", " (map fst props))) ]
                         end))).
  { intros payload. unfold validateResponseAgainstContract_checks.
    rewrite Ht. cbn [negb]. rewrite !(get_truthy _ _ Ht). cbn [bind].
    rewrite Hresponse, (undeclared_no_key props _ Hkey). cbn [bind Js.truthy Js.keys].
    destruct (map fst props); reflexivity. }
  eexists. split; [|split; [|split; [|split]]].
  - intros payload. apply (validateResponseAgainstContract_read host _ a a' info).
    + exact Hread.
    + apply Hchecks.
  - reflexivity.
  - reflexivity.
  - reflexivity.
  - intros Hne. destruct props as [|[k v] props]; [contradiction Hne; reflexivity|].
    eexists. split; [reflexivity|]. split; reflexivity.
Qed.

Lemma undeclared_status_fails_witness :
  exists r,
    (forall payload,
        fst (validateResponseAgainstContract (demo_host user_contract)
               "user.get.contracts.ts" payload (Some (Num 500)) demo_adapter) = Ok r)
    /\ errors r = Some ["Contract does not define a response for status code 500"]
    /\ exists d,
        details r = Some d
        /\ Js.assoc d "suggestions"
           = Some (VStr "Contract defines responses for status codes: 200, 404").
Proof.
  destruct (undeclared_status_fails (demo_host user_contract) "user.get.contracts.ts"
              demo_adapter
              (snd (readContract (demo_host user_contract) "user.get.contracts.ts"
                      demo_adapter))
              {| ci_path := "/contracts/user.get.contracts.ts";
                 ci_content := "export const Contract = { };";
                 ci_contract := user_contract;
                 ci_exportName := Some "Contract";
                 ci_sourceFile := Some (demo_source user_contract) |}
              [ ("200", VObj [("description", VStr "User found")]);
                ("404", VObj [("description", VStr "User not found")]) ]
              (Some (Num 500)) VNull eq_refl eq_refl eq_refl eq_refl)
    as (r & Hall & _ & Herrors & _ & Hdetails).
  exists r. split; [exact Hall|]. split; [exact Herrors|].
  destruct Hdetails as (d & Hd & _ & Hs); [discriminate|].
  exists d. split; assumption.
Defined.

(** X2: for a status code the contract declares,
    [validateResponseAgainstContract] succeeds exactly when the payload is
    an object or an array; a missing (falsy) payload and a payload of
    another type each give one error of their own. *)
Theorem declared_status_verdict (host : Host) (contractPath : string) (a a' : Adapter)
  (info : ContractInfo) (status : option number) (response : value) :
  readContract host contractPath a = (Ok info, a') ->
  Js.truthy (ci_contract info) = true ->
  Js.truthy (Js.prop (ci_contract info) "response") = true ->
  Js.truthy (Js.prop (Js.prop (ci_contract info) "response")
               (JsNumber.toString (default_status status))) = true ->
  exists r,
    fst (validateResponseAgainstContract host contractPath response status a) = Ok r
    /\ success r = Js.truthy response && Js.typeof_object response
    /\ error_list r
       = if negb (Js.truthy response) then
           [ "Response body is required for status code "
             ++ JsNumber.toString (default_status status) ]
         else if negb (Js.typeof_object response) then
           [ "Response must be an object or array" ]
         else [].
Proof.
  intros Hread Ht Hresponse Hschema.
  assert (Hchecks : exists w d,
             validateResponseAgainstContract_checks host contractPath info response status
             = Ok (report
                     (if negb (Js.truthy response) then
                        [ "Response body is required for status code "
                          ++ JsNumber.toString (default_status status) ]
                      else if negb (Js.typeof_object response) then
                        [ "Response must be an object or array" ]
                      else []) w d)).
  { unfold validateResponseAgainstContract_checks.
    rewrite Ht. cbn [negb]. rewrite !(get_truthy _ _ Ht). cbn [bind].
    rewrite (undeclared_declared _ _ Hresponse Hschema). cbn [bind].
    destruct (Js.truthy response); cbn [negb bind];
      [destruct (Js.typeof_object response); cbn [negb bind]|];
      do 2 eexists; reflexivity. }
  destruct Hchecks as (w & d & Hchecks).
  eexists. split; [apply (validateResponseAgainstContract_read host _ a a' info _ _ _
                            Hread Hchecks)|].
  rewrite error_list_report, success_report.
  destruct (Js.truthy response); [destruct (Js.typeof_object response)|];
    split; reflexivity.
Qed.

Lemma declared_status_verdict_witness :
  exists r,
    fst (validateResponseAgainstContract (demo_host user_contract)
           "user.get.contracts.ts" (VStr "plain text") (Some (Num 404)) demo_adapter) = Ok r
    /\ success r = false
    /\ error_list r = ["Response must be an object or array"].
Proof.
  apply (declared_status_verdict (demo_host user_contract) "user.get.contracts.ts"
           demo_adapter
           (snd (readContract (demo_host user_contract) "user.get.contracts.ts"
                   demo_adapter))
           {| ci_path := "/contracts/user.get.contracts.ts";
              ci_content := "export const Contract = { };";
              ci_contract := user_contract;
              ci_exportName := Some "Contract";
              ci_sourceFile := Some (demo_source user_contract) |}
           (Some (Num 404)) (VStr "plain text") eq_refl eq_refl eq_refl eq_refl).
Defined.

(** X3: [validateResponseAgainstContract] only ever warns about an
    object payload, and only for [get] with status 200 (when the payload
    is no array) or for [post] with status 201. *)
Theorem response_warnings_only (host : Host) (contractPath : string) (a a' : Adapter)
  (info : ContractInfo) (status : option number) (response : value) :
  readContract host contractPath a = (Ok info, a') ->
  Js.truthy (ci_contract info) = true ->
  exists r,
    fst (validateResponseAgainstContract host contractPath response status a) = Ok r
    /\ (warning_list r <> [] ->
        Js.truthy response = true
        /\ Js.typeof_object response = true
        /\ error_list r = []
        /\ ((JsNumber.strict_eq (default_status status) (Num 200) = true
             /\ Js.eq_str (Js.prop (ci_contract info) "method") "get" = true
             /\ Js.isArray response = false)
            \/ (JsNumber.strict_eq (default_status status) (Num 201) = true
                /\ Js.eq_str (Js.prop (ci_contract info) "method") "post" = true))).
Proof.
  intros Hread Ht.
  destruct (undeclared_ok (Js.prop (ci_contract info) "response") (default_status status))
    as [missing Hmissing].
  assert (Hchecks : exists e w d,
             validateResponseAgainstContract_checks host contractPath info response status
             = Ok (report e w d)
             /\ (w <> [] ->
                 Js.truthy response = true /\ Js.typeof_object response = true
                 /\ e = []
                 /\ w = payload_warnings (Js.prop (ci_contract info) "method") response
                          (default_status status))).
  { unfold validateResponseAgainstContract_checks.
    rewrite Ht. cbn [negb]. rewrite !(get_truthy _ _ Ht). cbn [bind].
    rewrite Hmissing. cbn [bind]. destruct missing.
    - destruct (Js.truthy (Js.prop (ci_contract info) "response")) eqn:Hr.
      + destruct (keys_truthy _ Hr) as [ks ->]. cbn [bind].
        do 3 eexists. split; [reflexivity|]. intros H; contradiction H; reflexivity.
      + cbn [bind]. do 3 eexists. split; [reflexivity|].
        intros H; contradiction H; reflexivity.
    - destruct (Js.truthy response); cbn [negb bind];
        [destruct (Js.typeof_object response); cbn [negb bind]|];
        do 3 eexists; (split; [reflexivity|]);
        try (intros H; contradiction H; reflexivity).
      intros _. repeat split. }
  destruct Hchecks as (e & w & d & Hchecks & Hw).
  eexists. split; [apply (validateResponseAgainstContract_read host _ a a' info _ _ _
                            Hread Hchecks)|].
  rewrite warning_list_report, error_list_report. intros Hne.
  destruct (Hw Hne) as (H1 & H2 & H3 & H4).
  repeat (split; [assumption|]).
  rewrite H4 in Hne. unfold payload_warnings in Hne.
  destruct (JsNumber.strict_eq (default_status status) (Num 200)),
    (Js.eq_str (Js.prop (ci_contract info) "method") "get"),
    (Js.isArray response),
    (JsNumber.strict_eq (default_status status) (Num 201)),
    (Js.eq_str (Js.prop (ci_contract info) "method") "post");
    cbn [andb negb app] in Hne;
    try (contradiction Hne; reflexivity);
    try (left; repeat split; reflexivity);
    try (right; repeat split; reflexivity).
Qed.

Lemma response_warnings_only_witness :
  exists r,
    fst (validateResponseAgainstContract (demo_host user_contract)
           "user.get.contracts.ts" (VObj [("user", VNull)]) None demo_adapter) = Ok r
    /\ success r = true
    /\ warning_list r = [get_200_warning].
Proof.
  destruct (response_warnings_only (demo_host user_contract) "user.get.contracts.ts"
              demo_adapter
              (snd (readContract (demo_host user_contract) "user.get.contracts.ts"
                      demo_adapter))
              {| ci_path := "/contracts/user.get.contracts.ts";
                 ci_content := "export const Contract = { };";
                 ci_contract := user_contract;
                 ci_exportName := Some "Contract";
                 ci_sourceFile := Some (demo_source user_contract) |}
              None (VObj [("user", VNull)]) eq_refl eq_refl) as (r & Hr & _).
  exists r. split; [exact Hr|].
  vm_compute in Hr. injection Hr as <-. split; reflexivity.
Defined.

(** ** The request and response types of a contract *)

Section Types.

Variable host : Host.

Lemma method_toUpperCase_string (s : string) :
  method_toUpperCase (VStr s) = Ok (JsString.toUpperCase s).
Proof. reflexivity. Qed.

Lemma conventional_status_ok (method : value) (codes : list string) :
  exists w, conventional_status method codes = Ok w.
Proof.
  unfold conventional_status.
  destruct (Js.eq_str method "get"); [eexists; reflexivity|].
  destruct (Js.eq_str method "post"); [eexists; reflexivity|].
  destruct (Js.eq_str method "put" || Js.eq_str method "patch") eqn:Hm.
  - destruct (negb (has codes "200")); [|eexists; reflexivity].
    destruct method; try discriminate Hm. cbn [method_toUpperCase bind].
    eexists; reflexivity.
  - destruct (Js.eq_str method "delete"); eexists; reflexivity.
Qed.

Lemma validateResponseType_read (contractPath : string) (a a' : Adapter)
  (info : ContractInfo) (r : ValidationResult) :
  readContract host contractPath a = (Ok info, a') ->
  validateResponseType_checks host contractPath info = Ok r ->
  fst (validateResponseType host contractPath a) = Ok r.
Proof.
  intros Hread Hr. unfold validateResponseType. rewrite Hread. cbn. rewrite Hr.
  reflexivity.
Qed.

Lemma validateRequestType_read (contractPath : string) (a a' : Adapter)
  (info : ContractInfo) (r : ValidationResult) :
  readContract host contractPath a = (Ok info, a') ->
  validateRequestType_checks host contractPath info = Ok r ->
  fst (validateRequestType host contractPath a) = Ok r.
Proof.
  intros Hread Hr. unfold validateRequestType. rewrite Hread. cbn. rewrite Hr.
  reflexivity.
Qed.

(** The errors of [validateRequestType] on a string path. *)
Lemma validateRequestType_checks_string (contractPath : string) (info : ContractInfo)
  (sourceFile : SourceFile) (path : string) :
  Js.truthy (ci_contract info) = true ->
  ci_sourceFile info = Some sourceFile ->
  Js.prop (ci_contract info) "path" = VStr path ->
  exists w d,
    validateRequestType_checks host contractPath info
    = Ok (report
            (when (negb (Nat.eqb (List.length (PathParams.placeholders path)) 0)
                   && negb (Js.truthy (Js.prop (ci_contract info) "params")))
             push ("Path contains parameters ("
                   ++ JsString.join ", " (PathParams.placeholders path)
                   ++ ") but no params schema is defined"))
            w d).
Proof.
  intros Ht Hsf Hpath. unfold validateRequestType_checks.
  rewrite Ht, Hsf. rewrite !(get_truthy _ _ Ht). cbn [bind].
  rewrite Hpath. cbn [PathParams.of_value bind].
  destruct (Js.includes body_methods (Js.prop (ci_contract info) "method")
            && negb (Js.truthy (Js.prop (ci_contract info) "body"))) eqn:Hbody.
  - apply andb_prop in Hbody as [Hm _].
    destruct (includes_is_string _ _ Hm) as [s Hs]. rewrite Hs.
    cbn [method_toUpperCase bind]. do 2 eexists; reflexivity.
  - cbn [bind]. do 2 eexists; reflexivity.
Qed.

(** The warnings of [validateContract] are those of its last rule. *)
Lemma validateContract_checks_warnings (contractPath : string) (info : ContractInfo)
  (r : ValidationResult) :
  Js.truthy (ci_contract info) = true ->
  validateContract_checks host contractPath info = Ok r ->
  exists w, check_params_schema (ci_contract info) = Ok w /\ warning_list r = w.
Proof.
  intros Ht. unfold validateContract_checks. rewrite Ht. cbn [negb]. intros H.
  destruct (check_required _); cbn [bind] in H; [|discriminate H].
  destruct (check_method _); cbn [bind] in H; [|discriminate H].
  destruct (check_path _); cbn [bind] in H; [|discriminate H].
  destruct (check_response _); cbn [bind] in H; [|discriminate H].
  destruct (check_auth _); cbn [bind] in H; [|discriminate H].
  destruct (check_params_schema _) as [w|]; cbn [bind] in H; [|discriminate H].
  destruct (contract_details _ _ _ _); cbn [bind] in H; [|discriminate H].
  injection H as <-. exists w. split; [reflexivity | apply warning_list_report].
Qed.

End Types.

(** X4: once the file is read and a contract extracted,
    [validateResponseType] never faults, and its verdict only depends on
    the shape of [response]: one error when it is absent or no object,
    one error when it has no key, success otherwise - whatever the keys
    are. *)
Theorem response_type_verdict (host : Host) (contractPath : string) (a a' : Adapter)
  (info : ContractInfo) :
  readContract host contractPath a = (Ok info, a') ->
  Js.truthy (ci_contract info) = true ->
  let response := Js.prop (ci_contract info) "response" in
  exists r,
    fst (validateResponseType host contractPath a) = Ok r
    /\ (Js.truthy response = false \/ Js.typeof_object response = false ->
        error_list r = ["Response schema is required and must be an object"])
    /\ (response = VObj [] \/ response = VArr [] ->
        error_list r = ["Response object must define at least one status code"])
    /\ (forall entry rest, response = VObj (entry :: rest) ->
                           success r = true /\ errors r = None).
Proof.
  intros Hread Ht response.
  destruct (readContract_sourceFile host contractPath a a' info Hread Ht) as [sf Hsf].
  assert (Hchecks : exists e w d,
             validateResponseType_checks host contractPath info = Ok (report e w d)
             /\ e = if negb (Js.truthy response) || negb (Js.typeof_object response)
                    then ["Response schema is required and must be an object"]
                    else match Js.keys response with
                         | Ok [] => ["Response object must define at least one status code"]
                         | _ => []
                         end).
  { unfold validateResponseType_checks. rewrite Ht, Hsf.
    rewrite !(get_truthy _ _ Ht). cbn [bind]. fold response.
    destruct (Js.truthy response) eqn:Hr; cbn [negb orb];
      [|cbn [bind]; do 3 eexists; split; reflexivity].
    destruct (Js.typeof_object response); cbn [negb];
      [|cbn [bind]; do 3 eexists; split; reflexivity].
    destruct (keys_truthy _ Hr) as [ks Hks]. rewrite Hks. cbn [bind].
    destruct (conventional_status_ok (Js.prop (ci_contract info) "method") ks) as [w ->].
    cbn [bind]. do 3 eexists. split; [reflexivity|]. destruct ks; reflexivity. }
  destruct Hchecks as (e & w & d & Hchecks & He).
  eexists. split; [apply (validateResponseType_read host _ a a' info _ Hread Hchecks)|].
  rewrite error_list_report. subst e. split; [|split].
  - intros [H|H]; rewrite H; cbn [negb]; [|rewrite orb_true_r]; reflexivity.
  - intros [H|H]; rewrite H; reflexivity.
  - intros entry rest H. rewrite H. split; reflexivity.
Qed.

Lemma response_type_verdict_witness :
  let contract := VObj [ ("path", VStr "/users"); ("method", VStr "get");
                         ("response", VObj [("ok", VObj []); ("failure", VObj [])]) ] in
  exists r,
    fst (validateResponseType (demo_host contract) "c.ts" demo_adapter) = Ok r
    /\ success r = true.
Proof.
  intros contract.
  destruct (response_type_verdict (demo_host contract) "c.ts" demo_adapter
              (snd (readContract (demo_host contract) "c.ts" demo_adapter))
              {| ci_path := "/contracts/c.ts";
                 ci_content := "export const Contract = { };";
                 ci_contract := contract;
                 ci_exportName := Some "Contract";
                 ci_sourceFile := Some (demo_source contract) |}
              eq_refl eq_refl) as (r & Hr & _ & _ & Hkeys).
  exists r. split; [exact Hr|]. apply (Hkeys _ _ eq_refl).
Defined.

(** X5: on a contract whose path is a string, [validateRequestType]
    never faults; it fails exactly when the path has placeholders and the
    contract declares no [params] schema, with the single error that
    lists the placeholder names. *)
Theorem request_type_verdict (host : Host) (contractPath : string) (a a' : Adapter)
  (info : ContractInfo) (path : string) :
  readContract host contractPath a = (Ok info, a') ->
  Js.truthy (ci_contract info) = true ->
  Js.prop (ci_contract info) "path" = VStr path ->
  exists r,
    fst (validateRequestType host contractPath a) = Ok r
    /\ (success r = false <->
        PathParams.placeholders path <> []
        /\ Js.truthy (Js.prop (ci_contract info) "params") = false)
    /\ (success r = false ->
        errors r = Some [ "Path contains parameters ("
                          ++ JsString.join ", " (PathParams.placeholders path)
                          ++ ") but no params schema is defined" ]).
Proof.
  intros Hread Ht Hpath.
  destruct (readContract_sourceFile host contractPath a a' info Hread Ht) as [sf Hsf].
  destruct (validateRequestType_checks_string host contractPath info sf path Ht Hsf Hpath)
    as (w & d & Hchecks).
  eexists. split; [apply (validateRequestType_read host _ a a' info _ Hread Hchecks)|].
  destruct (PathParams.placeholders path) as [|name names];
    destruct (Js.truthy (Js.prop (ci_contract info) "params"));
    cbn; repeat split; intros; try discriminate; try reflexivity;
    try match goal with H : _ /\ _ |- _ => destruct H as [H1 H2] end;
    try discriminate; try (contradiction H1; reflexivity).
Qed.

Lemma request_type_verdict_witness :
  let contract := VObj [ ("path", VStr "/users/:userId/posts/:postId");
                         ("method", VStr "get");
                         ("response", VObj [("200", VObj [])]) ] in
  exists r,
    fst (validateRequestType (demo_host contract) "c.ts" demo_adapter) = Ok r
    /\ errors r
       = Some ["Path contains parameters (userId, postId) but no params schema is defined"].
Proof.
  intros contract.
  destruct (request_type_verdict (demo_host contract) "c.ts" demo_adapter
              (snd (readContract (demo_host contract) "c.ts" demo_adapter))
              {| ci_path := "/contracts/c.ts";
                 ci_content := "export const Contract = { };";
                 ci_contract := contract;
                 ci_exportName := Some "Contract";
                 ci_sourceFile := Some (demo_source contract) |}
              "/users/:userId/posts/:postId" eq_refl eq_refl eq_refl)
    as (r & Hr & Hiff & Herrors).
  exists r. split; [exact Hr|]. apply Herrors. apply Hiff.
  split; [discriminate | reflexivity].
Defined.

(** X6: what [validateRequestType] reports as its error, placeholders
    without a [params] schema, is what [validateContract] reports as its
    warning: on a typed contract with a string path, the errors of the
    one are the warnings of the other. *)
Theorem request_type_errors_are_contract_warnings (host : Host) (contractPath : string)
  (a a' : Adapter) (info : ContractInfo) (path : string) :
  readContract host contractPath a = (Ok info, a') ->
  well_typed (ci_contract info) = true ->
  Js.prop (ci_contract info) "path" = VStr path ->
  exists contract_result type_result,
    fst (validateContract host contractPath a) = Ok contract_result
    /\ fst (validateRequestType host contractPath a) = Ok type_result
    /\ warning_list contract_result = error_list type_result.
Proof.
  intros Hread Htyped Hpath.
  assert (Ht : Js.truthy (ci_contract info) = true).
  { unfold well_typed in Htyped. do 3 apply andb_prop in Htyped as [Htyped _].
    exact Htyped. }
  destruct (validateContract_checks_typed host contractPath info Htyped)
    as (e1 & e2 & e3 & e4 & w & d & _ & _ & _ & _ & Hc).
  destruct (validateContract_checks_warnings host contractPath info _ Ht Hc)
    as (w' & Hw & Hlist).
  destruct (readContract_sourceFile host contractPath a a' info Hread Ht) as [sf Hsf].
  destruct (validateRequestType_checks_string host contractPath info sf path Ht Hsf Hpath)
    as (w2 & d2 & Hchecks).
  do 2 eexists.
  split; [apply (validateContract_read host _ a a' info _ Hread Hc)|].
  split; [apply (validateRequestType_read host _ a a' info _ Hread Hchecks)|].
  rewrite Hlist, error_list_report.
  unfold check_params_schema in Hw. rewrite !(get_truthy _ _ Ht) in Hw.
  cbn [bind] in Hw. rewrite Hpath in Hw. cbn [Js.truthy PathParams.of_value bind] in Hw.
  destruct (negb (String.eqb path "")) eqn:Hempty.
  - injection Hw as <-. reflexivity.
  - injection Hw as <-.
    destruct (String.eqb_spec path ""); [subst path; reflexivity | discriminate Hempty].
Qed.

Lemma request_type_errors_are_contract_warnings_witness :
  let contract := VObj [ ("path", VStr "/users/:userId"); ("method", VStr "get");
                         ("response", VObj [("200", VObj [])]) ] in
  exists contract_result type_result,
    fst (validateContract (demo_host contract) "c.ts" demo_adapter) = Ok contract_result
    /\ fst (validateRequestType (demo_host contract) "c.ts" demo_adapter) = Ok type_result
    /\ warning_list contract_result = error_list type_result.
Proof.
  intros contract.
  apply (request_type_errors_are_contract_warnings (demo_host contract) "c.ts" demo_adapter
           (snd (readContract (demo_host contract) "c.ts" demo_adapter))
           {| ci_path := "/contracts/c.ts";
              ci_content := "export const Contract = { };";
              ci_contract := contract;
              ci_exportName := Some "Contract";
              ci_sourceFile := Some (demo_source contract) |}
           "/users/:userId" eq_refl eq_refl eq_refl).
Defined.

(** ** Source files without a contract *)

Section NoContract.

Variable host : Host.

(** Every operation on a file from which no contract is extracted. *)
Lemma no_contract_not_found (contractPath : string) (a a' : Adapter) (info : ContractInfo)
  (request response : value) (status : option number) :
  readContract host contractPath a = (Ok info, a') ->
  Js.truthy (ci_contract info) = false ->
  single_failure (fst (validateContract host contractPath a))
    "Contract export not found in the file"
  /\ single_failure (fst (validateRequestType host contractPath a))
       "Contract export not found in the file or could not parse source file"
  /\ single_failure (fst (validateResponseType host contractPath a))
       "Contract export not found in the file or could not parse source file"
  /\ single_failure (fst (validateRequestAgainstContract host contractPath request a))
       "Contract export not found in the file"
  /\ single_failure
       (fst (validateResponseAgainstContract host contractPath response status a))
       "Contract export not found in the file"
  /\ generateMockResponse host contractPath status a = (Ok error_mock, a').
Proof.
  intros Hread Hc.
  unfold validateContract, validateRequestType, validateResponseType,
    validateRequestAgainstContract, validateResponseAgainstContract, generateMockResponse.
  rewrite Hread. cbn [fst bind try_catch].
  unfold validateContract_checks, validateRequestType_checks, validateResponseType_checks,
    validateRequestAgainstContract_checks, validateResponseAgainstContract_checks.
  rewrite Hc. cbn [negb try_catch].
  repeat split; eexists; repeat split.
Qed.

Lemma fold_visit_none (sourceFile : SourceFile) (acc : value * option string) :
  Forall (fun node => contract_literal node = None) sourceFile ->
  fst (fold_left visit_contract sourceFile acc) = fst acc.
Proof.
  intros H. revert acc. induction H as [|node rest Hnode _ IH]; intros acc; [reflexivity|].
  cbn [fold_left]. rewrite IH. clear IH.
  destruct node as [[|declaration ?]| |]; try reflexivity.
  unfold visit_contract, contract_literal in *.
  destruct (decl_identifier declaration) as [name|]; [|reflexivity].
  destruct (String.eqb name "Contract"); [|reflexivity].
  destruct (decl_initializer declaration) as [[extracted|]|]; try reflexivity.
  discriminate Hnode.
Qed.

Lemma visit_contract_literal (acc : value * option string) (node : Node) (v : value) :
  contract_literal node = Some v -> fst (visit_contract acc node) = v.
Proof.
  destruct node as [[|declaration ?]| |]; try discriminate.
  unfold visit_contract, contract_literal.
  destruct (decl_identifier declaration) as [name|]; [|discriminate].
  destruct (decl_initializer declaration) as [[extracted|]|]; try discriminate.
  destruct (String.eqb name "Contract"); [|discriminate].
  intros H. injection H as <-. reflexivity.
Qed.

Lemma readContract_in_program (contractPath content : string) (a : Adapter)
  (prog : Program) (checker : unit) (sourceFile : SourceFile) :
  program a = Some prog ->
  typeChecker a = Some checker ->
  fs_readFile host (resolveContractPath host a contractPath) = inr content ->
  prog (resolveContractPath host a contractPath) = Some sourceFile ->
  exists info,
    readContract host contractPath a = (Ok info, a)
    /\ ci_contract info = fst (fold_left visit_contract sourceFile (VNull, None))
    /\ ci_sourceFile info = Some sourceFile.
Proof.
  intros Hp Hc Hfile Hsf. unfold readContract. cbv zeta. rewrite Hfile, Hp.
  cbv beta iota. rewrite Hp, Hc, Hsf.
  destruct (fold_left visit_contract sourceFile (VNull, None)) as [contract exportName].
  eexists. repeat split.
Qed.

End NoContract.

(** X7: when no compiler program can be built - the contracts directory
    cannot be listed or holds no [.ts] or [.js] file - every readable
    file is answered as one without a contract: the five validators
    return a failed result with one error and the synthesizer the error
    mock.  Nothing is thrown and the adapter stays as it was. *)
Theorem no_program_degrades (host : Host) (contractPath content : string) (a : Adapter)
  (request response : value) (status : option number) :
  program a = None ->
  findContractFiles host a = [] ->
  fs_readFile host (resolveContractPath host a contractPath) = inr content ->
  snd (validateContract host contractPath a) = a
  /\ single_failure (fst (validateContract host contractPath a))
       "Contract export not found in the file"
  /\ single_failure (fst (validateRequestType host contractPath a))
       "Contract export not found in the file or could not parse source file"
  /\ single_failure (fst (validateResponseType host contractPath a))
       "Contract export not found in the file or could not parse source file"
  /\ single_failure (fst (validateRequestAgainstContract host contractPath request a))
       "Contract export not found in the file"
  /\ single_failure
       (fst (validateResponseAgainstContract host contractPath response status a))
       "Contract export not found in the file"
  /\ generateMockResponse host contractPath status a = (Ok error_mock, a).
Proof.
  intros Hp Hfiles Hfile.
  assert (Hread : readContract host contractPath a
                  = (Ok {| ci_path := resolveContractPath host a contractPath;
                           ci_content := content;
                           ci_contract := VUndefined;
                           ci_exportName := None;
                           ci_sourceFile := None |}, a)).
  { unfold readContract. rewrite Hfile, Hp. unfold initTypeScriptCompiler.
    rewrite Hfiles, Hp. reflexivity. }
  split.
  - unfold validateContract. rewrite Hread. reflexivity.
  - apply (no_contract_not_found host contractPath a a _ request response status Hread).
    reflexivity.
Qed.

Lemma no_program_degrades_witness :
  let host := {| path_isAbsolute := path_isAbsolute (demo_host user_contract);
                 path_resolve := path_resolve (demo_host user_contract);
                 path_basename := path_basename (demo_host user_contract);
                 path_extname := path_extname (demo_host user_contract);
                 fs_readFile := fs_readFile (demo_host user_contract);
                 fs_readdirSync := fun p => inl "ENOENT: no such file or directory, scandir";
                 ts_createProgram := ts_createProgram (demo_host user_contract);
                 ts_createSourceFile := ts_createSourceFile (demo_host user_contract);
                 random_base36 := random_base36 (demo_host user_contract);
                 random_floor := random_floor (demo_host user_contract);
                 date_toISOString := date_toISOString (demo_host user_contract) |} in
  single_failure (fst (validateContract host "user.get.contracts.ts" demo_adapter))
    "Contract export not found in the file".
Proof.
  intros host.
  apply (no_program_degrades host "user.get.contracts.ts" "export const Contract = { };"
           demo_adapter VNull VNull None eq_refl eq_refl eq_refl).
Defined.

(** X8: a file that is not among the sources of the compiler program,
    which is built once from the contracts directory, is parsed on its
    own but its [Contract] is never extracted: [validateContract] answers
    that the contract export was not found, whatever the file holds. *)
Theorem file_outside_program (host : Host) (contractPath content : string) (a : Adapter)
  (prog : Program) (checker : unit) (request response : value) (status : option number) :
  program a = Some prog ->
  typeChecker a = Some checker ->
  fs_readFile host (resolveContractPath host a contractPath) = inr content ->
  prog (resolveContractPath host a contractPath) = None ->
  single_failure (fst (validateContract host contractPath a))
    "Contract export not found in the file"
  /\ single_failure (fst (validateRequestType host contractPath a))
       "Contract export not found in the file or could not parse source file"
  /\ single_failure (fst (validateResponseType host contractPath a))
       "Contract export not found in the file or could not parse source file"
  /\ single_failure (fst (validateRequestAgainstContract host contractPath request a))
       "Contract export not found in the file"
  /\ single_failure
       (fst (validateResponseAgainstContract host contractPath response status a))
       "Contract export not found in the file"
  /\ generateMockResponse host contractPath status a = (Ok error_mock, a).
Proof.
  intros Hp Hc Hfile Hnone.
  apply (no_contract_not_found host contractPath a a
           {| ci_path := resolveContractPath host a contractPath;
              ci_content := content;
              ci_contract := VUndefined;
              ci_exportName := None;
              ci_sourceFile :=
                Some (ts_createSourceFile host (resolveContractPath host a contractPath)
                        content) |}).
  - unfold readContract. cbv zeta. rewrite Hfile, Hp. cbv beta iota.
    rewrite Hp, Hc, Hnone. reflexivity.
  - reflexivity.
Qed.

Lemma file_outside_program_witness :
  let a := {| contractsBasePath := "/contracts";
              program := Some (fun p => if String.eqb p "/contracts/user.get.contracts.ts"
                                        then Some (demo_source user_contract) else None);
              typeChecker := Some tt;
              draws := 0;
              clock := 0 |} in
  single_failure
    (fst (validateContract (demo_host user_contract) "/elsewhere/user.get.contracts.ts" a))
    "Contract export not found in the file".
Proof.
  intros a.
  apply (file_outside_program (demo_host user_contract) "/elsewhere/user.get.contracts.ts"
           "export const Contract = { };" a
           (fun p => if String.eqb p "/contracts/user.get.contracts.ts"
                     then Some (demo_source user_contract) else None)
           tt VNull VNull None eq_refl eq_refl eq_refl eq_refl).
Defined.

(** X9: of the top-level statements of the file, the last one whose
    first declaration is [Contract] initialised with an object literal
    gives the contract; later statements that are not of this kind (a
    [Contract] bound to a call or a cast for one) leave it as it is.
    Without any such statement the file has no contract. *)
Theorem last_contract_literal_wins (host : Host) (contractPath content : string)
  (a : Adapter) (prog : Program) (checker : unit) :
  program a = Some prog ->
  typeChecker a = Some checker ->
  fs_readFile host (resolveContractPath host a contractPath) = inr content ->
  (forall before node after extracted,
      prog (resolveContractPath host a contractPath) = Some (before ++ node :: after)%list ->
      contract_literal node = Some extracted ->
      Forall (fun later => contract_literal later = None) after ->
      exists info,
        readContract host contractPath a = (Ok info, a) /\ ci_contract info = extracted)
  /\ (forall sourceFile,
         prog (resolveContractPath host a contractPath) = Some sourceFile ->
         Forall (fun node => contract_literal node = None) sourceFile ->
         single_failure (fst (validateContract host contractPath a))
           "Contract export not found in the file").
Proof.
  intros Hp Hc Hfile. split.
  - intros before node after extracted Hsf Hnode Hafter.
    destruct (readContract_in_program host contractPath content a prog checker _
                Hp Hc Hfile Hsf) as (info & Hread & Hcontract & _).
    exists info. split; [exact Hread|]. rewrite Hcontract.
    rewrite fold_left_app. cbn [fold_left].
    rewrite (fold_visit_none after _ Hafter).
    apply visit_contract_literal, Hnode.
  - intros sourceFile Hsf Hnone.
    destruct (readContract_in_program host contractPath content a prog checker _
                Hp Hc Hfile Hsf) as (info & Hread & Hcontract & _).
    apply (no_contract_not_found host contractPath a a info VNull VNull None Hread).
    rewrite Hcontract, (fold_visit_none sourceFile _ Hnone). reflexivity.
Qed.

Lemma last_contract_literal_wins_witness :
  let declares initializer :=
    VariableStatement [ {| decl_identifier := Some "Contract";
                           decl_initializer := Some initializer |} ] in
  let sourceFile :=
    [ declares (ObjectLiteralExpression (VObj [("path", VStr "/old")]));
      TypeAliasDeclaration "Response";
      declares (ObjectLiteralExpression user_contract);
      declares OtherExpression ] in
  let a := {| contractsBasePath := "/contracts";
              program := Some (fun p => Some sourceFile);
              typeChecker := Some tt;
              draws := 0;
              clock := 0 |} in
  exists info,
    readContract (demo_host VNull) "c.ts" a = (Ok info, a)
    /\ ci_contract info = user_contract.
Proof.
  intros declares sourceFile a.
  destruct (last_contract_literal_wins (demo_host VNull) "c.ts"
              "export const Contract = { };" a (fun p => Some sourceFile) tt
              eq_refl eq_refl eq_refl) as [Hlast _].
  apply (Hlast [ declares (ObjectLiteralExpression (VObj [("path", VStr "/old")]));
                 TypeAliasDeclaration "Response" ]
           (declares (ObjectLiteralExpression user_contract))
           [ declares OtherExpression ] user_contract eq_refl eq_refl).
  repeat constructor.
Defined.

(** ** The life cycle of the adapter *)

Section LifeCycle.

Variable host : Host.

Lemma initTypeScriptCompiler_paired (a : Adapter) :
  paired a -> paired (initTypeScriptCompiler host a).
Proof.
  unfold initTypeScriptCompiler, paired. destruct (findContractFiles host a); [tauto|].
  intros _. cbn. split; intros H; discriminate H.
Qed.

(** The adapter that [readContract] leaves is the one it was given or
    the one [initTypeScriptCompiler] makes of it. *)
Lemma readContract_adapter (contractPath : string) (a : Adapter) :
  snd (readContract host contractPath a) = a
  \/ snd (readContract host contractPath a) = initTypeScriptCompiler host a.
Proof.
  unfold readContract. cbv zeta.
  destruct (fs_readFile host _); [left; reflexivity|].
  destruct (program a) eqn:Hp.
  - left. rewrite Hp. destruct (typeChecker a); [|reflexivity].
    destruct (p _); [destruct (fold_left _ _ _)|]; reflexivity.
  - right. destruct (program (initTypeScriptCompiler host a));
      [destruct (typeChecker _)|]; try reflexivity.
    destruct (p _); [destruct (fold_left _ _ _)|]; reflexivity.
Qed.

Lemma readContract_paired (contractPath : string) (a : Adapter) :
  paired a -> paired (snd (readContract host contractPath a)).
Proof.
  intros H. destruct (readContract_adapter contractPath a) as [-> | ->];
    [exact H | apply initTypeScriptCompiler_paired, H].
Qed.

(** On a fresh adapter, reading after [initialize] is reading. *)
Lemma readContract_initialize (contractPath : string) (a : Adapter) :
  fresh a ->
  fst (readContract host contractPath (initialize host a))
  = fst (readContract host contractPath a).
Proof.
  intros [Hp Hc]. unfold initialize, readContract, resolveContractPath. cbv zeta.
  rewrite initTypeScriptCompiler_basePath.
  destruct (fs_readFile host _); [reflexivity|].
  rewrite Hp.
  destruct (program (initTypeScriptCompiler host a)) eqn:Hinit.
  - rewrite Hinit. reflexivity.
  - rewrite (initTypeScriptCompiler_again host a Hinit), Hinit. reflexivity.
Qed.

End LifeCycle.

(** X10: initialisation is lazy.  On a fresh adapter, calling
    [initialize] first changes nothing of what the five validators and
    the synthesizer answer, and [cleanup] after [initialize] gives the
    fresh adapter back. *)
Theorem initialize_is_optional (host : Host) (contractPath : string) (a : Adapter)
  (request response : value) (status : option number) :
  fresh a ->
  fst (validateContract host contractPath (initialize host a))
  = fst (validateContract host contractPath a)
  /\ fst (validateRequestType host contractPath (initialize host a))
     = fst (validateRequestType host contractPath a)
  /\ fst (validateResponseType host contractPath (initialize host a))
     = fst (validateResponseType host contractPath a)
  /\ fst (validateRequestAgainstContract host contractPath request (initialize host a))
     = fst (validateRequestAgainstContract host contractPath request a)
  /\ fst (validateResponseAgainstContract host contractPath response status
            (initialize host a))
     = fst (validateResponseAgainstContract host contractPath response status a)
  /\ fst (generateMockResponse host contractPath status (initialize host a))
     = fst (generateMockResponse host contractPath status a)
  /\ cleanup (initialize host a) = a.
Proof.
  intros Hfresh.
  pose proof (readContract_initialize host contractPath a Hfresh) as Hread.
  assert (Hcounters : draws (snd (readContract host contractPath (initialize host a)))
                      = draws (snd (readContract host contractPath a))
                      /\ clock (snd (readContract host contractPath (initialize host a)))
                         = clock (snd (readContract host contractPath a))).
  { assert (Hinit : forall b, draws (initTypeScriptCompiler host b) = draws b
                              /\ clock (initTypeScriptCompiler host b) = clock b).
    { intros b. unfold initTypeScriptCompiler.
      destruct (findContractFiles host b); split; reflexivity. }
    destruct (readContract_adapter host contractPath (initialize host a)) as [-> | ->],
        (readContract_adapter host contractPath a) as [-> | ->];
      unfold initialize; rewrite ?(proj1 (Hinit _)), ?(proj2 (Hinit _));
      split; reflexivity. }
  unfold validateContract, validateRequestType, validateResponseType,
    validateRequestAgainstContract, validateResponseAgainstContract, generateMockResponse.
  destruct (readContract host contractPath (initialize host a)) as [read1 a1].
  destruct (readContract host contractPath a) as [read2 a2].
  cbn [fst snd] in *. subst read2. destruct Hcounters as [-> ->].
  repeat split.
  - destruct (bind read1 _) as [[statusCode|]|]; try reflexivity.
    destruct (mock_for host _ _ _). reflexivity.
  - destruct Hfresh as [Hp Hc]. unfold initialize, initTypeScriptCompiler, cleanup.
    destruct a as [base p c d k]. cbn in *. subst p c.
    destruct (findContractFiles host _); reflexivity.
Qed.

Lemma initialize_is_optional_witness :
  fst (validateContract (demo_host user_contract) "user.get.contracts.ts"
         (initialize (demo_host user_contract) demo_adapter))
  = fst (validateContract (demo_host user_contract) "user.get.contracts.ts" demo_adapter)
  /\ cleanup (initialize (demo_host user_contract) demo_adapter) = demo_adapter.
Proof.
  destruct (initialize_is_optional (demo_host user_contract) "user.get.contracts.ts"
              demo_adapter VNull VNull None (conj eq_refl eq_refl))
    as (H & _ & _ & _ & _ & _ & Hcleanup).
  split; assumption.
Defined.

(** X11: the program and its type checker are set together by
    [initialize], both dropped by [cleanup], and no operation leaves one
    without the other; so the guard of [readContract] against a program
    without type checker never fires on an adapter that starts fresh. *)
Theorem program_and_checker_paired (host : Host) (contractPath : string) (a : Adapter)
  (request response : value) (status : option number) :
  paired a ->
  paired (initialize host a)
  /\ paired (cleanup a)
  /\ paired (snd (validateContract host contractPath a))
  /\ paired (snd (validateRequestType host contractPath a))
  /\ paired (snd (validateResponseType host contractPath a))
  /\ paired (snd (validateRequestAgainstContract host contractPath request a))
  /\ paired (snd (validateResponseAgainstContract host contractPath response status a))
  /\ paired (snd (generateMockResponse host contractPath status a)).
Proof.
  intros H.
  pose proof (readContract_paired host contractPath a H) as Hread.
  unfold validateContract, validateRequestType, validateResponseType,
    validateRequestAgainstContract, validateResponseAgainstContract, generateMockResponse.
  destruct (readContract host contractPath a) as [read a']. cbn [fst snd] in *.
  split; [apply initTypeScriptCompiler_paired, H|].
  split; [unfold paired, cleanup; cbn; tauto|].
  repeat (split; [exact Hread|]).
  destruct (bind read _) as [[statusCode|]|]; try exact Hread.
  destruct (mock_for host _ _ _). exact Hread.
Qed.

Lemma program_and_checker_paired_witness :
  paired demo_adapter
  /\ paired (snd (validateContract (demo_host user_contract) "user.get.contracts.ts"
                    demo_adapter)).
Proof.
  assert (H : paired demo_adapter) by (split; reflexivity).
  split; [exact H|].
  apply (program_and_checker_paired (demo_host user_contract) "user.get.contracts.ts"
           demo_adapter VNull VNull None H).
Defined.

(** ** Mock data *)

Ltac run_generators :=
  repeat match goal with
    | |- context [let '(_, _) := ?g in _] => destruct g
    end.

Section MockData.

Variable host : Host.

Lemma api_key_shape (name : string) (description : list (string * value))
  (permission : string) (more : list string) (usage : Gen Z) (ago : Z) (st : nat * nat) :
  description = [] \/ (exists text, description = [("description", VStr text)]) ->
  exists props,
    fst (api_key host name description (permission :: more) usage ago st) = VObj props
    /\ api_key_record props.
Proof.
  intros Hd. unfold api_key, gen_bind, gen_ret. run_generators. cbn [fst].
  eexists. split; [reflexivity|].
  unfold api_key_record.
  destruct Hd as [-> | [text ->]]; cbn; repeat split; eexists; try eexists; reflexivity.
Qed.

(** Whatever the name and the status code, the shape selection returns
    a successful mock with data. *)
Lemma mock_for_succeeds (name : string) (statusCode : number) (st : nat * nat) :
  mock_success (fst (mock_for host name statusCode st)) = true
  /\ mock_data (fst (mock_for host name statusCode st)) <> VNull
  /\ mock_type (fst (mock_for host name statusCode st)) <> "error".
Proof.
  assert (Hgeneric : forall st',
             mock_success (fst (generic_mock host name statusCode st')) = true
             /\ mock_data (fst (generic_mock host name statusCode st')) <> VNull
             /\ mock_type (fst (generic_mock host name statusCode st')) <> "error").
  { intros st'. unfold generic_mock, gen_bind, gen_ret. run_generators. cbn.
    repeat split; discriminate. }
  unfold mock_for.
  destruct (JsString.includes name "api-key"); [|apply Hgeneric].
  destruct (JsString.includes name "get").
  - destruct (JsNumber.strict_eq statusCode (Num 200)); [|apply Hgeneric].
    unfold gen_bind, gen_ret. run_generators. cbn. repeat split; discriminate.
  - destruct (JsString.includes name "post"); [|apply Hgeneric].
    destruct (JsNumber.strict_eq statusCode (Num 201)
              || JsNumber.strict_eq statusCode (Num 200)); [|apply Hgeneric].
    unfold gen_bind, gen_ret.
    destruct (api_key_shape "New API Key" [] "read" ["write"] (fun s => (0, s)) 0 st
                (or_introl eq_refl)) as (props & Hprops & _).
    unfold gen_ret in *.
    destruct (api_key host "New API Key" [] ["read"; "write"] (fun s => (0, s)) 0 st)
      as [created st'].
    cbn in *. subst created. repeat split; discriminate.
Qed.

Lemma settle_status_declared (contract : value) (statusCode : number) :
  Js.truthy contract = true ->
  Js.truthy (Js.prop contract "response") = true ->
  Js.truthy (Js.prop (Js.prop contract "response") (JsNumber.toString statusCode)) = true ->
  settle_status contract statusCode = Ok (Some statusCode).
Proof.
  intros Ht Hr Hs. unfold settle_status. rewrite (get_truthy _ _ Ht). cbn [bind].
  rewrite (undeclared_declared _ _ Hr Hs). reflexivity.
Qed.

Lemma readContract_readable (contractPath content : string) (a : Adapter) :
  fs_readFile host (resolveContractPath host a contractPath) = inr content ->
  exists info,
    fst (readContract host contractPath a) = Ok info
    /\ ci_path info = resolveContractPath host a contractPath.
Proof.
  intros Hfile. unfold readContract. cbv zeta. rewrite Hfile.
  destruct (program (match program a with
                     | Some _ => a
                     | None => initTypeScriptCompiler host a
                     end)) as [prog|];
    [destruct (typeChecker _)|]; try (eexists; split; reflexivity).
  destruct (prog _); [destruct (fold_left _ _ _)|]; eexists; split; reflexivity.
Qed.

Lemma append_empty (s : string) : s ++ "" = s.
Proof. induction s as [|c s IH]; cbn; [reflexivity | rewrite IH; reflexivity]. Qed.

Lemma concat_empty_cons (x : string) (l : list string) :
  String.concat "" (x :: l) = x ++ String.concat "" l.
Proof. destruct l; cbn; [rewrite append_empty; reflexivity | reflexivity]. Qed.

Lemma hex_of_Z_digit (x : Z) :
  0 <= x < 16 ->
  exists c, JsString.hex_of_Z x = String c "" /\ is_hex_digit c = true.
Proof.
  intros H.
  assert (Hcases : x = 0 \/ x = 1 \/ x = 2 \/ x = 3 \/ x = 4 \/ x = 5 \/ x = 6 \/ x = 7
                   \/ x = 8 \/ x = 9 \/ x = 10 \/ x = 11 \/ x = 12 \/ x = 13 \/ x = 14
                   \/ x = 15) by lia.
  repeat (destruct Hcases as [-> | Hcases]; [eexists; split; reflexivity|]).
  subst x. eexists; split; reflexivity.
Qed.

Lemma hex_digits_run (n : nat) (st : nat * nat) :
  (forall draw, 0 <= random_floor host draw 16 < 16) ->
  Forall (fun digit => exists c, digit = String c "" /\ is_hex_digit c = true)
    (fst (hex_digits host n st))
  /\ List.length (fst (hex_digits host n st)) = n
  /\ snd (hex_digits host n st) = ((fst st + n)%nat, snd st).
Proof.
  intros Hrange. revert st. induction n as [|n IH]; intros [d c].
  - cbn. repeat split; [constructor | f_equal; lia].
  - cbn [hex_digits]. unfold gen_bind, gen_ret, random_below. cbn [fst snd].
    specialize (IH (S d, c)). destruct (hex_digits host n (S d, c)) as [rest st'].
    cbn [fst snd] in *. destruct IH as (Hall & Hlen & ->).
    repeat split.
    + constructor; [apply hex_of_Z_digit, Hrange | exact Hall].
    + cbn. rewrite Hlen. reflexivity.
    + f_equal. lia.
Qed.

Lemma concat_digits (l : list string) :
  Forall (fun digit => exists c, digit = String c "" /\ is_hex_digit c = true) l ->
  String.length (String.concat "" l) = List.length l
  /\ all_chars is_hex_digit (String.concat "" l) = true.
Proof.
  induction 1 as [|digit l (c & -> & Hc) _ [IHlen IHall]]; [split; reflexivity|].
  rewrite concat_empty_cons. cbn. rewrite IHlen, Hc, IHall. split; reflexivity.
Qed.

End MockData.

(** X12: the mock that [generateMockResponse] returns is coherent on
    every input: it is successful exactly when it carries data, and it
    is a failure exactly when it is the error mock.  The synthesizer
    always returns, it never throws. *)
Theorem mock_is_coherent (host : Host) (contractPath : string) (status : option number)
  (a : Adapter) :
  exists m,
    fst (generateMockResponse host contractPath status a) = Ok m /\ mock_coherent m.
Proof.
  assert (Herror : mock_coherent error_mock).
  { unfold mock_coherent. cbn. repeat split; intros H; try discriminate H;
      try reflexivity. contradiction H; reflexivity. }
  unfold generateMockResponse.
  destruct (readContract host contractPath a) as [read a'].
  destruct (bind read _) as [[statusCode|]|];
    try (exists error_mock; split; [reflexivity | exact Herror]).
  destruct (mock_for_succeeds host (contractName host contractPath) statusCode
              (draws a', clock a')) as (Hs & Hd & Ht).
  destruct (mock_for host _ _ _) as [m st]. cbn [fst] in *.
  exists m. split; [reflexivity|]. unfold mock_coherent. rewrite Hs.
  repeat split; intros H; try assumption; try reflexivity; try discriminate H.
  contradiction (Ht H).
Qed.

(** X13: when the contract file cannot be read, [generateMockResponse]
    returns the error mock - no data, type "error", no success - and
    draws nothing: the adapter and its counters are as before. *)
Theorem unreadable_contract_mock (host : Host) (contractPath message : string)
  (status : option number) (a : Adapter) :
  fs_readFile host (resolveContractPath host a contractPath) = inl message ->
  generateMockResponse host contractPath status a
  = (Ok {| mock_data := VNull; mock_type := "error"; mock_success := false |}, a).
Proof.
  intros Hfile. unfold generateMockResponse.
  rewrite (readContract_unreadable host contractPath message a Hfile). reflexivity.
Qed.

Lemma unreadable_contract_mock_witness :
  generateMockResponse (demo_host user_contract) "/missing.ts" (Some (Num 200)) demo_adapter
  = (Ok {| mock_data := VNull; mock_type := "error"; mock_success := false |},
     demo_adapter).
Proof.
  apply (unreadable_contract_mock (demo_host user_contract) "/missing.ts"
           "ENOENT: no such file or directory, open '/missing.ts'").
  reflexivity.
Defined.

(** X14: as long as [Math.floor(Math.random() * 16)] stays within 0 and
    15, [generateRandomHash] returns forty characters, each a lower-case
    hexadecimal digit, and uses forty draws. *)
Theorem random_hash_is_forty_hex_digits (host : Host) (st : nat * nat) :
  (forall draw, 0 <= random_floor host draw 16 < 16) ->
  String.length (fst (generateRandomHash host st)) = 40%nat
  /\ all_chars is_hex_digit (fst (generateRandomHash host st)) = true
  /\ snd (generateRandomHash host st) = ((fst st + 40)%nat, snd st).
Proof.
  intros Hrange. unfold generateRandomHash, gen_bind, gen_ret.
  destruct (hex_digits_run host 40 st Hrange) as (Hall & Hlen & Hst).
  destruct (hex_digits host 40 st) as [digits st']. cbn [fst snd] in *.
  destruct (concat_digits digits Hall) as [Hlength Hchars].
  unfold JsString.join. rewrite Hlength, Hlen. repeat split; assumption.
Qed.

Lemma random_hash_is_forty_hex_digits_witness :
  fst (generateRandomHash (demo_host VNull) (0%nat, 0%nat))
  = "0123456789abcdef0123456789abcdef01234567"
  /\ String.length (fst (generateRandomHash (demo_host VNull) (0%nat, 0%nat))) = 40%nat.
Proof.
  split; [reflexivity|].
  apply (random_hash_is_forty_hex_digits (demo_host VNull) (0%nat, 0%nat)).
  intros draw. cbn. apply Z.mod_pos_bound. reflexivity.
Defined.

(** X15: for a contract file whose name holds both [api-key] and [get]
    and that declares status 200, the mock asked without a status code
    (or with 200) is successful and its data is a list of two API key
    records, each with an [id] starting with [apikey_], the status
    [active], at least one permission and a creation date. *)
Theorem api_key_list_mock (host : Host) (contractPath : string) (a a' : Adapter)
  (info : ContractInfo) (status : option number) :
  readContract host contractPath a = (Ok info, a') ->
  Js.truthy (ci_contract info) = true ->
  Js.truthy (Js.prop (ci_contract info) "response") = true ->
  Js.truthy (Js.prop (Js.prop (ci_contract info) "response") "200") = true ->
  default_status status = Num 200 ->
  JsString.includes (contractName host contractPath) "api-key" = true ->
  JsString.includes (contractName host contractPath) "get" = true ->
  exists first second,
    fst (generateMockResponse host contractPath status a)
    = Ok {| mock_data := VArr [VObj first; VObj second];
            mock_type := "Array<APIAuthKey>";
            mock_success := true |}
    /\ api_key_record first
    /\ api_key_record second.
Proof.
  intros Hread Ht Hr Hs Hstatus Hkey Hget.
  destruct (readContract_sourceFile host contractPath a a' info Hread Ht) as [sf Hsf].
  unfold generateMockResponse. rewrite Hread. cbn [bind]. rewrite Ht, Hsf, Hstatus.
  rewrite (settle_status_declared _ (Num 200) Ht Hr Hs).
  unfold mock_for. rewrite Hkey, Hget. cbn [JsNumber.strict_eq Z.eqb Pos.eqb].
  unfold gen_bind, gen_ret.
  destruct (api_key_shape host "Test API Key 1"
              [("description", VStr "Generated test API key")] "read" ["write"]
              (random_below host 1000) 0 (draws a', clock a'))
    as (first & Hfirst & Hrecord1); [right; eexists; reflexivity|].
  destruct (api_key host "Test API Key 1" _ _ _ _ _) as [v1 st1]. cbn [fst] in Hfirst.
  destruct (api_key_shape host "Test API Key 2" [] "read" []
              (random_below host 100) 86400000 st1)
    as (second & Hsecond & Hrecord2); [left; reflexivity|].
  destruct (api_key host "Test API Key 2" _ _ _ _ _) as [v2 st2]. cbn [fst] in Hsecond.
  subst v1 v2. exists first, second. split; [reflexivity | split; assumption].
Qed.

Lemma api_key_list_mock_witness :
  let contract := VObj [ ("path", VStr "/admin/api-keys"); ("method", VStr "get");
                         ("response", VObj [("200", VObj [])]) ] in
  exists first second,
    fst (generateMockResponse (demo_host contract) "admin.api-key.get.contracts.ts" None
           demo_adapter)
    = Ok {| mock_data := VArr [VObj first; VObj second];
            mock_type := "Array<APIAuthKey>";
            mock_success := true |}
    /\ api_key_record first
    /\ api_key_record second.
Proof.
  intros contract.
  apply (api_key_list_mock (demo_host contract) "admin.api-key.get.contracts.ts"
           demo_adapter
           (snd (readContract (demo_host contract) "admin.api-key.get.contracts.ts"
                   demo_adapter))
           {| ci_path := "/contracts/admin.api-key.get.contracts.ts";
              ci_content := "export const Contract = { };";
              ci_contract := contract;
              ci_exportName := Some "Contract";
              ci_sourceFile := Some (demo_source contract) |}
           None eq_refl eq_refl eq_refl eq_refl eq_refl eq_refl eq_refl).
Defined.

(** X16: the fallback parses the first key of the mapping as a number.
    When the asked code is undeclared and the first key is no number
    ([default] for one), the synthesizer goes on with [NaN]: no shape
    made for a status matches, and the generic mock says "with status
    NaN" - even for an API key contract. *)
Theorem mock_fallback_not_a_number (host : Host) (contractPath : string) (a a' : Adapter)
  (info : ContractInfo) (status : option number) (key : string) (schema : value)
  (rest : list (string * value)) :
  readContract host contractPath a = (Ok info, a') ->
  Js.truthy (ci_contract info) = true ->
  Js.prop (ci_contract info) "response" = VObj ((key, schema) :: rest) ->
  Js.assoc ((key, schema) :: rest) (JsNumber.toString (default_status status)) = None ->
  JsNumber.parseInt key (Some 10) = NaN ->
  exists id timestamp,
    fst (generateMockResponse host contractPath status a)
    = Ok {| mock_data :=
              VObj [ ("id", VStr id);
                     ("timestamp", VStr timestamp);
                     ("success", VBool true);
                     ("message",
                      VStr ("Mock response for " ++ contractName host contractPath
                            ++ " with status NaN")) ];
            mock_type := "generic";
            mock_success := true |}.
Proof.
  intros Hread Ht Hresponse Hkey Hnan.
  destruct (readContract_sourceFile host contractPath a a' info Hread Ht) as [sf Hsf].
  unfold generateMockResponse. rewrite Hread. cbn [bind]. rewrite Ht, Hsf.
  rewrite (settle_status_fallback _ _ key schema rest Ht Hresponse Hkey), Hnan.
  assert (Hgeneric : mock_for host (contractName host contractPath) NaN (draws a', clock a')
                     = generic_mock host (contractName host contractPath) NaN
                         (draws a', clock a')).
  { unfold mock_for.
    destruct (JsString.includes _ "api-key"); [|reflexivity].
    destruct (JsString.includes _ "get"); [reflexivity|].
    destruct (JsString.includes _ "post"); reflexivity. }
  rewrite Hgeneric. unfold generic_mock, gen_bind, gen_ret, generateRandomId,
    random_string, now_iso. cbn. do 2 eexists. reflexivity.
Qed.

Lemma mock_fallback_not_a_number_witness :
  let contract := VObj [ ("path", VStr "/admin/api-keys"); ("method", VStr "get");
                         ("response", VObj [("default", VObj [])]) ] in
  exists id timestamp,
    fst (generateMockResponse (demo_host contract) "admin.api-key.get.contracts.ts" None
           demo_adapter)
    = Ok {| mock_data :=
              VObj [ ("id", VStr id);
                     ("timestamp", VStr timestamp);
                     ("success", VBool true);
                     ("message",
                      VStr "Mock response for admin.api-key.get.contracts with status NaN") ];
            mock_type := "generic";
            mock_success := true |}.
Proof.
  intros contract.
  apply (mock_fallback_not_a_number (demo_host contract) "admin.api-key.get.contracts.ts"
           demo_adapter
           (snd (readContract (demo_host contract) "admin.api-key.get.contracts.ts"
                   demo_adapter))
           {| ci_path := "/contracts/admin.api-key.get.contracts.ts";
              ci_content := "export const Contract = { };";
              ci_contract := contract;
              ci_exportName := Some "Contract";
              ci_sourceFile := Some (demo_source contract) |}
           None "default" (VObj []) [] eq_refl eq_refl eq_refl eq_refl eq_refl).
Defined.

(** X17: the four operations that are not implemented answer the same
    for every readable file - an empty request, no generated type, and
    [true] for every type and property name asked about - and, unlike
    the validators, throw to their caller when the file cannot be
    read. *)
Theorem unimplemented_operations_answer (host : Host) (contractPath typeName propertyName : string)
  (a : Adapter) :
  match fs_readFile host (resolveContractPath host a contractPath) with
  | inr _ =>
      fst (createMockRequest host contractPath a) = Ok (VObj [])
      /\ fst (generateTypes host contractPath a)
         = Ok {| code := "// Generated types will go here";
                 typeNames := [];
                 sourcePath := resolveContractPath host a contractPath |}
      /\ fst (checkTypeExistence host contractPath typeName a) = Ok true
      /\ fst (checkTypeProperty host contractPath typeName propertyName a) = Ok true
  | inl message =>
      let reason := "Failed to read contract file "
                    ++ resolveContractPath host a contractPath ++ ": " ++ message in
      fst (createMockRequest host contractPath a)
      = Throw ("Failed to create mock request: " ++ reason)
      /\ fst (generateTypes host contractPath a)
         = Throw ("Failed to generate types: " ++ reason)
      /\ fst (checkTypeExistence host contractPath typeName a)
         = Throw ("Failed to check type existence: " ++ reason)
      /\ fst (checkTypeProperty host contractPath typeName propertyName a)
         = Throw ("Failed to check type property: " ++ reason)
  end.
Proof.
  unfold createMockRequest, generateTypes, checkTypeExistence, checkTypeProperty.
  destruct (fs_readFile host (resolveContractPath host a contractPath)) as [message|content]
    eqn:Hfile.
  - rewrite (readContract_unreadable host contractPath message a Hfile).
    repeat split.
  - destruct (readContract_readable host contractPath content a Hfile)
      as (info & Hread & Hpath).
    destruct (readContract host contractPath a) as [read a']. cbn [fst] in *.
    subst read. cbn. rewrite Hpath. repeat split.
Qed.

(** ** The placeholders of a path *)

Lemma append_associative (a b c : string) : (a ++ b) ++ c = a ++ (b ++ c).
Proof. induction a as [|x a IH]; cbn; [reflexivity | rewrite IH; reflexivity]. Qed.

Lemma all_chars_append (f : ascii -> bool) (a b : string) :
  all_chars f (a ++ b) = all_chars f a && all_chars f b.
Proof.
  induction a as [|x a IH]; cbn; [reflexivity|]. rewrite IH. apply andb_assoc.
Qed.

Lemma flush_names (cur : option string) :
  match cur with
  | Some name => all_chars JsString.is_word_char name = true
  | None => True
  end ->
  Forall (fun name => is_name name = true) (PathParams.flush cur).
Proof.
  destruct cur as [[|c name]|]; cbn; intros H; constructor.
  - unfold is_name. cbn. exact H.
  - constructor.
Qed.

Lemma scan_names (s : string) (cur : option string) :
  match cur with
  | Some name => all_chars JsString.is_word_char name = true
  | None => True
  end ->
  Forall (fun name => is_name name = true) (PathParams.scan s cur).
Proof.
  revert cur. induction s as [|c s IH]; intros cur Hcur.
  - apply flush_names, Hcur.
  - cbn [PathParams.scan]. destruct cur as [name|].
    + destruct (JsString.is_word_char c) eqn:Hc.
      * apply IH. rewrite all_chars_append, Hcur. cbn. rewrite Hc. reflexivity.
      * apply Forall_app. split; [apply flush_names, Hcur|].
        apply IH. destruct (Ascii.eqb c ":"); [reflexivity | exact I].
    + apply IH. destruct (Ascii.eqb c ":"); [reflexivity | exact I].
Qed.

Lemma scan_separator (a b : string) (c : ascii) (cur : option string) :
  JsString.is_word_char c = false ->
  Ascii.eqb c ":" = false ->
  PathParams.scan (a ++ String c b) cur
  = (PathParams.scan a cur ++ PathParams.scan b None)%list.
Proof.
  intros Hword Hcolon. revert cur. induction a as [|x a IH]; intros cur.
  - cbn. rewrite Hword, Hcolon. destruct cur; [reflexivity|]. reflexivity.
  - cbn. destruct cur as [name|].
    + destruct (JsString.is_word_char x); [apply IH|].
      rewrite IH, app_assoc. reflexivity.
    + apply IH.
Qed.

Lemma scan_word (name acc rest : string) :
  all_chars JsString.is_word_char name = true ->
  PathParams.scan (name ++ rest) (Some acc) = PathParams.scan rest (Some (acc ++ name)).
Proof.
  revert acc. induction name as [|c name IH]; intros acc H.
  - cbn. rewrite append_empty. reflexivity.
  - cbn in *. apply andb_prop in H as [Hc Hname]. rewrite Hc, (IH _ Hname).
    rewrite append_associative. reflexivity.
Qed.

Lemma scan_path_of_names (names : list string) (name : string) :
  negb (String.eqb name "") = true ->
  PathParams.scan (path_of_names names) (Some name)
  = name :: PathParams.scan (path_of_names names) None.
Proof.
  intros Hname. unfold path_of_names.
  destruct names as [|first names].
  - cbn. destruct name; [discriminate Hname | reflexivity].
  - cbn [map]. rewrite concat_empty_cons. cbn.
    destruct name; [discriminate Hname | reflexivity].
Qed.

(** X18: every placeholder read from a path is a name: it is not empty
    and is made of letters, digits and underscores only, whatever the
    path holds. *)
Theorem placeholders_are_names (path : string) :
  Forall (fun name => is_name name = true) (PathParams.placeholders path).
Proof. apply scan_names. exact I. Qed.

(** X19: a character that is neither a colon nor a word character - a
    slash, a dot, a dash - separates: the placeholders of a path are
    those of what stands before it followed by those of what stands
    after it. *)
Theorem placeholders_split (before after : string) (separator : ascii) :
  JsString.is_word_char separator = false ->
  Ascii.eqb separator ":" = false ->
  PathParams.placeholders (before ++ String separator after)
  = (PathParams.placeholders before ++ PathParams.placeholders after)%list.
Proof. intros Hword Hcolon. apply scan_separator; assumption. Qed.

Lemma placeholders_split_witness :
  PathParams.placeholders ("/orgs/:orgId" ++ String "/" "users/:userId")
  = (PathParams.placeholders "/orgs/:orgId" ++ PathParams.placeholders "users/:userId")%list.
Proof. apply placeholders_split; reflexivity. Defined.

(** X20: writing names as the segments of a path and reading the
    placeholders of that path gives the names back, in order and with
    their repetitions. *)
Theorem placeholders_of_names (names : list string) :
  Forall (fun name => is_name name = true) names ->
  PathParams.placeholders (path_of_names names) = names.
Proof.
  unfold PathParams.placeholders.
  induction 1 as [|name names Hname _ IH]; [reflexivity|].
  assert (Hpath : path_of_names (name :: names)
                  = String "/" (String ":" (name ++ path_of_names names))).
  { unfold path_of_names. cbn [map]. rewrite concat_empty_cons. reflexivity. }
  rewrite Hpath. clear Hpath.
  unfold is_name in Hname. apply andb_prop in Hname as [Hne Hword].
  change (PathParams.scan (String "/" (String ":" (name ++ path_of_names names))) None)
    with (PathParams.scan (name ++ path_of_names names) (Some "")).
  rewrite (scan_word name "" _ Hword). cbn [append].
  rewrite (scan_path_of_names names name Hne), IH. reflexivity.
Qed.

Lemma placeholders_of_names_witness :
  path_of_names ["orgId"; "user_id"; "orgId"] = "/:orgId/:user_id/:orgId"
  /\ PathParams.placeholders (path_of_names ["orgId"; "user_id"; "orgId"])
     = ["orgId"; "user_id"; "orgId"].
Proof.
  split; [reflexivity|]. apply placeholders_of_names. repeat constructor.
Defined.

(** ** The order of the rules of [validateContract] *)

Ltac classify :=
  unfold rule_of;
  repeat match goal with
    | |- context [String.prefix ?p ?m] =>
        first [ rewrite (prefix_append p)
              | replace (String.prefix p m) with false by reflexivity ]
    | |- context [String.eqb ?m ?p] =>
        replace (String.eqb m p) with false by reflexivity
    end;
  reflexivity.

Lemma Ok_injective {A : Type} (x y : A) : Ok x = Ok y -> x = y.
Proof. intros H. injection H as H. exact H. Qed.

Section RuleOrder.

Variable host : Host.
Variable contract : value.
Hypothesis contract_truthy : Js.truthy contract = true.

Lemma required_from_rule (fields : list string) :
  from_rule Required (map missing_field fields).
Proof.
  apply Forall_forall. intros m Hm. apply in_map_iff in Hm as [f [<- _]].
  unfold missing_field. classify.
Qed.

Lemma check_method_from_rule (e : list string) :
  check_method contract = Ok e -> from_rule Method e.
Proof.
  unfold check_method. intros H.
  destruct (Js.get contract "method") as [method|]; cbn [bind] in H; [|discriminate H].
  destruct (Js.truthy method && negb (Js.includes methods method));
    [|apply Ok_injective in H as <-; constructor].
  destruct (Js.to_string method) as [shown|]; cbn [bind] in H; [|discriminate H].
  apply Ok_injective in H as <-. constructor; [classify | constructor].
Qed.

Lemma check_path_from_rule (e : list string) :
  check_path contract = Ok e -> from_rule Path e.
Proof.
  unfold check_path. intros H.
  destruct (Js.get contract "path") as [path|]; cbn [bind] in H; [|discriminate H].
  destruct (Js.truthy path); [|apply Ok_injective in H as <-; constructor].
  destruct path; try discriminate H. apply Ok_injective in H as <-.
  destruct (negb _); constructor; [classify | constructor].
Qed.

Lemma check_response_from_rule (e : list string) :
  check_response contract = Ok e -> from_rule Response e.
Proof.
  unfold check_response. intros H.
  destruct (Js.get contract "response") as [response|]; cbn [bind] in H; [|discriminate H].
  destruct (Js.truthy response && Js.typeof_object response);
    [|apply Ok_injective in H as <-; constructor].
  destruct (Js.keys response) as [ks|]; cbn [bind] in H; [|discriminate H].
  destruct ks as [|k ks]; [apply Ok_injective in H as <-; constructor; [reflexivity | constructor]|].
  revert H. apply for_each_Forall. intros key o _ Ho. apply Ok_injective in Ho as <-.
  destruct (invalid_status key); constructor; [|constructor].
  unfold invalid_status_message. classify.
Qed.

Lemma check_claim_from_rule (entry : nat * value) (e : list string) :
  check_claim entry = Ok e -> from_rule Auth e.
Proof.
  destruct entry as [index claim]. unfold check_claim. intros H.
  destruct (Js.get claim "userClaimPath") as [userClaimPath|]; cbn [bind] in H;
    [|discriminate H].
  destruct (Js.get claim "routeParamName") as [routeParamName|]; cbn [bind] in H;
    [|discriminate H].
  apply Ok_injective in H as <-.
  apply Forall_app. split;
    match goal with |- Forall _ (if ?b then _ else _) => destruct b end;
    constructor; try constructor; unfold claim_missing; classify.
Qed.

Lemma check_auth_from_rule (e : list string) :
  check_auth contract = Ok e -> from_rule Auth e.
Proof.
  unfold check_auth. intros H.
  destruct (Js.get contract "auth") as [auth|]; cbn [bind] in H; [|discriminate H].
  destruct (Js.truthy auth); [|apply Ok_injective in H as <-; constructor].
  destruct (Js.get auth "authorization") as [authorization|]; cbn [bind] in H;
    [|discriminate H].
  destruct (Js.truthy authorization); [|apply Ok_injective in H as <-; constructor].
  destruct (Js.get authorization "roles") as [roles|]; cbn [bind] in H; [|discriminate H].
  destruct (Js.get authorization "scopes") as [scopes|]; cbn [bind] in H; [|discriminate H].
  destruct (Js.get authorization "claims") as [claims|]; cbn [bind] in H; [|discriminate H].
  destruct (check_claims claims) as [claim_errors|] eqn:Hclaims; cbn [bind] in H;
    [|discriminate H].
  apply Ok_injective in H as <-. unfold check_string_or_array.
  apply Forall_app. split.
  { destruct (_ && _); constructor; [reflexivity | constructor]. }
  apply Forall_app. split.
  { destruct (_ && _); constructor; [reflexivity | constructor]. }
  unfold check_claims in Hclaims.
  destruct (Js.truthy claims); [|apply Ok_injective in Hclaims as <-; constructor].
  destruct claims; try (apply Ok_injective in Hclaims as <-; constructor; [reflexivity | constructor]).
  revert Hclaims. apply for_each_Forall. intros entry o _. apply check_claim_from_rule.
Qed.

End RuleOrder.

Lemma prefix_split (p m : string) :
  String.prefix p m = true -> exists s, m = p ++ s.
Proof.
  revert m. induction p as [|c p IH]; intros m H.
  - exists m. reflexivity.
  - destruct m as [|c' m]; [discriminate H|]. cbn [String.prefix] in H.
    destruct (ascii_dec c c') as [<-|]; [|discriminate H].
    destruct (IH m H) as [s ->]. exists s. reflexivity.
Qed.

Lemma method_error_rule (m : string) :
  is_method_error m = true -> rule_of m = Some Method.
Proof.
  unfold is_method_error. intros H. apply prefix_split in H as [s ->]. classify.
Qed.

Lemma path_error_rule (m : string) :
  is_invalid_path_error m = true -> rule_of m = Some Path.
Proof.
  unfold is_invalid_path_error. intros H. apply prefix_split in H as [s ->]. classify.
Qed.

Lemma filter_other_rule (f : string -> bool) (mine other : rule) (l : list string) :
  (forall m, f m = true -> rule_of m = Some mine) ->
  mine <> other ->
  from_rule other l ->
  filter f l = [].
Proof.
  intros Hf Hne Hl. apply filter_none. revert Hl. apply Forall_impl. intros m Hm.
  destruct (f m) eqn:E; [|reflexivity].
  apply Hf in E. rewrite E in Hm. injection Hm as Hm. contradiction (Hne Hm).
Qed.

(** The errors of a typed contract, rule by rule. *)
Lemma errors_by_rule (host : Host) (contractPath : string) (info : ContractInfo) :
  well_typed (ci_contract info) = true ->
  exists e_method e_path e_response e_auth r,
    validateContract_checks host contractPath info = Ok r
    /\ error_list r
       = (map missing_field (unset_fields (ci_contract info))
          ++ e_method ++ e_path ++ e_response ++ e_auth)%list
    /\ check_method (ci_contract info) = Ok e_method
    /\ check_path (ci_contract info) = Ok e_path
    /\ from_rule Method e_method
    /\ from_rule Path e_path
    /\ from_rule Response e_response
    /\ from_rule Auth e_auth.
Proof.
  intros Htyped.
  destruct (validateContract_checks_typed host contractPath info Htyped)
    as (e_method & e_path & e_response & e_auth & w & d & Em & Ep & Er & Ea & Hr).
  exists e_method, e_path, e_response, e_auth. eexists.
  split; [exact Hr|]. split; [apply error_list_report|].
  split; [exact Em|]. split; [exact Ep|].
  split; [apply (check_method_from_rule _ _ Em)|].
  split; [apply (check_path_from_rule _ _ Ep)|].
  split; [apply (check_response_from_rule _ _ Er) | apply (check_auth_from_rule _ _ Ea)].
Qed.

(** X21: the errors of [validateContract] on a typed contract come out
    rule by rule, in one fixed order whatever the order of the fields:
    the missing fields, then the method, the path, the response keys and
    the authorization; every error belongs to one of the five rules. *)
Theorem errors_in_rule_order (host : Host) (contractPath : string) (a a' : Adapter)
  (info : ContractInfo) :
  readContract host contractPath a = (Ok info, a') ->
  well_typed (ci_contract info) = true ->
  exists r e_required e_method e_path e_response e_auth,
    fst (validateContract host contractPath a) = Ok r
    /\ error_list r = (e_required ++ e_method ++ e_path ++ e_response ++ e_auth)%list
    /\ from_rule Required e_required
    /\ from_rule Method e_method
    /\ from_rule Path e_path
    /\ from_rule Response e_response
    /\ from_rule Auth e_auth.
Proof.
  intros Hread Htyped.
  destruct (errors_by_rule host contractPath info Htyped)
    as (e_method & e_path & e_response & e_auth & r & Hr & Herrors & _ & _ & Hm & Hp
        & Hre & Ha).
  exists r, (map missing_field (unset_fields (ci_contract info))),
    e_method, e_path, e_response, e_auth.
  split; [apply (validateContract_read host _ a a' info r Hread Hr)|].
  split; [exact Herrors|]. split; [apply required_from_rule|].
  repeat split; assumption.
Qed.

Lemma errors_in_rule_order_witness :
  let contract := VObj [ ("response", VObj [("20", VObj [])]);
                         ("auth", VObj [("authorization",
                                         VObj [("claims", VStr "userId")])]);
                         ("path", VStr "users");
                         ("method", VStr "GET") ] in
  exists r,
    fst (validateContract (demo_host contract) "c.ts" demo_adapter) = Ok r
    /\ map rule_of (error_list r) = [Some Method; Some Path; Some Response; Some Auth].
Proof.
  intros contract.
  destruct (errors_in_rule_order (demo_host contract) "c.ts" demo_adapter
              (snd (readContract (demo_host contract) "c.ts" demo_adapter))
              {| ci_path := "/contracts/c.ts";
                 ci_content := "export const Contract = { };";
                 ci_contract := contract;
                 ci_exportName := Some "Contract";
                 ci_sourceFile := Some (demo_source contract) |}
              eq_refl eq_refl) as (r & _ & _ & _ & _ & _ & Hr & _).
  exists r. split; [exact Hr|].
  vm_compute in Hr. injection Hr as <-. reflexivity.
Defined.

Lemma method_errors_of (e_required e_method e_path e_response e_auth : list string) :
  from_rule Required e_required ->
  from_rule Path e_path ->
  from_rule Response e_response ->
  from_rule Auth e_auth ->
  filter is_method_error (e_required ++ e_method ++ e_path ++ e_response ++ e_auth)
  = filter is_method_error e_method.
Proof.
  intros Hr Hp Hre Ha. rewrite !filter_app.
  rewrite (filter_other_rule _ Method Required _ method_error_rule ltac:(discriminate) Hr),
    (filter_other_rule _ Method Path _ method_error_rule ltac:(discriminate) Hp),
    (filter_other_rule _ Method Response _ method_error_rule ltac:(discriminate) Hre),
    (filter_other_rule _ Method Auth _ method_error_rule ltac:(discriminate) Ha).
  cbn [app]. apply app_nil_r.
Qed.

Lemma path_errors_of (e_required e_method e_path e_response e_auth : list string) :
  from_rule Required e_required ->
  from_rule Method e_method ->
  from_rule Response e_response ->
  from_rule Auth e_auth ->
  filter is_invalid_path_error (e_required ++ e_method ++ e_path ++ e_response ++ e_auth)
  = filter is_invalid_path_error e_path.
Proof.
  intros Hr Hm Hre Ha. rewrite !filter_app.
  rewrite (filter_other_rule _ Path Required _ path_error_rule ltac:(discriminate) Hr),
    (filter_other_rule _ Path Method _ path_error_rule ltac:(discriminate) Hm),
    (filter_other_rule _ Path Response _ path_error_rule ltac:(discriminate) Hre),
    (filter_other_rule _ Path Auth _ path_error_rule ltac:(discriminate) Ha).
  cbn [app]. apply app_nil_r.
Qed.

Lemma check_method_string (contract : value) (m : string) :
  Js.truthy contract = true ->
  Js.prop contract "method" = VStr m ->
  check_method contract
  = Ok (if String.eqb m "" || existsb (String.eqb m) methods then []
        else ["Invalid method: " ++ m ++ ". Must be one of: get, post, put, delete, patch"]).
Proof.
  intros Ht Hm. unfold check_method. rewrite (get_truthy _ _ Ht), Hm. cbn [bind].
  change (Js.truthy (VStr m)) with (negb (String.eqb m "")).
  change (Js.includes methods (VStr m)) with (existsb (String.eqb m) methods).
  destruct (String.eqb m ""); [reflexivity|].
  destruct (existsb (String.eqb m) methods); reflexivity.
Qed.

Lemma check_path_string (contract : value) (p : string) :
  Js.truthy contract = true ->
  Js.prop contract "path" = VStr p ->
  check_path contract
  = Ok (if String.eqb p "" || JsString.startsWith p "/" then []
        else ["Invalid path: " ++ p ++ ". Must start with /"]).
Proof.
  intros Ht Hp. unfold check_path. rewrite (get_truthy _ _ Ht), Hp. cbn [bind].
  change (Js.truthy (VStr p)) with (negb (String.eqb p "")).
  destruct (String.eqb p ""); [reflexivity|].
  destruct (JsString.startsWith p "/"); reflexivity.
Qed.

Lemma well_typed_truthy (contract : value) :
  well_typed contract = true -> Js.truthy contract = true.
Proof.
  unfold well_typed. intros H.
  apply andb_prop in H as [H _]. apply andb_prop in H as [H _].
  apply andb_prop in H as [H _]. exact H.
Qed.

(** X22: the method rule of [validateContract] on a typed contract. The
    method is compared as it is written with the five lower-case names:
    a method among them, or the empty string, raises no 'Invalid method'
    error; any other string, an upper-case name included, raises exactly
    one, which quotes it. *)
Theorem method_rule (host : Host) (contractPath : string) (a a' : Adapter)
  (info : ContractInfo) (m : string) :
  readContract host contractPath a = (Ok info, a') ->
  well_typed (ci_contract info) = true ->
  Js.prop (ci_contract info) "method" = VStr m ->
  exists r,
    fst (validateContract host contractPath a) = Ok r
    /\ filter is_method_error (error_list r)
       = if String.eqb m "" || existsb (String.eqb m) methods then []
         else ["Invalid method: " ++ m
               ++ ". Must be one of: get, post, put, delete, patch"].
Proof.
  intros Hread Htyped Hmethod.
  destruct (errors_by_rule host contractPath info Htyped)
    as (e_method & e_path & e_response & e_auth & r & Hr & Herrors & Em & _ & _ & Hp
        & Hre & Ha).
  exists r. split; [apply (validateContract_read host _ a a' info r Hread Hr)|].
  rewrite Herrors,
    (method_errors_of _ _ _ _ _ (required_from_rule _) Hp Hre Ha).
  rewrite (check_method_string _ m (well_typed_truthy _ Htyped) Hmethod) in Em.
  apply Ok_injective in Em as <-.
  destruct (String.eqb m "" || existsb (String.eqb m) methods); [reflexivity|].
  cbn [filter]. unfold is_method_error. rewrite prefix_append. reflexivity.
Qed.

Lemma method_rule_witness :
  let contract := VObj [ ("path", VStr "/users");
                         ("method", VStr "GET");
                         ("response", VObj [("200", VObj [])]) ] in
  exists r,
    fst (validateContract (demo_host contract) "c.ts" demo_adapter) = Ok r
    /\ filter is_method_error (error_list r)
       = ["Invalid method: GET. Must be one of: get, post, put, delete, patch"].
Proof.
  intros contract.
  apply (method_rule (demo_host contract) "c.ts" demo_adapter
           (snd (readContract (demo_host contract) "c.ts" demo_adapter))
           {| ci_path := "/contracts/c.ts";
              ci_content := "export const Contract = { };";
              ci_contract := contract;
              ci_exportName := Some "Contract";
              ci_sourceFile := Some (demo_source contract) |}
           "GET" eq_refl eq_refl eq_refl).
Defined.

(** X23: the path rule of [validateContract] on a typed contract. A path
    that starts with a slash, or the empty path, raises no 'Invalid path'
    error; any other string raises exactly one, which quotes it. *)
Theorem path_rule (host : Host) (contractPath : string) (a a' : Adapter)
  (info : ContractInfo) (p : string) :
  readContract host contractPath a = (Ok info, a') ->
  well_typed (ci_contract info) = true ->
  Js.prop (ci_contract info) "path" = VStr p ->
  exists r,
    fst (validateContract host contractPath a) = Ok r
    /\ filter is_invalid_path_error (error_list r)
       = if String.eqb p "" || JsString.startsWith p "/" then []
         else ["Invalid path: " ++ p ++ ". Must start with /"].
Proof.
  intros Hread Htyped Hpath.
  destruct (errors_by_rule host contractPath info Htyped)
    as (e_method & e_path & e_response & e_auth & r & Hr & Herrors & _ & Ep & Hm & _
        & Hre & Ha).
  exists r. split; [apply (validateContract_read host _ a a' info r Hread Hr)|].
  rewrite Herrors,
    (path_errors_of _ _ _ _ _ (required_from_rule _) Hm Hre Ha).
  rewrite (check_path_string _ p (well_typed_truthy _ Htyped) Hpath) in Ep.
  apply Ok_injective in Ep as <-.
  destruct (String.eqb p "" || JsString.startsWith p "/"); [reflexivity|].
  cbn [filter]. unfold is_invalid_path_error. rewrite prefix_append. reflexivity.
Qed.

Lemma path_rule_witness :
  let contract := VObj [ ("path", VStr "users/:id");
                         ("method", VStr "get");
                         ("response", VObj [("200", VObj [])]) ] in
  exists r,
    fst (validateContract (demo_host contract) "c.ts" demo_adapter) = Ok r
    /\ filter is_invalid_path_error (error_list r)
       = ["Invalid path: users/:id. Must start with /"].
Proof.
  intros contract.
  apply (path_rule (demo_host contract) "c.ts" demo_adapter
           (snd (readContract (demo_host contract) "c.ts" demo_adapter))
           {| ci_path := "/contracts/c.ts";
              ci_content := "export const Contract = { };";
              ci_contract := contract;
              ci_exportName := Some "Contract";
              ci_sourceFile := Some (demo_source contract) |}
           "users/:id" eq_refl eq_refl eq_refl).
Defined.

(** ** Faults that hide the diagnostics *)







(** ** The details of a validated contract *)

Lemma validateContract_checks_details (host : Host) (contractPath : string)
  (info : ContractInfo) :
  well_typed (ci_contract info) = true ->
  exists r d,
    validateContract_checks host contractPath info = Ok r
    /\ contract_details host contractPath info (ci_contract info) = Ok d
    /\ details r = Some d.
Proof.
  intros Htyped.
  destruct (validateContract_checks_typed host contractPath info Htyped)
    as (e_method & e_path & e_response & e_auth & w & d & Em & Ep & Er & Ea & Hr).
  pose proof (well_typed_truthy _ Htyped) as Ht.
  destruct (contract_details_ok host contractPath info _ Ht) as [d' Ed].
  eexists. exists d'. split; [exact Hr|]. split; [exact Ed|].
  unfold validateContract_checks in Hr. rewrite Ht in Hr. cbn [negb] in Hr.
  rewrite (check_required_unset _ Ht), Em, Ep, Er, Ea in Hr. cbn [bind] in Hr.
  destruct (check_params_schema (ci_contract info)); cbn [bind] in Hr;
    [|discriminate Hr].
  rewrite Ed in Hr. cbn [bind] in Hr. apply Ok_injective in Hr.
  apply (f_equal details) in Hr. cbn [details report] in Hr. symmetry. exact Hr.
Qed.

(** X26: the details [validateContract] returns for a typed contract are
    normalised: they always hold the same eleven entries in the same
    order; [tags] is an array whatever the contract wrote (a single tag
    is wrapped, an unset one gives the empty array); [summary] is never
    falsy; [responseStatuses] is a list of strings. *)
Theorem details_are_normalised (host : Host) (contractPath : string) (a a' : Adapter)
  (info : ContractInfo) :
  readContract host contractPath a = (Ok info, a') ->
  well_typed (ci_contract info) = true ->
  exists r d,
    fst (validateContract host contractPath a) = Ok r
    /\ details r = Some d
    /\ map fst d = [ "contractName"; "path"; "method"; "apiPath"; "tags"; "summary";
                     "hasParams"; "hasQuery"; "hasBody"; "responseStatuses";
                     "requiresAuth" ]
    /\ (exists tags,
          Js.assoc d "tags" = Some (VArr tags)
          /\ (Js.isArray (Js.prop (ci_contract info) "tags") = false ->
              tags = if Js.truthy (Js.prop (ci_contract info) "tags")
                     then [Js.prop (ci_contract info) "tags"] else []))
    /\ (exists summary, Js.assoc d "summary" = Some summary /\ Js.truthy summary = true)
    /\ (exists statuses, Js.assoc d "responseStatuses" = Some (Js.strings statuses)).
Proof.
  intros Hread Htyped.
  destruct (validateContract_checks_details host contractPath info Htyped)
    as (r & d & Hr & Hd & Hdetails).
  exists r, d. split; [apply (validateContract_read host _ a a' info r Hread Hr)|].
  split; [exact Hdetails|].
  pose proof (well_typed_truthy _ Htyped) as Ht.
  unfold contract_details in Hd. rewrite !(get_truthy _ _ Ht) in Hd. cbn [bind] in Hd.
  assert (Hkeys : exists statuses,
             (if Js.truthy (Js.prop (ci_contract info) "response")
              then Js.keys (Js.prop (ci_contract info) "response") else Ok [])
             = Ok statuses).
  { destruct (Js.truthy (Js.prop (ci_contract info) "response")) eqn:Hresponse.
    - apply keys_truthy, Hresponse.
    - eexists; reflexivity. }
  destruct Hkeys as [statuses Hkeys]. rewrite Hkeys in Hd. cbn [bind] in Hd.
  apply Ok_injective in Hd. subst d.
  split; [reflexivity|]. split; [|split].
  - destruct (Js.truthy (Js.prop (ci_contract info) "tags")) eqn:Htags.
    + destruct (Js.prop (ci_contract info) "tags") eqn:E;
        try (eexists; split; [reflexivity | intros _; reflexivity]).
      eexists; split; [reflexivity | intros H; discriminate H].
    + eexists; split; [reflexivity | intros _; reflexivity].
  - destruct (Js.truthy (Js.prop (ci_contract info) "summary")) eqn:Hsummary.
    + eexists; split; [reflexivity | exact Hsummary].
    + eexists; split; reflexivity.
  - exists statuses. reflexivity.
Qed.

Lemma details_are_normalised_witness :
  let contract := VObj [ ("path", VStr "/users");
                         ("method", VStr "get");
                         ("tags", VStr "users");
                         ("summary", VStr "");
                         ("response", VObj [("200", VObj [])]) ] in
  exists r d,
    fst (validateContract (demo_host contract) "c.ts" demo_adapter) = Ok r
    /\ details r = Some d
    /\ Js.assoc d "tags" = Some (VArr [VStr "users"])
    /\ Js.assoc d "summary" = Some (VStr "No summary provided").
Proof.
  intros contract.
  destruct (details_are_normalised (demo_host contract) "c.ts" demo_adapter
              (snd (readContract (demo_host contract) "c.ts" demo_adapter))
              {| ci_path := "/contracts/c.ts";
                 ci_content := "export const Contract = { };";
                 ci_contract := contract;
                 ci_exportName := Some "Contract";
                 ci_sourceFile := Some (demo_source contract) |}
              eq_refl eq_refl) as (r & d & Hr & Hd & _).
  exists r, d. split; [exact Hr|]. split; [exact Hd|].
  vm_compute in Hr. injection Hr as <-.
  vm_compute in Hd. injection Hd as <-. split; reflexivity.
Defined.

(** ** Requests that cannot be looked into *)

(** X27: with a contract found, a request that is [undefined] or [null]
    makes [validateRequestAgainstContract] fault on destructuring it: the
    result is the single failure that names the fault, and no rule is
    run. *)
Theorem nullish_request_fails (host : Host) (contractPath : string) (a a' : Adapter)
  (info : ContractInfo) (request : value) :
  readContract host contractPath a = (Ok info, a') ->
  Js.truthy (ci_contract info) = true ->
  nullish request = true ->
  single_failure (fst (validateRequestAgainstContract host contractPath request a))
    ("Failed to validate request: Cannot destructure property 'params' of 'request' as it is "
     ++ match request with VNull => "null" | _ => "undefined" end ++ ".").
Proof.
  intros Hread Ht Hrequest.
  unfold validateRequestAgainstContract. rewrite Hread. cbn [bind fst].
  unfold validateRequestAgainstContract_checks. rewrite Ht. cbn [negb].
  rewrite !(get_truthy _ _ Ht). cbn [bind].
  destruct request; try discriminate Hrequest; cbn [destructure_request bind try_catch];
    apply failed_single.
Qed.

Lemma nullish_request_fails_witness :
  let contract := VObj [ ("path", VStr "/users");
                         ("method", VStr "get");
                         ("response", VObj [("200", VObj [])]) ] in
  single_failure
    (fst (validateRequestAgainstContract (demo_host contract) "c.ts" VUndefined
            demo_adapter))
    "Failed to validate request: Cannot destructure property 'params' of 'request' as it is undefined.".
Proof.
  intros contract.
  apply (nullish_request_fails (demo_host contract) "c.ts" demo_adapter
           (snd (readContract (demo_host contract) "c.ts" demo_adapter))
           {| ci_path := "/contracts/c.ts";
              ci_content := "export const Contract = { };";
              ci_contract := contract;
              ci_exportName := Some "Contract";
              ci_sourceFile := Some (demo_source contract) |}
           VUndefined eq_refl eq_refl eq_refl).
Defined.

(** X28: when the path has placeholders and the request carries no
    (truthy) [params], [validateRequestAgainstContract] reports them all
    in one error, the last of the list, and no 'Missing required path
    parameter' error at all; the request fails. *)
Theorem placeholders_without_params (host : Host) (contractPath : string)
  (a a' : Adapter) (info : ContractInfo) (request : value) (path name : string)
  (more : list string) :
  readContract host contractPath a = (Ok info, a') ->
  Js.truthy (ci_contract info) = true ->
  Js.prop (ci_contract info) "path" = VStr path ->
  PathParams.placeholders path = name :: more ->
  nullish request = false ->
  Js.truthy (Js.prop request "params") = false ->
  exists r e_query,
    fst (validateRequestAgainstContract host contractPath request a) = Ok r
    /\ success r = false
    /\ error_list r
       = (e_query
          ++ [ ("Path contains parameters (" ++ JsString.join ", " (name :: more)
                ++ ") but no params object was provided")%string ])%list
    /\ Forall (fun m => m = "Query parameters must be an object") e_query
    /\ filter is_missing_parameter_error (error_list r) = [].
Proof.
  intros Hread Ht Hpath Hnames Hrequest Hparams.
  destruct (check_container_ok (Js.prop (ci_contract info) "query")
              (Js.prop request "query")
              "Query parameters must be an object" "queryValid" "queryProvided")
    as (e_query & d_query & Eq & Hq).
  destruct (check_body_cases (Js.prop (ci_contract info) "body")
              (Js.prop (ci_contract info) "method") (Js.prop request "body"))
    as (w & Ew & _).
  assert (Hset : Js.truthy (VStr path) = true).
  { destruct path; [discriminate Hnames | reflexivity]. }
  assert (Ep : check_path_parameters (VStr path) (Js.prop request "params")
               = Ok [ "Path contains parameters (" ++ JsString.join ", " (name :: more)
                      ++ ") but no params object was provided" ]).
  { unfold check_path_parameters. rewrite Hset. cbn [PathParams.of_value bind].
    rewrite Hnames, Hparams. reflexivity. }
  assert (Hr : validateRequestAgainstContract_checks host contractPath info request
               = Ok (report
                       (e_query
                        ++ [ ("Path contains parameters ("
                              ++ JsString.join ", " (name :: more)
                              ++ ") but no params object was provided")%string ])%list
                       w
                       ([ ("contractName", VStr (contractName host contractPath));
                          ("path", VStr (ci_path info));
                          ("method", Js.prop (ci_contract info) "method");
                          ("apiPath", VStr path) ]
                        ++ d_query
                        ++ when (Js.truthy (Js.prop (ci_contract info) "body")
                                 && Js.truthy (Js.prop request "body"))
                           push ("bodyProvided", VBool true))%list)).
  { unfold validateRequestAgainstContract_checks. rewrite Ht. cbn [negb].
    rewrite !(get_truthy _ _ Ht). cbn [bind].
    rewrite (destructure_request_ok _ Hrequest). cbn [bind].
    unfold check_container at 1. rewrite Hparams, andb_false_r. cbn [bind].
    rewrite Eq. cbn [bind]. rewrite Ew. cbn [bind].
    rewrite Hpath, Ep. cbn [bind app]. reflexivity. }
  eexists. exists e_query.
  split; [apply (validateRequestAgainstContract_read host _ a a' info _ _ Hread Hr)|].
  split; [|split; [apply error_list_report | split; [exact Hq|]]].
  - rewrite success_report. destruct e_query; reflexivity.
  - rewrite error_list_report, filter_app.
    rewrite (filter_none is_missing_parameter_error e_query)
      by (revert Hq; apply Forall_impl; intros m ->; reflexivity).
    reflexivity.
Qed.

Lemma placeholders_without_params_witness :
  let contract := VObj [ ("path", VStr "/orgs/:orgId/users/:userId");
                         ("method", VStr "get");
                         ("response", VObj [("200", VObj [])]) ] in
  exists r,
    fst (validateRequestAgainstContract (demo_host contract) "c.ts" (VObj [])
           demo_adapter) = Ok r
    /\ error_list r
       = [ "Path contains parameters (orgId, userId) but no params object was provided" ].
Proof.
  intros contract.
  destruct (placeholders_without_params (demo_host contract) "c.ts" demo_adapter
              (snd (readContract (demo_host contract) "c.ts" demo_adapter))
              {| ci_path := "/contracts/c.ts";
                 ci_content := "export const Contract = { };";
                 ci_contract := contract;
                 ci_exportName := Some "Contract";
                 ci_sourceFile := Some (demo_source contract) |}
              (VObj []) "/orgs/:orgId/users/:userId" "orgId" ["userId"]
              eq_refl eq_refl eq_refl eq_refl eq_refl eq_refl)
    as (r & e_query & Hr & _).
  exists r. split; [exact Hr|].
  vm_compute in Hr. injection Hr as <-. reflexivity.
Defined.

(** ** Through the addon *)

Lemma undeclared_status_checks (host : Host) (contractPath : string) (info : ContractInfo)
  (props : list (string * value)) (status : option number) :
  Js.truthy (ci_contract info) = true ->
  Js.prop (ci_contract info) "response" = VObj props ->
  Js.assoc props (JsNumber.toString (default_status status)) = None ->
  exists r,
    (forall payload,
        validateResponseAgainstContract_checks host contractPath info payload status
        = Ok r)
    /\ success r = false
    /\ errors r = Some [ "Contract does not define a response for status code "
                         ++ JsNumber.toString (default_status status) ].
Proof.
  intros Ht Hresponse Hkey.
  exists (report
            [ "Contract does not define a response for status code "
              ++ JsNumber.toString (default_status status) ]
            []
            ([ ("contractName", VStr (contractName host contractPath));
               ("path", VStr (ci_path info));
               ("method", Js.prop (ci_contract info) "method");
               ("statusCode", VNum (default_status status)) ]
             ++ match map fst props with
                | [] => []
                | _ :: _ =>
                    [ ("definedStatusCodes", Js.strings (map fst props));
                      ("suggestions",
                       VStr ("Contract defines responses for status codes: "
                             ++ JsString.join ", " (map fst props))) ]
                end)).
  split; [|split; reflexivity].
  intros payload. unfold validateResponseAgainstContract_checks.
  rewrite Ht. cbn [negb]. rewrite !(get_truthy _ _ Ht). cbn [bind].
  rewrite Hresponse, (undeclared_no_key props _ Hkey). cbn [bind Js.truthy Js.keys].
  destruct (map fst props); reflexivity.
Qed.

(** X29: the addon's handler of [validateResponseAgainstContract] passes
    no status code, so a response is always checked against status 200:
    for a contract whose [response] mapping has no key 200 the handler
    fails on every payload, with the single error that the contract
    defines no response for 200. *)
Theorem handler_checks_status_200 (host : Host) (contractPath : string) (a a' : Adapter)
  (info : ContractInfo) (props : list (string * value)) :
  readContract host contractPath a = (Ok info, a') ->
  Js.truthy (ci_contract info) = true ->
  Js.prop (ci_contract info) "response" = VObj props ->
  Js.assoc props "200" = None ->
  exists r,
    (forall payload,
        fst (handler_validateResponseAgainstContract host contractPath payload a) = Ok r)
    /\ success r = false
    /\ errors r = Some ["Contract does not define a response for status code 200"].
Proof.
  intros Hread Ht Hresponse Hkey.
  destruct (undeclared_status_checks host contractPath info props None Ht Hresponse Hkey)
    as (r & Hr & Hsuccess & Herrors).
  exists r. split; [|split; [exact Hsuccess | exact Herrors]].
  intros payload. unfold handler_validateResponseAgainstContract.
  apply (validateResponseAgainstContract_read host _ a a' info _ _ _ Hread (Hr payload)).
Qed.

Lemma handler_checks_status_200_witness :
  let contract := VObj [ ("path", VStr "/users");
                         ("method", VStr "post");
                         ("response", VObj [("201", VObj [("id", VStr "string")])]) ] in
  exists r,
    (forall payload,
        fst (handler_validateResponseAgainstContract (demo_host contract) "c.ts" payload
               demo_adapter) = Ok r)
    /\ success r = false
    /\ errors r = Some ["Contract does not define a response for status code 200"].
Proof.
  intros contract.
  apply (handler_checks_status_200 (demo_host contract) "c.ts" demo_adapter
           (snd (readContract (demo_host contract) "c.ts" demo_adapter))
           {| ci_path := "/contracts/c.ts";
              ci_content := "export const Contract = { };";
              ci_contract := contract;
              ci_exportName := Some "Contract";
              ci_sourceFile := Some (demo_source contract) |}
           [("201", VObj [("id", VStr "string")])]
           eq_refl eq_refl eq_refl eq_refl).
Defined.

(** X30: the addon's handler of [generateMockResponse] passes no status
    code either.  For a contract with a non-empty [response] mapping the
    mock is built for status 200 when the mapping holds a truthy entry
    for 200, and for the parse of its first key otherwise - the integer
    itself when that key is the numeral of an integer below 2^53; in both
    cases it is a successful mock with data. *)
Theorem handler_mocks_status_200 (host : Host) (contractPath : string) (a a' : Adapter)
  (info : ContractInfo) (key : string) (schema : value) (rest : list (string * value)) :
  readContract host contractPath a = (Ok info, a') ->
  Js.truthy (ci_contract info) = true ->
  Js.prop (ci_contract info) "response" = VObj ((key, schema) :: rest) ->
  exists m,
    fst (handler_generateMockResponse host contractPath a) = Ok m
    /\ m = fst (mock_for host (contractName host contractPath)
                  (if Js.truthy (Js.prop (VObj ((key, schema) :: rest)) "200")
                   then Num 200
                   else JsNumber.parseInt key (Some 10))
                  (draws a', clock a'))
    /\ (forall n, 0 <= n < JsNumber.two53 -> key = JsString.of_Z n ->
        JsNumber.parseInt key (Some 10) = Num n)
    /\ mock_success m = true
    /\ mock_data m <> VNull.
Proof.
  intros Hread Ht Hresponse.
  destruct (readContract_sourceFile host contractPath a a' info Hread Ht) as [sf Hsf].
  assert (Hsettle : settle_status (ci_contract info) (default_status None)
                    = Ok (Some (if Js.truthy (Js.prop (VObj ((key, schema) :: rest)) "200")
                                then Num 200
                                else JsNumber.parseInt key (Some 10)))).
  { unfold settle_status. rewrite (get_truthy _ _ Ht), Hresponse. cbn [bind].
    unfold undeclared. cbn [Js.truthy negb Js.get bind].
    change (JsNumber.toString (default_status None)) with "200".
    destruct (Js.truthy (Js.prop (VObj ((key, schema) :: rest)) "200")); reflexivity. }
  unfold handler_generateMockResponse, generateMockResponse.
  rewrite Hread. cbn [bind]. rewrite Ht, Hsf, Hsettle.
  match goal with
  | |- context [mock_for host ?name ?code ?st] =>
      destruct (mock_for_succeeds host name code st) as (Hs & Hd & _);
      destruct (mock_for host name code st) as [m st'] eqn:Hm
  end.
  cbn [fst] in *. exists m. split; [reflexivity|]. split; [reflexivity|].
  split; [intros n Hn ->; apply parseInt_numeral, Hn|]. split; assumption.
Qed.

Lemma handler_mocks_status_200_witness :
  let contract := VObj [ ("path", VStr "/users");
                         ("method", VStr "post");
                         ("response", VObj [("201", VObj []); ("400", VObj [])]) ] in
  exists m,
    fst (handler_generateMockResponse (demo_host contract) "user.post.contracts.ts"
           demo_adapter) = Ok m
    /\ Js.prop (mock_data m) "message"
       = VStr "Mock response for user.post.contracts with status 201".
Proof.
  intros contract.
  destruct (handler_mocks_status_200 (demo_host contract) "user.post.contracts.ts"
              demo_adapter
              (snd (readContract (demo_host contract) "user.post.contracts.ts"
                      demo_adapter))
              {| ci_path := "/contracts/user.post.contracts.ts";
                 ci_content := "export const Contract = { };";
                 ci_contract := contract;
                 ci_exportName := Some "Contract";
                 ci_sourceFile := Some (demo_source contract) |}
              "201" (VObj []) [("400", VObj [])]
              eq_refl eq_refl eq_refl) as (m & Hm & Hfor & _).
  exists m. split; [exact Hm|]. rewrite Hfor. reflexivity.
Defined.
